(** * internal-audit: the audit application's data model and request handlers

    A shallow embedding of [audit/models.py], [audit/forms.py] and
    [audit/views.py], and the properties of the specification that concern
    them.  Tables are finite maps from primary keys to rows, decoded JSON
    bodies are finite maps from keys to Python scalars, handlers are
    functions from a request and a database to a response and a database.

    The handlers call into Django.  Each Django routine that a handler
    reaches is written out next to the line that calls it, under the name
    Django gives it.  What depends on the deployment (settings, locale,
    database backend, mail transport, the e-mail grammar) is collected in
    the class [Deployment]. *)

From Stdlib Require Import Ascii String.
From stdpp Require Import gmap strings list sorting pretty.

Open Scope Z_scope.

(** ** Python values and built-ins *)

(** The values [json.loads] puts under the keys of an object, restricted to
    scalars: [None], booleans, integers and strings.  Floats and nested
    containers are outside the model. *)
Inductive pyval :=
| PyNone
| PyBool (b : bool)
| PyInt (n : Z)
| PyStr (s : string).

Global Instance pyval_eq_dec : EqDecision pyval.
Proof. solve_decision. Defined.

(** [str(v)] *)
Definition py_str (v : pyval) : string :=
  match v with
  | PyNone => "None"
  | PyBool true => "True"
  | PyBool false => "False"
  | PyInt n => pretty n
  | PyStr s => s
  end.

(** Truth value of [v], as in [v or ''] and [if not v]. *)
Definition truthy (v : pyval) : bool :=
  match v with
  | PyNone => false
  | PyBool b => b
  | PyInt n => negb (n =? 0)
  | PyStr s => negb (String.eqb s "")
  end.

(** [d.get(k)]: a missing key reads as [None]. *)
Definition dict_get (d : gmap string pyval) (k : string) : pyval :=
  default PyNone (d !! k).

(** [d.get(k, dflt)] *)
Definition dict_get_default (d : gmap string pyval) (k : string) (dflt : pyval) : pyval :=
  default dflt (d !! k).

(** ASCII white space, the part of [str.isspace] that a byte string can hold. *)
Definition is_space (c : ascii) : bool :=
  let n := nat_of_ascii c in
  ((9 <=? n)%nat && (n <=? 13)%nat) || ((28 <=? n)%nat && (n <=? 32)%nat).

Fixpoint lstrip_chars (l : list ascii) : list ascii :=
  match l with
  | c :: l' => if is_space c then lstrip_chars l' else l
  | [] => []
  end.

Definition strip_chars (l : list ascii) : list ascii :=
  rev (lstrip_chars (rev (lstrip_chars l))).

(** [s.strip()] *)
Definition strip (s : string) : string :=
  string_of_list_ascii (strip_chars (list_ascii_of_string s)).

Definition digit_of (c : ascii) : option Z :=
  let n := Z.of_nat (nat_of_ascii c) in
  if (48 <=? n) && (n <=? 57) then Some (n - 48) else None.

(** The digits of an integer literal; [after_digit] tells whether the
    previous character was a digit: an underscore may only stand between
    two digits. *)
Fixpoint int_digits (acc : Z) (after_digit : bool) (l : list ascii) : option Z :=
  match l with
  | [] => if after_digit then Some acc else None
  | c :: l' =>
      match digit_of c with
      | Some d => int_digits (10 * acc + d) true l'
      | None =>
          if Ascii.eqb c "_" && after_digit then int_digits acc false l' else None
      end
  end.

(** [int(s)] for a string [s]; [None] stands for [ValueError]. *)
Definition python_int (s : string) : option Z :=
  match strip_chars (list_ascii_of_string s) with
  | "-"%char :: l => Z.opp <$> int_digits 0 false l
  | "+"%char :: l => int_digits 0 false l
  | l => int_digits 0 false l
  end.

(** [int(v)] for a scalar; [None] stands for [TypeError] or [ValueError]. *)
Definition py_int (v : pyval) : option Z :=
  match v with
  | PyNone => None
  | PyBool b => Some (if b then 1 else 0)
  | PyInt n => Some n
  | PyStr s => python_int s
  end.

(** [needle in hay] for strings, as a proposition. *)
Definition contains (hay needle : string) : Prop :=
  ∃ pre post, hay = pre +:+ needle +:+ post.

(** ** JSON documents sent back to the caller *)

#[local] Unset Elimination Schemes.
Inductive json :=
| JNull
| JBool (b : bool)
| JNum (n : Z)
| JStr (s : string)
| JList (l : list json)
| JObj (members : list (string * json)).
#[local] Set Elimination Schemes.

Fixpoint assoc {A} (k : string) (ms : list (string * A)) : option A :=
  match ms with
  | [] => None
  | (k', v) :: ms' => if String.eqb k' k then Some v else assoc k ms'
  end.

(** Member [k] of a JSON object. *)
Definition member (k : string) (j : json) : option json :=
  match j with
  | JObj ms => assoc k ms
  | _ => None
  end.

(** ** [decimal.Decimal] *)

(** A finite decimal: [(-1)^sign * coefficient * 10^exponent].  The digit
    tuple of [as_tuple()] is the decimal expansion of [coefficient]. *)
Record Decimal := mkDecimal {
  sign : bool;
  coefficient : N;
  exponent : Z;
}.

Definition signed_coefficient (d : Decimal) : Z :=
  if sign d then - Z.of_N (coefficient d) else Z.of_N (coefficient d).

(** Comparison of a decimal with an integer, exact. *)
Definition Decimal_compare (d : Decimal) (n : Z) : comparison :=
  if 0 <=? exponent d
  then signed_coefficient d * 10 ^ exponent d ?= n
  else signed_coefficient d ?= n * 10 ^ (- exponent d).

Definition Decimal_lt (d : Decimal) (n : Z) : Prop := Decimal_compare d n = Lt.
Definition Decimal_gt (d : Decimal) (n : Z) : Prop := Decimal_compare d n = Gt.
Definition Decimal_eq (d : Decimal) (n : Z) : Prop := Decimal_compare d n = Eq.

Fixpoint count_digits (fuel : nat) (n : N) : nat :=
  match fuel with
  | O => 1
  | S fuel' => if (n <? 10)%N then 1%nat else S (count_digits fuel' (n / 10)%N)
  end.

(** [len(digit_tuple)]: the number of decimal digits of the coefficient
    (one for zero). *)
Definition len_digit_tuple (d : Decimal) : Z :=
  Z.of_nat (count_digits (N.to_nat (N.size (coefficient d))) (coefficient d)).

(** A run of ASCII digits as a number. *)
Fixpoint all_digits (acc : Z) (l : list ascii) : option Z :=
  match l with
  | [] => Some acc
  | c :: l' => d ← digit_of c; all_digits (10 * acc + d) l'
  end.

Fixpoint split_at (sep : ascii → bool) (l : list ascii) : list ascii * option (list ascii) :=
  match l with
  | [] => ([], None)
  | c :: l' =>
      if sep c then ([], Some l')
      else let '(a, b) := split_at sep l' in (c :: a, b)
  end.

Definition signed_body (l : list ascii) : bool * list ascii :=
  match l with
  | "-"%char :: l' => (true, l')
  | "+"%char :: l' => (false, l')
  | _ => (false, l)
  end.

(** [Decimal(s)] for a numeric string: optional sign, digits with an
    optional fraction, optional exponent; underscores are dropped and
    surrounding white space is stripped first.  [None] stands for
    [decimal.InvalidOperation]; the special values (NaN, Infinity), which
    the form field refuses with the same message, also map to [None]. *)
Definition Decimal_of_string (s : string) : option Decimal :=
  let l := filter (λ c, c ≠ "_"%char) (strip_chars (list_ascii_of_string s)) in
  let '(sgn, l) := signed_body l in
  let '(mant, expo) := split_at (λ c, Ascii.eqb c "e" || Ascii.eqb c "E") l in
  let '(ip, fp) := split_at (λ c, Ascii.eqb c ".") mant in
  let fp := default [] fp in
  if bool_decide (ip = [] ∧ fp = []) then None else
  c ← all_digits 0 (ip ++ fp);
  e ← match expo with
      | None => Some 0
      | Some el =>
          let '(esgn, el) := signed_body el in
          if bool_decide (el = []) then None
          else (λ e, if esgn then - e else e) <$> all_digits 0 el
      end;
  Some (mkDecimal sgn (Z.to_N c) (e - Z.of_nat (length fp))).

(** ** The data model ([audit/models.py]) *)

(** A calendar date, by its proleptic Gregorian ordinal ([date.toordinal()]). *)
Definition date := Z.

(** [class Client] *)
Record Client := mkClient {
  Client_name : string;
  contact_name : option string;
  contact_email : option string;
  contact_phone : option string;
  address : option string;
}.

(** [class Project]; the three references are primary keys. *)
Record Project := mkProject {
  title : string;
  permit_number : string;
  location : string;
  Project_client : Z;
  consulting_engineer : Z;
  principal_contractor : Z;
}.

(** [Audit.AUDIT_TYPES] *)
Definition AUDIT_TYPES : list (string * string) :=
  [("OHS", "Occupational Health & Safety Audit");
   ("ENV", "Environmental Audit");
   ("QUAL", "Quality Audit")].

(** [class Audit] *)
Record Audit := mkAudit {
  project : Z;
  audit_date : date;
  audit_type : string;
  audit_number : string;
  performed_by : string;
  report_number : string;
  overall_score_percentage : Decimal;
  standard_required : Decimal;
  improvement_notices : Z;
  contravention_notices : Z;
  prohibition_notices : Z;
}.

(** The validators a model field is declared with. *)
Inductive Validator :=
| MinValueValidator (limit_value : Z)
| MaxValueValidator (limit_value : Z).

(** [models.DecimalField(max_digits=.., decimal_places=.., validators=[..])] *)
Record DecimalField := mkDecimalField {
  max_digits : Z;
  decimal_places : Z;
  DecimalField_validators : list Validator;
}.

(** [models.IntegerField(validators=[..])] *)
Record IntegerField := mkIntegerField {
  IntegerField_validators : list Validator;
}.

(** [models.CharField(max_length=..)] *)
Record CharField := mkCharField {
  max_length : option Z;
}.

(** The declarations of [class Audit], field by field. *)
Definition Audit_audit_number : CharField := mkCharField (Some 50).
Definition Audit_performed_by : CharField := mkCharField (Some 200).
Definition Audit_report_number : CharField := mkCharField (Some 100).
Definition Audit_overall_score_percentage : DecimalField :=
  mkDecimalField 5 2 [MinValueValidator 0; MaxValueValidator 100].
Definition Audit_standard_required : DecimalField :=
  mkDecimalField 5 2 [MinValueValidator 0; MaxValueValidator 100].
Definition Audit_improvement_notices : IntegerField := mkIntegerField [].
Definition Audit_contravention_notices : IntegerField := mkIntegerField [].
Definition Audit_prohibition_notices : IntegerField := mkIntegerField [].

(** The declarations of [class Client] that [ClientForm] edits. *)
Definition Client_contact_name : CharField := mkCharField (Some 200).
Definition Client_contact_email : CharField := mkCharField (Some 254).
Definition Client_contact_phone : CharField := mkCharField (Some 50).
Definition Client_address : CharField := mkCharField None.

(** The checklist models.  Each has a reference to its audit, a code
    column, two scores and comments; [LegalAppointment] also has
    [appointed_person]. *)
Inductive Category :=
| LegalAppointment
| OHSDocumentation
| TrainingCommunication
| InspectionRegister
| PublicSafetySecurity
| EmployeeProtection
| FirePrevention
| OccupationalHealth
| IncidentManagement
| IntoxicationManagement
| TrafficAccommodation.

Global Instance Category_eq_dec : EqDecision Category.
Proof. solve_decision. Defined.

Definition all_categories : list Category :=
  [LegalAppointment; OHSDocumentation; TrainingCommunication;
   InspectionRegister; PublicSafetySecurity; EmployeeProtection;
   FirePrevention; OccupationalHealth; IncidentManagement;
   IntoxicationManagement; TrafficAccommodation].

(** The name of the code column in each model. *)
Definition code_column (c : Category) : string :=
  match c with
  | LegalAppointment => "appointment_type"
  | OHSDocumentation => "document_type"
  | InspectionRegister => "register_type"
  | TrainingCommunication | PublicSafetySecurity | EmployeeProtection
  | FirePrevention | OccupationalHealth | IncidentManagement
  | IntoxicationManagement | TrafficAccommodation => "item_type"
  end.

(** [Meta.unique_together] of each model. *)
Definition unique_together (c : Category) : list string :=
  match c with
  | LegalAppointment => ["audit"; "appointment_type"]
  | OHSDocumentation => ["audit"; "document_type"]
  | TrainingCommunication => ["audit"; "item_type"]
  | InspectionRegister => ["audit"; "register_type"]
  | PublicSafetySecurity => ["audit"; "item_type"]
  | EmployeeProtection => ["audit"; "item_type"]
  | FirePrevention => ["audit"; "item_type"]
  | OccupationalHealth => ["audit"; "item_type"]
  | IncidentManagement => ["audit"; "item_type"]
  | IntoxicationManagement => ["audit"; "item_type"]
  | TrafficAccommodation => ["audit"; "item_type"]
  end.

(** The codes of the [choices] of each code column. *)
Definition choices (c : Category) : list string :=
  match c with
  | LegalAppointment =>
      ["CEO_16_1"; "CEO_16_2"; "CONSTR_MGR_8_1"; "HCA"; "CONSTR_SUP_8_7";
       "ELEC_INSP"; "CHS_OFFICER_8_5"; "FIRE_INSP_29H"; "ENV_OFFICER";
       "EMERGENCY_COORD"; "HS_REP_17_1"; "EXCAVATION_SUP_13_1";
       "RISK_ASSESSOR_9_1"; "PPE_INSP"; "FIRST_AIDER"; "HAND_TOOLS_INSP";
       "STACKING_STORAGE"; "HS_COMMITTEE"; "HYGIENE_INSP"; "INCIDENT_INVEST";
       "PORTABLE_ELEC_INSP"; "HOUSEKEEPING"; "VEHICLE_INSP"; "TRAFFIC_SAFETY";
       "HS_CHAIRPERSON"; "VEHICLE_OPERATOR"]
  | OHSDocumentation =>
      ["SHE_FILE"; "CLIENT_SPECS"; "RISK_ASSESSMENT"; "CONSTRUCTION_NOTICE";
       "COIDA"; "INCIDENT_REGISTERS"; "WCL_FORMS"; "ACT_DISPLAY";
       "CONTRACTOR_APPOINTMENT"; "MANDATORY_AGREEMENTS"; "POLICIES"]
  | TrainingCommunication =>
      ["INDUCTION_MANUAL"; "SAFETY_TALKS"; "DAILY_RISK_ASSESS";
       "TRAFFIC_MEETINGS"]
  | InspectionRegister =>
      ["HS_REP_CHECKLIST"; "FIRST_AID_BOX"; "FIRE_EQUIPMENT";
       "FACILITIES_HYGIENE"; "STACKING_STORAGE"; "HAND_TOOL"; "MOBILE_PLANT";
       "PPE_REGISTER"; "INCIDENT_REGISTER"; "EXCAVATION"; "HOUSEKEEPING";
       "VEHICLE_PRE_START"; "SIGNAGE"; "HYGIENE"]
  | PublicSafetySecurity =>
      ["ACCESS_CONTROL"; "GUARDHOUSE"; "SECURITY_PERSONNEL";
       "PSIRA_REGISTRATION"; "SECURITY_RISK_ASSESS"; "FIRE_EXTINGUISHER";
       "SECURITY_LETTER"; "SECURITY_MEDICAL"; "SECURITY_AGREEMENT";
       "SECURITY_APPOINTMENT"; "PSIRA_REG"; "SECURITY_PPE"]
  | EmployeeProtection => ["PPE_ISSUED"; "AWARENESS"; "PROCEDURES"]
  | FirePrevention =>
      ["EQUIPMENT_AVAILABLE"; "FIRE_FIGHTER_APPOINT"; "AWARENESS";
       "COMPETENCIES"; "EVACUATION_PLAN"; "EVACUATION_DRILL";
       "EMERGENCY_CONTACTS"]
  | OccupationalHealth => ["ENTRY_MEDICAL_EXAM"; "MEDICAL_COPIES"; "ID_COPIES"]
  | IncidentManagement =>
      ["PROCEDURE"; "ANNEXURE"; "WCL_FORMS"; "DISCIPLINARY_PROC"; "NEAR_MISS";
       "FIRST_AID_RECORDS"]
  | IntoxicationManagement =>
      ["RANDOM_TESTING"; "DISCIPLINARY_PROC"; "ALCOHOL_DRUGS_POLICY";
       "BREATHALYSER"]
  | TrafficAccommodation =>
      ["FLAG_PEOPLE_TRAINED"; "SIGNS_UPDATED"; "UPDATE_REGISTER"; "ROAD_CLEAN";
       "DEVIATION_DAMPED"; "DEVIATION_BLADED"; "CHILDREN_PROTECTION";
       "VEHICLES_CONDITION"; "SAFETY_FEATURES"; "OPENINGS_BARRICADED";
       "FLAG_POSITIONS"; "SIGNS_PLACEMENT"; "SIGNS_REGISTER"]
  end.

(** A row of a checklist table.  [code] is the value of the model's code
    column ([code_column]); [appointed_person] is [None] outside
    [LegalAppointment]. *)
Record ChecklistItem := mkChecklistItem {
  audit : Z;
  code : string;
  required_score : Z;
  actual_score : Z;
  appointed_person : option string;
  comments : option string;
}.

(** [django.contrib.auth.models.User], the columns the login view reads.
    [password] stands for the stored credential: [check_password] succeeds
    on exactly this text. *)
Record User := mkUser {
  username : string;
  password : string;
  is_active : bool;
}.

(** The tables.  Rows are keyed by primary key; the checklist tables keep
    their rows in insertion order. *)
Record Database := mkDatabase {
  Client_objects : gmap Z Client;
  Project_objects : gmap Z Project;
  Audit_objects : gmap Z Audit;
  Checklist_objects : Category → list ChecklistItem;
  User_objects : list User;
}.

(** ** Inserting checklist rows ([Model.objects.create]) *)

(** What the database answers to a refused [INSERT]. *)
Inductive IntegrityError :=
| UniqueViolation (columns : list string)
| ForeignKeyViolation (column : string).

(** The value a row holds in the column called [name]. *)
Definition column (c : Category) (r : ChecklistItem) (name : string) : option pyval :=
  if String.eqb name "audit" then Some (PyInt (audit r))
  else if String.eqb name (code_column c) then Some (PyStr (code r))
  else if String.eqb name "required_score" then Some (PyInt (required_score r))
  else if String.eqb name "actual_score" then Some (PyInt (actual_score r))
  else if String.eqb name "comments" then Some (from_option PyStr PyNone (comments r))
  else if String.eqb name "appointed_person" && bool_decide (c = LegalAppointment)
  then Some (from_option PyStr PyNone (appointed_person r))
  else None.

(** The tuple of values the [unique_together] constraint of [c] compares. *)
Definition unique_key (c : Category) (r : ChecklistItem) : list (option pyval) :=
  column c r <$> unique_together c.

Definition set_table (db : Database) (c : Category) (rows : list ChecklistItem) : Database :=
  mkDatabase (Client_objects db) (Project_objects db) (Audit_objects db)
    (λ c', if decide (c' = c) then rows else Checklist_objects db c')
    (User_objects db).

(** [<Category>.objects.create(audit=.., <code column>=.., ..)]: the row is
    written unless the referenced audit is missing or a stored row has the
    same [unique_together] tuple. *)
Definition Checklist_create (c : Category) (r : ChecklistItem) (db : Database)
  : IntegrityError + Database :=
  if bool_decide (Audit_objects db !! audit r = None)
  then inl (ForeignKeyViolation "audit")
  else if bool_decide (unique_key c r ∈ unique_key c <$> Checklist_objects db c)
  then inl (UniqueViolation (unique_together c))
  else inr (set_table db c (Checklist_objects db c ++ [r])).

(** The (audit, code) pairs a checklist table has rows for. *)
Definition recorded (rows : list ChecklistItem) : list (Z * string) :=
  (λ r, (audit r, code r)) <$> rows.

(** At most one row per (audit, code) in every checklist table. *)
Definition unique_per_audit (db : Database) : Prop :=
  ∀ c, NoDup (recorded (Checklist_objects db c)).

(** ** What the deployment fixes *)

(** [django.core.mail.EmailMessage], as [send_mail] builds it. *)
Record EmailMessage := mkEmailMessage {
  subject : string;
  body : string;
  from_email : string;
  recipient_list : list string;
}.

(** The authentication backends that ship with Django. *)
Inductive AuthBackend :=
| ModelBackend
| AllowAllUsersModelBackend.

(** The project settings, the database backend and the Django routines
    whose result depends on them.  The repository's [settings.py] and root
    URLconf are not among the sources; [default_settings] below holds the
    values Django uses when the settings do not mention them. *)
Class Deployment := {
  (** [settings.AUTHENTICATION_BACKENDS] *)
  AUTHENTICATION_BACKENDS : list AuthBackend;
  (** [settings.DEFAULT_FROM_EMAIL] and [settings.SERVER_EMAIL] *)
  DEFAULT_FROM_EMAIL : string;
  SERVER_EMAIL : string;
  (** the path under which the root URLconf includes [audit.urls],
      without its leading slash *)
  url_prefix : string;
  (** [connection.ops.integer_field_range("IntegerField")] *)
  integer_field_range : option Z * option Z;
  (** [strptime] over the date input formats of the active locale *)
  strptime_date : string → option date;
  (** [django.core.validators.validate_email]: [true] when it returns,
      [false] when it raises [ValidationError] *)
  validate_email : string → bool;
  (** the e-mail backend: [None] when the message was handed over,
      [Some text] when sending raised an exception whose [str()] is [text] *)
  send_messages : EmailMessage → option string;
}.

(** ** Form fields ([django.forms.fields]) *)

(** The outcome of cleaning one field: a value, the messages of a
    [ValidationError], or another exception that escapes the form. *)
Inductive cleaned (A : Type) :=
| Clean (a : A)
| Invalid (messages : list string)
| Raised (exc : string).
Arguments Clean {A} a.
Arguments Invalid {A} messages.
Arguments Raised {A} exc.

(** [value in self.empty_values] *)
Definition in_empty_values (v : pyval) : bool :=
  match v with
  | PyNone => true
  | PyStr s => String.eqb s ""
  | _ => false
  end.

Definition required_message : string := "This field is required.".

(** [len(s)] *)
Definition len (s : string) : Z := Z.of_nat (String.length s).

(** [MaxLengthValidator(limit)(s)] *)
Definition MaxLengthValidator (limit : Z) (s : string) : list string :=
  if limit <? len s
  then ["Ensure this value has at most " +:+ pretty limit +:+
        " characters (it has " +:+ pretty (len s) +:+ ")."]
  else [].

(** [ProhibitNullCharactersValidator()(s)] *)
Definition ProhibitNullCharactersValidator (s : string) : list string :=
  if existsb (λ c, Ascii.eqb c zero) (list_ascii_of_string s)
  then ["Null characters are not allowed."]
  else [].

(** [EmailValidator()(s)] *)
Definition EmailValidator `{Deployment} (s : string) : list string :=
  if validate_email s then [] else ["Enter a valid email address."].

(** [forms.CharField(max_length=.., required=.., empty_value=..).clean(v)],
    with [extra] the validators that precede the length check (those of
    [forms.EmailField]).  The text is [str(v).strip()]; an empty text is
    replaced by [empty_value] and skips the validators. *)
Definition CharField_clean (f : CharField) (required : bool)
    (empty_value : option string) (extra : string → list string) (v : pyval)
  : cleaned (option string) :=
  let value := if in_empty_values v then "" else strip (py_str v) in
  if String.eqb value "" then
    if required then Invalid [required_message] else Clean empty_value
  else
    match extra value
          ++ from_option (λ n, MaxLengthValidator n value) [] (max_length f)
          ++ ProhibitNullCharactersValidator value with
    | [] => Clean (Some value)
    | errors => Invalid errors
    end.

(** [forms.ModelChoiceField(queryset=.., required=True).clean(v)]: the
    value is looked up as a primary key. *)
Definition ModelChoiceField_clean {A} (queryset : gmap Z A) (v : pyval) : cleaned Z :=
  if in_empty_values v then Invalid [required_message]
  else
    match py_int v with
    | Some pk =>
        if bool_decide (is_Some (queryset !! pk)) then Clean pk
        else Invalid ["Select a valid choice. That choice is not one of the available choices."]
    | None =>
        Invalid ["Select a valid choice. That choice is not one of the available choices."]
    end.

(** [forms.DateField(required=True).clean(v)].  [BaseTemporalField.to_python]
    calls [value.strip()], which only a string has. *)
Definition DateField_clean `{Deployment} (v : pyval) : cleaned date :=
  if in_empty_values v then Invalid [required_message]
  else
    match v with
    | PyStr s =>
        match strptime_date (strip s) with
        | Some d => Clean d
        | None => Invalid ["Enter a valid date."]
        end
    | _ => Raised "AttributeError"
    end.

(** [forms.TypedChoiceField(choices=.., required=True).clean(v)] *)
Definition ChoiceField_clean (options : list (string * string)) (v : pyval) : cleaned string :=
  if in_empty_values v then Invalid [required_message]
  else
    let value := py_str v in
    if existsb (λ kv, String.eqb kv.1 value) options then Clean value
    else Invalid ["Select a valid choice. " +:+ value +:+
                  " is not one of the available choices."].

(** [DecimalValidator(max_digits, decimal_places)(d)] *)
Definition DecimalValidator (max_digits decimal_places : Z) (d : Decimal) : list string :=
  let e := exponent d in
  let n := len_digit_tuple d in
  let '(digits, decimals) :=
    if 0 <=? e then
      ((if bool_decide (coefficient d = 0%N) then n else n + e), 0)
    else if n <? Z.abs e then (Z.abs e, Z.abs e)
    else (n, Z.abs e) in
  let whole_digits := digits - decimals in
  if max_digits <? digits then
    ["Ensure that there are no more than " +:+ pretty max_digits +:+ " digits in total."]
  else if decimal_places <? decimals then
    ["Ensure that there are no more than " +:+ pretty decimal_places +:+ " decimal places."]
  else if max_digits - decimal_places <? whole_digits then
    ["Ensure that there are no more than " +:+ pretty (max_digits - decimal_places) +:+
     " digits before the decimal point."]
  else [].

(** One declared validator applied to a decimal. *)
Definition run_decimal_validator (v : Validator) (d : Decimal) : list string :=
  match v with
  | MinValueValidator limit =>
      if bool_decide (Decimal_compare d limit = Lt)
      then ["Ensure this value is greater than or equal to " +:+ pretty limit +:+ "."]
      else []
  | MaxValueValidator limit =>
      if bool_decide (Decimal_compare d limit = Gt)
      then ["Ensure this value is less than or equal to " +:+ pretty limit +:+ "."]
      else []
  end.

(** One declared validator applied to an integer. *)
Definition run_integer_validator (v : Validator) (n : Z) : list string :=
  match v with
  | MinValueValidator limit =>
      if n <? limit
      then ["Ensure this value is greater than or equal to " +:+ pretty limit +:+ "."]
      else []
  | MaxValueValidator limit =>
      if limit <? n
      then ["Ensure this value is less than or equal to " +:+ pretty limit +:+ "."]
      else []
  end.

(** Cleaning of a model [DecimalField] through a [ModelForm]: first the
    form field ([forms.DecimalField], required: parse, then the digit
    check), then the model field's validators on the parsed value. *)
Definition DecimalField_clean (f : DecimalField) (v : pyval) : cleaned Decimal :=
  if in_empty_values v then Invalid [required_message]
  else
    match Decimal_of_string (py_str v) with
    | None => Invalid ["Enter a number."]
    | Some d =>
        match DecimalValidator (max_digits f) (decimal_places f) d with
        | [] =>
            match flat_map (λ val, run_decimal_validator val d) (DecimalField_validators f)
                  ++ DecimalValidator (max_digits f) (decimal_places f) d with
            | [] => Clean d
            | errors => Invalid errors
            end
        | errors => Invalid errors
        end
    end.

(** [IntegerField.re_decimal.sub("", s)]: a trailing [.], zeros and white
    space are dropped. *)
Definition re_decimal_sub (s : string) : string :=
  let r := rev (list_ascii_of_string s) in
  let fix zeros (l : list ascii) : list ascii :=
    match l with
    | c :: l' => if Ascii.eqb c "0" then zeros l' else l
    | [] => []
    end in
  match zeros (lstrip_chars r) with
  | "."%char :: rest => string_of_list_ascii (rev rest)
  | _ => s
  end.

(** The validators of a model [IntegerField]: the declared ones, then the
    bounds of the database column unless a declared validator is already
    at least as strict. *)
Definition IntegerField_validators' `{Deployment} (f : IntegerField) : list Validator :=
  let declared := IntegerField_validators f in
  let '(lo, hi) := integer_field_range in
  declared
  ++ match lo with
     | Some lo =>
         if existsb (λ v, match v with MinValueValidator l => lo <=? l | _ => false end) declared
         then [] else [MinValueValidator lo]
     | None => []
     end
  ++ match hi with
     | Some hi =>
         if existsb (λ v, match v with MaxValueValidator l => l <=? hi | _ => false end) declared
         then [] else [MaxValueValidator hi]
     | None => []
     end.

(** Cleaning of a model [IntegerField] through a [ModelForm]: the form
    field ([forms.IntegerField], required) parses, the model field's
    validators check the number. *)
Definition IntegerField_clean `{Deployment} (f : IntegerField) (v : pyval) : cleaned Z :=
  if in_empty_values v then Invalid [required_message]
  else
    match python_int (re_decimal_sub (py_str v)) with
    | None => Invalid ["Enter a whole number."]
    | Some n =>
        match flat_map (λ val, run_integer_validator val n) (IntegerField_validators' f) with
        | [] => Clean n
        | errors => Invalid errors
        end
    end.

(** ** Forms ([audit/forms.py]) *)

(** [form.errors]: field name to messages, in field order. *)
Definition ErrorDict := list (string * list string).

(** A form after [full_clean()]: an exception escaped, or the form has
    errors, or it is valid and holds its cleaned data. *)
Inductive form (A : Type) :=
| Crash (exc : string)
| NotValid (errors : ErrorDict)
| Valid (cleaned_data : A).
Arguments Crash {A} exc.
Arguments NotValid {A} errors.
Arguments Valid {A} cleaned_data.

(** The field [name], cleaned. *)
Definition field {A} (name : string) (c : cleaned A) : form A :=
  match c with
  | Clean a => Valid a
  | Invalid messages => NotValid [(name, messages)]
  | Raised exc => Crash exc
  end.

(** Fields are cleaned in order; errors accumulate, an exception ends the
    cleaning. *)
Definition form_ap {A B} (f : form (A → B)) (x : form A) : form B :=
  match f, x with
  | Crash exc, _ => Crash exc
  | _, Crash exc => Crash exc
  | NotValid e1, NotValid e2 => NotValid (e1 ++ e2)
  | NotValid e1, Valid _ => NotValid e1
  | Valid _, NotValid e2 => NotValid e2
  | Valid g, Valid a => Valid (g a)
  end.

Notation "f <*> x" := (form_ap f x) (at level 61, left associativity).

(** [form.errors] of a form that did not crash. *)
Definition form_errors {A} (f : form A) : ErrorDict :=
  match f with
  | NotValid errors => errors
  | _ => []
  end.

(** An exception escaped the cleaning. *)
Definition crashed {A} (f : form A) : Prop := ∃ exc, f = Crash exc.

(** A form that is not valid has at least one error. *)
Definition has_errors {A} (f : form A) : Prop :=
  match f with
  | NotValid [] => False
  | _ => True
  end.


(** [ClientForm.Meta.fields] *)
Definition ClientForm_fields : list string :=
  ["contact_name"; "contact_email"; "contact_phone"; "address"].

(** The new values of the four edited columns. *)
Record ClientForm_data := mkClientForm_data {
  new_contact_name : option string;
  new_contact_email : option string;
  new_contact_phone : option string;
  new_address : option string;
}.

(** [ClientForm(data, instance=client).full_clean()].  All four model
    fields are declared [blank=True, null=True]; the three [CharField]
    columns clean an empty input to [None], the [TextField] to [""]. *)
Definition ClientForm_full_clean `{Deployment} (data : gmap string pyval) : form ClientForm_data :=
  Valid mkClientForm_data
  <*> field "contact_name"
        (CharField_clean Client_contact_name false None (λ _, []) (dict_get data "contact_name"))
  <*> field "contact_email"
        (CharField_clean Client_contact_email false None EmailValidator (dict_get data "contact_email"))
  <*> field "contact_phone"
        (CharField_clean Client_contact_phone false None (λ _, []) (dict_get data "contact_phone"))
  <*> field "address"
        (CharField_clean Client_address false (Some "") (λ _, []) (dict_get data "address")).

(** [form.save()] of a valid [ClientForm]: the four columns of the
    instance are assigned and the row is written back. *)
Definition ClientForm_save (pk : Z) (client : Client) (cd : ClientForm_data) (db : Database) : Database :=
  let client' :=
    mkClient (Client_name client) (new_contact_name cd) (new_contact_email cd)
      (new_contact_phone cd) (new_address cd) in
  mkDatabase (<[pk := client']> (Client_objects db)) (Project_objects db)
    (Audit_objects db) (Checklist_objects db) (User_objects db).

(** [AuditModelForm.Meta.fields] *)
Definition AuditModelForm_fields : list string :=
  ["project"; "audit_date"; "audit_type"; "audit_number"; "performed_by";
   "report_number"; "overall_score_percentage"; "standard_required";
   "improvement_notices"; "contravention_notices"; "prohibition_notices"].

(** A required text column: the cleaned value is a string. *)
Definition required_text (f : CharField) (v : pyval) : cleaned string :=
  match CharField_clean f true (Some "") (λ _, []) v with
  | Clean s => Clean (default "" s)
  | Invalid messages => Invalid messages
  | Raised exc => Raised exc
  end.

(** [AuditModelForm(data).full_clean()], against the projects stored. *)
Definition AuditModelForm_full_clean `{Deployment} (db : Database) (data : gmap string pyval) : form Audit :=
  Valid mkAudit
  <*> field "project" (ModelChoiceField_clean (Project_objects db) (dict_get data "project"))
  <*> field "audit_date" (DateField_clean (dict_get data "audit_date"))
  <*> field "audit_type" (ChoiceField_clean AUDIT_TYPES (dict_get data "audit_type"))
  <*> field "audit_number" (required_text Audit_audit_number (dict_get data "audit_number"))
  <*> field "performed_by" (required_text Audit_performed_by (dict_get data "performed_by"))
  <*> field "report_number" (required_text Audit_report_number (dict_get data "report_number"))
  <*> field "overall_score_percentage"
        (DecimalField_clean Audit_overall_score_percentage (dict_get data "overall_score_percentage"))
  <*> field "standard_required"
        (DecimalField_clean Audit_standard_required (dict_get data "standard_required"))
  <*> field "improvement_notices"
        (IntegerField_clean Audit_improvement_notices (dict_get data "improvement_notices"))
  <*> field "contravention_notices"
        (IntegerField_clean Audit_contravention_notices (dict_get data "contravention_notices"))
  <*> field "prohibition_notices"
        (IntegerField_clean Audit_prohibition_notices (dict_get data "prohibition_notices")).

(** The cleaned value of each field of [AuditModelForm], by name. *)
Record AuditModelForm_cleaned `{Deployment} (db : Database) (data : gmap string pyval)
    (a : Audit) : Prop := {
  cleaned_project :
    ModelChoiceField_clean (Project_objects db) (dict_get data "project") = Clean (project a);
  cleaned_audit_date :
    DateField_clean (dict_get data "audit_date") = Clean (audit_date a);
  cleaned_audit_type :
    ChoiceField_clean AUDIT_TYPES (dict_get data "audit_type") = Clean (audit_type a);
  cleaned_audit_number :
    required_text Audit_audit_number (dict_get data "audit_number") = Clean (audit_number a);
  cleaned_performed_by :
    required_text Audit_performed_by (dict_get data "performed_by") = Clean (performed_by a);
  cleaned_report_number :
    required_text Audit_report_number (dict_get data "report_number") = Clean (report_number a);
  cleaned_overall_score_percentage :
    DecimalField_clean Audit_overall_score_percentage (dict_get data "overall_score_percentage")
    = Clean (overall_score_percentage a);
  cleaned_standard_required :
    DecimalField_clean Audit_standard_required (dict_get data "standard_required")
    = Clean (standard_required a);
  cleaned_improvement_notices :
    IntegerField_clean Audit_improvement_notices (dict_get data "improvement_notices")
    = Clean (improvement_notices a);
  cleaned_contravention_notices :
    IntegerField_clean Audit_contravention_notices (dict_get data "contravention_notices")
    = Clean (contravention_notices a);
  cleaned_prohibition_notices :
    IntegerField_clean Audit_prohibition_notices (dict_get data "prohibition_notices")
    = Clean (prohibition_notices a);
}.

(** [n] fits the integer column of the database. *)
Definition in_integer_field_range `{Deployment} (n : Z) : Prop :=
  (∀ lo, integer_field_range.1 = Some lo → lo ≤ n)
  ∧ (∀ hi, integer_field_range.2 = Some hi → n ≤ hi).

(** The integer [forms.IntegerField] reads from a submitted value. *)
Definition reads_as_integer (v : pyval) (n : Z) : Prop :=
  in_empty_values v = false ∧ python_int (re_decimal_sub (py_str v)) = Some n.

(** [a] with other notice counters. *)
Definition with_notices (a : Audit) (improvement contravention prohibition : Z) : Audit :=
  mkAudit (project a) (audit_date a) (audit_type a) (audit_number a) (performed_by a)
    (report_number a) (overall_score_percentage a) (standard_required a)
    improvement contravention prohibition.

(** The primary key the database gives the next row of a table: one more
    than the largest in use. *)
Definition next_pk {A} (table : gmap Z A) : Z :=
  1 + foldr Z.max 0 (fst <$> map_to_list table).

(** [form.save()] of a valid [AuditModelForm]: one row is inserted; the
    result is its primary key and the new database. *)
Definition AuditModelForm_save (a : Audit) (db : Database) : Z * Database :=
  let pk := next_pk (Audit_objects db) in
  (pk, mkDatabase (Client_objects db) (Project_objects db)
         (<[pk := a]> (Audit_objects db)) (Checklist_objects db) (User_objects db)).

(** ** Pagination ([django.core.paginator]) *)

(** [Paginator(object_list, per_page)], with [orphans=0] and
    [allow_empty_first_page=True]. *)
Record Paginator (A : Type) := mkPaginator {
  object_list : list A;
  per_page : Z;
}.
Arguments mkPaginator {A} object_list per_page.
Arguments object_list {A} p.
Arguments per_page {A} p.

Inductive InvalidPage :=
| PageNotAnInteger
| EmptyPage.

(** [Page]: the rows of one page and its number. *)
Record Page (A : Type) := mkPage {
  Page_object_list : list A;
  number : Z;
}.
Arguments mkPage {A} Page_object_list number.
Arguments Page_object_list {A} p.
Arguments number {A} p.

(** [paginator.count] *)
Definition count {A} (p : Paginator A) : Z := Z.of_nat (length (object_list p)).

(** [paginator.num_pages]: [ceil(max(1, count) / per_page)]. *)
Definition num_pages {A} (p : Paginator A) : Z :=
  let hits := Z.max 1 (count p - 0) in
  - ((- hits) `div` per_page p).

(** [paginator.validate_number(number)] *)
Definition validate_number {A} (p : Paginator A) (number : pyval) : InvalidPage + Z :=
  match py_int number with
  | None => inl PageNotAnInteger
  | Some n =>
      if n <? 1 then inl EmptyPage
      else if num_pages p <? n then inl EmptyPage
      else inr n
  end.

(** [l[bottom:top]] for [0 <= bottom]. *)
Definition slice {A} (l : list A) (bottom top : Z) : list A :=
  drop (Z.to_nat bottom) (take (Z.to_nat top) l).

(** [paginator.page(number)] *)
Definition page {A} (p : Paginator A) (number : pyval) : InvalidPage + Page A :=
  match validate_number p number with
  | inl e => inl e
  | inr n =>
      let bottom := (n - 1) * per_page p in
      let top := bottom + per_page p in
      let top := if count p <=? top + 0 then count p else top in
      inr (mkPage (slice (object_list p) bottom top) n)
  end.

(** ** Requests and responses *)

(** [json.loads(request.body.decode('utf-8') or '{}')]: it raises, or
    gives an object, or gives a value that is not an object. *)
Inductive Body :=
| NotJSON
| JSONObject (payload : gmap string pyval)
| JSONOther.

Record HttpRequest := mkHttpRequest {
  content_type : string;
  loaded_body : Body;
  POST : gmap string string;
  GET : gmap string string;
  x_requested_with : option string;
  scheme : string;
  host : string;
}.

Inductive HttpResponse :=
| JsonResponse (data : json) (status : Z)
(** a redirect, with the texts queued by [messages.error] *)
| HttpResponseRedirect (url : string) (flash : list string)
| Http404
(** an exception no handler caught *)
| ServerError (exc : string).

(** [{'success': False, 'errors': errors}] *)
Definition failure (errors : json) : json :=
  JObj [("success", JBool false); ("errors", errors)].

(** [{k: [err['message'] for err in v] for k, v in errors.items()}] *)
Definition simple (errors : ErrorDict) : json :=
  JObj ((λ kv, (kv.1, JList (JStr <$> kv.2))) <$> errors).

(** [(v or '').strip()]; only a string has [strip]. *)
Definition or_empty_strip (v : pyval) : string + string :=
  if truthy v then
    match v with
    | PyStr s => inr (strip s)
    | _ => inl "AttributeError"
    end
  else inr "".

(** [v or ''] *)
Definition or_empty (v : pyval) : pyval :=
  if truthy v then v else PyStr "".

(** [QueryDict.get(k)] *)
Definition QueryDict_get (q : gmap string string) (k : string) : pyval :=
  from_option PyStr PyNone (q !! k).

(** ** The dashboard of reports ([ReportDashboard]) *)

(** [Audit.objects.select_related(..).order_by('-audit_date')]: the rows
    with their keys, latest date first.  The join only prefetches the
    project and client of each row. *)
Definition later_or_same (x y : Z * Audit) : Prop := audit_date y.2 ≤ audit_date x.2.

Global Instance later_or_same_dec : RelDecision later_or_same.
Proof. intros x y. unfold later_or_same. apply _. Defined.

Definition order_by_audit_date_desc (table : gmap Z Audit) : list (Z * Audit) :=
  merge_sort later_or_same (map_to_list table).

(** The entries [get_context_data] adds to the template context. *)
Record Context := mkContext {
  audits : list (Z * Audit);
  page_obj : Page (Z * Audit);
  paginator : Paginator (Z * Audit);
}.

(** [ReportDashboard.get_context_data]; [inl] is an exception that leaves
    the method. *)
Definition ReportDashboard_get_context_data (request : HttpRequest) (db : Database)
  : InvalidPage + Context :=
  let audit_qs := order_by_audit_date_desc (Audit_objects db) in
  let paginator := mkPaginator audit_qs 10 in
  let page_param := QueryDict_get (GET request) "page" in
  let audits_page :=
    match page paginator page_param with
    | inr pg => inr pg
    | inl PageNotAnInteger => page paginator (PyInt 1)
    | inl EmptyPage => page paginator (PyInt (num_pages paginator))
    end in
  match audits_page with
  | inl e => inl e
  | inr pg => inr (mkContext (Page_object_list pg) pg paginator)
  end.

(** ** Logging in ([LoginAjaxView]) *)

(** [user_can_authenticate] of each backend: [ModelBackend] turns
    inactive users away, [AllowAllUsersModelBackend] does not. *)
Definition user_can_authenticate (b : AuthBackend) (u : User) : bool :=
  match b with
  | ModelBackend => is_active u
  | AllowAllUsersModelBackend => true
  end.

(** [backend.authenticate(request, username, password)]: the user of that
    name, when [check_password] accepts the password and the backend lets
    the user in. *)
Definition backend_authenticate (b : AuthBackend) (users : list User)
    (name : string) (pw : pyval) : option User :=
  match find (λ u, String.eqb (username u) name) users with
  | None => None
  | Some u =>
      if String.eqb (password u) (py_str pw) && user_can_authenticate b u
      then Some u else None
  end.

(** [django.contrib.auth.authenticate]: the first backend that knows the
    credentials gives the user. *)
Definition authenticate `{Deployment} (users : list User) (name : string) (pw : pyval)
  : option User :=
  let fix go (bs : list AuthBackend) : option User :=
    match bs with
    | [] => None
    | b :: bs' =>
        match backend_authenticate b users name pw with
        | Some u => Some u
        | None => go bs'
        end
    end in
  go AUTHENTICATION_BACKENDS.

(** The body of [post] once [username] and [password] are read. *)
Definition LoginAjaxView_check `{Deployment} (request : HttpRequest) (db : Database)
    (is_json : bool) (name : string) (pw : pyval) : HttpResponse * option User :=
  let index := "/" +:+ url_prefix in
  let errors :=
    (if String.eqb name "" then [("username", "Please enter your username.")] else [])
    ++ (if truthy pw then [] else [("password", "Please enter your password.")]) in
  match errors with
  | _ :: _ =>
      if negb is_json then (HttpResponseRedirect index (snd <$> errors), None)
      else (JsonResponse (failure (JObj ((λ kv, (kv.1, JStr kv.2)) <$> errors))) 400, None)
  | [] =>
      match authenticate (User_objects db) name pw with
      | None =>
          if negb is_json then
            (HttpResponseRedirect index ["Invalid username or password."], None)
          else
            (JsonResponse (failure (JObj [("__all__", JStr "Invalid username or password.")])) 400,
             None)
      | Some user =>
          if negb (is_active user) then
            if negb is_json then
              (HttpResponseRedirect index ["This account is inactive."], None)
            else
              (JsonResponse (failure (JObj [("__all__", JStr "This account is inactive.")])) 400,
               None)
          else
            let redirect_url := "/" +:+ url_prefix +:+ "dashboard/" in
            if is_json || bool_decide (x_requested_with request = Some "XMLHttpRequest") then
              (JsonResponse (JObj [("success", JBool true); ("redirect", JStr redirect_url)]) 200,
               Some user)
            else (HttpResponseRedirect redirect_url [], Some user)
      end
  end.

(** [LoginAjaxView.post]: the response, and the user [login] binds to the
    session when the credentials are accepted. *)
Definition LoginAjaxView_post `{Deployment} (request : HttpRequest) (db : Database)
  : HttpResponse * option User :=
  let is_json := String.eqb (content_type request) "application/json" in
  if is_json then
    match loaded_body request with
    | NotJSON =>
        (JsonResponse (failure (JObj [("__all__", JStr "Invalid request payload.")])) 400, None)
    | JSONOther => (ServerError "AttributeError", None)
    | JSONObject payload =>
        match or_empty_strip (dict_get payload "username") with
        | inl exc => (ServerError exc, None)
        | inr name =>
            LoginAjaxView_check request db is_json name (or_empty (dict_get payload "password"))
        end
    end
  else
    match or_empty_strip (QueryDict_get (POST request) "username") with
    | inl exc => (ServerError exc, None)
    | inr name =>
        LoginAjaxView_check request db is_json name
          (or_empty (QueryDict_get (POST request) "password"))
    end.

(** ** Editing a client ([ClientUpdateAjaxView]) *)

(** This view and the two after it are declared with [LoginRequiredMixin]:
    their [post] runs for the requests of a logged-in session. *)

(** [{k: payload.get(k) for k in [..]}] *)
Definition allowed (payload : gmap string pyval) : gmap string pyval :=
  list_to_map ((λ k, (k, dict_get payload k)) <$>
    ["contact_name"; "contact_email"; "contact_phone"; "address"]).

(** The end of [post]: validate, then save or report. *)
Definition ClientUpdateAjaxView_finish (pk : Z) (client : Client)
    (f : form ClientForm_data) (db : Database) : HttpResponse * Database :=
  match f with
  | Valid cd =>
      (JsonResponse (JObj [("success", JBool true)]) 200, ClientForm_save pk client cd db)
  | NotValid errors => (JsonResponse (failure (simple errors)) 400, db)
  | Crash exc => (ServerError exc, db)
  end.

(** [ClientUpdateAjaxView.post] *)
Definition ClientUpdateAjaxView_post `{Deployment} (request : HttpRequest) (pk : Z)
    (db : Database) : HttpResponse * Database :=
  match Client_objects db !! pk with
  | None => (Http404, db)
  | Some client =>
      if String.eqb (content_type request) "application/json" then
        match loaded_body request with
        | NotJSON =>
            (JsonResponse (failure (JObj [("__all__", JStr "Invalid JSON payload.")])) 400, db)
        | JSONOther => (ServerError "AttributeError", db)
        | JSONObject payload =>
            ClientUpdateAjaxView_finish pk client (ClientForm_full_clean (allowed payload)) db
        end
      else
        ClientUpdateAjaxView_finish pk client
          (ClientForm_full_clean (PyStr <$> POST request)) db
  end.

(** ** Creating an audit ([AuditCreateView]) *)

(** [AuditCreateView.post] *)
Definition AuditCreateView_post `{Deployment} (request : HttpRequest) (db : Database)
  : HttpResponse * Database :=
  if negb (String.eqb (content_type request) "application/json") then
    (JsonResponse (failure (JObj [("__all__", JStr "Expected JSON payload.")])) 400, db)
  else
    match loaded_body request with
    | NotJSON =>
        (JsonResponse (failure (JObj [("__all__", JStr "Invalid JSON payload.")])) 400, db)
    | JSONOther => (ServerError "AttributeError", db)
    | JSONObject payload =>
        match AuditModelForm_full_clean db payload with
        | Valid a =>
            let '(pk, db') := AuditModelForm_save a db in
            (JsonResponse (JObj [("success", JBool true); ("id", JNum pk)]) 200, db')
        | NotValid errors => (JsonResponse (failure (simple errors)) 400, db)
        | Crash exc => (ServerError exc, db)
        end
    end.

(** ** Sharing a report by e-mail ([AuditShareAjaxView]) *)

Definition newline : string := String (ascii_of_nat 10) "".

(** [reverse('audit:report-detail', args=[pk])]; the [int] converter of
    the route only prints a number without sign. *)
Definition reverse_report_detail `{Deployment} (pk : Z) : option string :=
  if 0 <=? pk then Some ("/" +:+ url_prefix +:+ "reports/" +:+ pretty pk +:+ "/")
  else None.

(** [request.build_absolute_uri(location)] for a path. *)
Definition build_absolute_uri (request : HttpRequest) (location : string) : string :=
  scheme request +:+ "://" +:+ host request +:+ location.

(** [AuditShareAjaxView.post]: the response and the messages the e-mail
    backend took over. *)
Definition AuditShareAjaxView_post `{Deployment} (request : HttpRequest) (pk : Z)
    (db : Database) : HttpResponse * list EmailMessage :=
  match Audit_objects db !! pk with
  | None => (Http404, [])
  | Some audit =>
      if negb (String.eqb (content_type request) "application/json") then
        (JsonResponse (failure (JObj [("__all__", JStr "Expected JSON payload.")])) 400, [])
      else
        match loaded_body request with
        | NotJSON =>
            (JsonResponse (failure (JObj [("__all__", JStr "Invalid JSON payload.")])) 400, [])
        | JSONOther => (ServerError "AttributeError", [])
        | JSONObject payload =>
            match or_empty_strip (dict_get payload "to_email") with
            | inl exc => (ServerError exc, [])
            | inr to_email =>
                let message := dict_get_default payload "message" (PyStr "") in
                if String.eqb to_email "" then
                  (JsonResponse
                     (failure (JObj [("to_email", JList [JStr "Recipient email required."])]))
                     400, [])
                else if negb (validate_email to_email) then
                  (JsonResponse
                     (failure (JObj [("to_email", JList [JStr "Enter a valid email address."])]))
                     400, [])
                else
                  let url :=
                    match reverse_report_detail pk with
                    | Some path => build_absolute_uri request path
                    | None => build_absolute_uri request ("/reports/" +:+ pretty pk +:+ "/")
                    end in
                  let subject := "Audit Report: " +:+ report_number audit in
                  let body :=
                    py_str message +:+ newline +:+ newline +:+ "View the report: " +:+ url in
                  let from_email :=
                    if negb (String.eqb DEFAULT_FROM_EMAIL "") then DEFAULT_FROM_EMAIL
                    else if negb (String.eqb SERVER_EMAIL "") then SERVER_EMAIL
                    else "no-reply@localhost" in
                  let mail := mkEmailMessage subject body from_email [to_email] in
                  match send_messages mail with
                  | None => (JsonResponse (JObj [("success", JBool true)]) 200, [mail])
                  | Some e =>
                      (JsonResponse
                         (failure (JObj [("__all__", JStr ("Failed to send email: " +:+ e))]))
                         500, [])
                  end
            end
        end
  end.

(** ** A reference deployment *)

(** [datetime.date(y, m, d).toordinal()], [None] for a day that does not
    exist. *)
Definition is_leap (y : Z) : bool :=
  (y `mod` 4 =? 0) && (negb (y `mod` 100 =? 0) || (y `mod` 400 =? 0)).

Definition days_in_month (y m : Z) : Z :=
  if bool_decide (m ∈ [1; 3; 5; 7; 8; 10; 12]) then 31
  else if bool_decide (m ∈ [4; 6; 9; 11]) then 30
  else if m =? 2 then (if is_leap y then 29 else 28)
  else 0.

Definition toordinal (y m d : Z) : option date :=
  if (1 <=? y) && (y <=? 9999) && (1 <=? d) && (d <=? days_in_month y m) then
    let y' := y - 1 in
    Some (y' * 365 + y' `div` 4 - y' `div` 100 + y' `div` 400
          + foldr Z.add 0 (days_in_month y <$> seqZ 1 (m - 1)) + d)
  else None.

(** [strptime(s, "%Y-%m-%d")]: four digits, one or two, one or two. *)
Definition strptime_iso (s : string) : option date :=
  let '(ys, rest) := split_at (λ c, Ascii.eqb c "-") (list_ascii_of_string s) in
  let '(ms, ds) := split_at (λ c, Ascii.eqb c "-") (default [] rest) in
  let ds := default [] ds in
  if bool_decide (length ys = 4%nat ∧ length ms ∈ [1; 2]%nat ∧ length ds ∈ [1; 2]%nat) then
    y ← all_digits 0 ys; m ← all_digits 0 ms; d ← all_digits 0 ds; toordinal y m d
  else None.

(** A plain e-mail grammar: one [@], a local part and a domain that are
    not empty, a dot inside the domain, no white space. *)
Definition plain_email (s : string) : bool :=
  let l := list_ascii_of_string s in
  let '(local_part, domain) := split_at (λ c, Ascii.eqb c "@") l in
  match domain with
  | None => false
  | Some domain =>
      negb (existsb is_space l)
      && negb (bool_decide (local_part = []))
      && negb (existsb (λ c, Ascii.eqb c "@") domain)
      && match split_at (λ c, Ascii.eqb c ".") domain with
         | (_ :: _, Some (_ :: _)) => true
         | _ => false
         end
  end.

(** The values Django's global settings give what a [settings.py] leaves
    out, with [audit.urls] included at the root, a 32-bit integer column,
    ISO dates and the plain e-mail grammar; the authentication backends and
    the e-mail backend are left open. *)
Definition deployment (backends : list AuthBackend) (send : EmailMessage → option string)
  : Deployment := {|
  AUTHENTICATION_BACKENDS := backends;
  DEFAULT_FROM_EMAIL := "webmaster@localhost";
  SERVER_EMAIL := "root@localhost";
  url_prefix := "";
  integer_field_range := (Some (-2147483648), Some 2147483647);
  strptime_date := strptime_iso;
  validate_email := plain_email;
  send_messages := send;
|}.

(** Django's default, [AUTHENTICATION_BACKENDS = [ModelBackend]], and an
    e-mail backend that takes every message (as the in-memory backend of
    [audit/tests.py] does). *)
Definition reference : Deployment := deployment [ModelBackend] (λ _, None).

(** The reference deployment with an e-mail backend that fails with [text]. *)
Definition failing_mail (text : string) : Deployment :=
  deployment [ModelBackend] (λ _, Some text).

(** The reference deployment with the backend that lets inactive users
    through. *)
Definition allow_all_users : Deployment :=
  deployment [AllowAllUsersModelBackend] (λ _, None).

(** The fixture of [audit/tests.py]: one user, one client, one project,
    one audit. *)
Definition fixture : Database := {|
  Client_objects :=
    {[ 1 := mkClient "ACME" (Some "Client Contact") (Some "client@example.com") None None ]};
  Project_objects := {[ 1 := mkProject "Test Project" "P-1" "Site" 1 1 1 ]};
  Audit_objects :=
    {[ 1 := mkAudit 1 739617 "OHS" "001" "Tester" "R-001"
              (mkDecimal false 8000 (-2)) (mkDecimal false 7500 (-2)) 0 0 0 ]};
  Checklist_objects := λ _, [];
  User_objects := [mkUser "testuser" "password" true];
|}.

(** The fixture with a second, deactivated account. *)
Definition with_deactivated_account : Database := {|
  Client_objects := Client_objects fixture;
  Project_objects := Project_objects fixture;
  Audit_objects := Audit_objects fixture;
  Checklist_objects := λ _, [];
  User_objects := [mkUser "testuser" "password" true; mkUser "former" "secret" false];
|}.

(** The body of a JSON login. *)
Definition credentials (name pw : string) : gmap string pyval :=
  {[ "username" := PyStr name; "password" := PyStr pw ]}.

(** What a JSON login answers to credentials it does not accept. *)
Definition invalid_credentials : HttpResponse :=
  JsonResponse (failure (JObj [("__all__", JStr "Invalid username or password.")])) 400.

(** What [post] answers when [authenticate] returns an inactive user. *)
Definition account_inactive : HttpResponse :=
  JsonResponse (failure (JObj [("__all__", JStr "This account is inactive.")])) 400.

(** The fixture with twenty-five audits, one per day. *)
Definition twenty_five_audits : Database := {|
  Client_objects := Client_objects fixture;
  Project_objects := Project_objects fixture;
  Audit_objects :=
    list_to_map
      ((λ i, (i, mkAudit 1 (739617 + i) "OHS" (pretty i) "Tester" ("R-" +:+ pretty i)
                   (mkDecimal false 8000 (-2)) (mkDecimal false 7500 (-2)) 0 0 0))
         <$> seqZ 1 25);
  Checklist_objects := λ _, [];
  User_objects := User_objects fixture;
|}.

(** A [GET] request for the dashboard with the given [page] parameter. *)
Definition dashboard_request (page_param : option string) : HttpRequest := {|
  content_type := "";
  loaded_body := JSONObject ∅;
  POST := ∅;
  GET := from_option (λ s, {[ "page" := s ]}) ∅ page_param;
  x_requested_with := None;
  scheme := "http";
  host := "testserver";
|}.

(** A JSON request with the given object as its body. *)
Definition json_request (payload : gmap string pyval) : HttpRequest := {|
  content_type := "application/json";
  loaded_body := JSONObject payload;
  POST := ∅;
  GET := ∅;
  x_requested_with := None;
  scheme := "http";
  host := "testserver";
|}.

(** The payload [audit/tests.py] posts to create an audit. *)
Definition create_payload : gmap string pyval :=
  list_to_map
    [("project", PyStr "1"); ("audit_date", PyStr "2026-01-02");
     ("audit_type", PyStr "OHS"); ("audit_number", PyStr "002");
     ("performed_by", PyStr "Creator"); ("report_number", PyStr "R-002");
     ("overall_score_percentage", PyStr "90.00"); ("standard_required", PyStr "75.00");
     ("improvement_notices", PyInt 0); ("contravention_notices", PyInt 0);
     ("prohibition_notices", PyInt 0)].

(** ** The other views of [audit/views.py] *)

(** The value a login request submits under [k]: a key of the JSON object,
    or a form field. *)
Definition submitted (request : HttpRequest) (k : string) : pyval :=
  if String.eqb (content_type request) "application/json" then
    match loaded_body request with
    | JSONObject payload => dict_get payload k
    | _ => PyNone
    end
  else QueryDict_get (POST request) k.

(** [LoginAjaxView.get] and [LogoutAjaxView.get] *)
Definition method_not_allowed : HttpResponse :=
  JsonResponse (JObj [("detail", JStr "Method not allowed.")]) 405.

(** [request.content_type == 'application/json' or
    request.headers.get('x-requested-with') == 'XMLHttpRequest'] *)
Definition wants_json (request : HttpRequest) : bool :=
  String.eqb (content_type request) "application/json"
  || bool_decide (x_requested_with request = Some "XMLHttpRequest").

(** [LogoutAjaxView.post], for the user of the session ([None] when
    [request.user] is anonymous): the response and the user of the session
    afterwards. *)
Definition LogoutAjaxView_post `{Deployment} (request : HttpRequest) (session : option User)
  : HttpResponse * option User :=
  match session with
  | None =>
      if wants_json request then
        (JsonResponse (failure (JObj [("__all__", JStr "Not authenticated.")])) 400, None)
      else (HttpResponseRedirect ("/" +:+ url_prefix) ["Not authenticated."], None)
  | Some _ =>
      if wants_json request then
        (JsonResponse (JObj [("success", JBool true); ("redirect", JStr "/")]) 200, None)
      else (HttpResponseRedirect "/" [], None)
  end.

(** [v or ''] for an optional column. *)
Definition or_blank (v : option string) : string := default "" v.

(** [ClientDetailAjaxView.get] *)
Definition ClientDetailAjaxView_get (pk : Z) (db : Database) : HttpResponse :=
  match Client_objects db !! pk with
  | None => Http404
  | Some client =>
      JsonResponse
        (JObj [("id", JNum pk);
               ("name", JStr (Client_name client));
               ("contact_name", JStr (or_blank (contact_name client)));
               ("contact_email", JStr (or_blank (contact_email client)));
               ("contact_phone", JStr (or_blank (contact_phone client)));
               ("address", JStr (or_blank (address client)))])
        200
  end.

(** [AuditDetailView.get_context_data]: the audit put under [ctx['audit']],
    or the 404 of [get_object_or_404]. *)
Definition AuditDetailView_get_context_data (pk : Z) (db : Database) : HttpResponse + Audit :=
  match Audit_objects db !! pk with
  | None => inl Http404
  | Some audit => inr audit
  end.

(** [Project.__str__] *)
Definition Project_str (p : Project) : string :=
  title p +:+ " - " +:+ permit_number p.

(** The form fields a [ModelForm] builds for the columns of [Audit], as
    far as [AuditCreateView.get] tells them apart: a choice among the rows
    of a table (primary key and [str] of each row), a choice among fixed
    codes, a date, or another field. *)
Inductive FormField :=
| FormModelChoice (rows : list (Z * string))
| FormChoice (options : list (string * string))
| FormDate
| FormOther.

(** [AuditForm().fields]; [Project.objects.all()] has no declared order,
    the rows come as the table lists them. *)
Definition AuditForm_fields (db : Database) : list (string * FormField) :=
  [("project",
    FormModelChoice ((λ kv, (kv.1, Project_str kv.2)) <$> map_to_list (Project_objects db)));
   ("audit_date", FormDate);
   ("audit_type", FormChoice AUDIT_TYPES);
   ("audit_number", FormOther);
   ("performed_by", FormOther);
   ("report_number", FormOther)].

(** [AuditScoreForm.Meta.fields] *)
Definition AuditScoreForm_fields : list string :=
  ["overall_score_percentage"; "standard_required"].

(** [AuditNoticesForm.Meta.fields] *)
Definition AuditNoticesForm_fields : list string :=
  ["improvement_notices"; "contravention_notices"; "prohibition_notices"].

(** [{'value': .., 'label': ..}] *)
Definition choice (value label : string) : json :=
  JObj [("value", JStr value); ("label", JStr label)].

(** The [meta] dictionary the loop over [AuditForm().fields] builds. *)
Definition fields_meta (name : string) (fld : FormField) : json :=
  JObj ([("name", JStr name)]
        ++ match fld with
           | FormModelChoice rows =>
               [("choices", JList ((λ r, choice (pretty r.1) r.2) <$> rows))]
           | FormChoice (c :: cs) =>
               [("choices", JList ((λ c, choice c.1 c.2) <$> c :: cs))]
           | _ => []
           end
        ++ [("type", JStr match fld with FormDate => "date" | _ => "text" end)]).

(** [{'name': f, 'type': 'number'}] *)
Definition number_meta (name : string) : json :=
  JObj [("name", JStr name); ("type", JStr "number")].

(** [AuditCreateView.get] *)
Definition AuditCreateView_get (db : Database) : HttpResponse :=
  JsonResponse
    (JObj [("fields", JList ((λ f, fields_meta f.1 f.2) <$> AuditForm_fields db));
           ("score_fields", JList (number_meta <$> AuditScoreForm_fields));
           ("notice_fields", JList (number_meta <$> AuditNoticesForm_fields))])
    200.

(** A character of [0-9]. *)
Definition is_digit (c : ascii) : Prop := is_Some (digit_of c).

(** What a text field that is not required keeps of a submitted value:
    [str(v).strip()], and nothing of [None]. *)
Definition shown (v : pyval) : string :=
  if in_empty_values v then "" else strip (py_str v).

(** The rows of every page of a paginator, first page first; a page that
    [page] refuses counts as empty. *)
Definition all_pages {A} (p : Paginator A) : list (list A) :=
  (λ k, match page p (PyInt k) with
        | inr pg => Page_object_list pg
        | inl _ => []
        end) <$> seqZ 1 (num_pages p).

(** ** The URL configuration ([audit/urls.py]) *)

(** A route of [path()]: literal text and [<int:pk>] converters. *)
Inductive Piece :=
| Text (s : string)
| IntConverter.

(** [urlpatterns]: each route with its name.  The paths are relative to
    the place where the root URLconf includes [audit.urls]. *)
Definition urlpatterns : list (list Piece * string) :=
  [([], "index");
   ([Text "dashboard/"], "dashboard");
   ([Text "login-ajax/"], "login-ajax");
   ([Text "logout-ajax/"], "logout-ajax");
   ([Text "clients/"], "client-dashboard");
   ([Text "clients/"; IntConverter; Text "/"], "client-detail-ajax");
   ([Text "clients/"; IntConverter; Text "/update/"], "client-update-ajax");
   ([Text "reports/"], "report-dashboard");
   ([Text "reports/create/"], "report-create-ajax");
   ([Text "reports/"; IntConverter; Text "/"], "report-detail");
   ([Text "reports/"; IntConverter; Text "/share/"], "report-share-ajax")].

(** What is left of [l] after the prefix [p]. *)
Fixpoint strip_prefix (p l : list ascii) : option (list ascii) :=
  match p, l with
  | [], _ => Some l
  | c :: p', d :: l' => if Ascii.eqb c d then strip_prefix p' l' else None
  | _ :: _, [] => None
  end.

(** The longest run of [0-9] at the start of [l], and the rest. *)
Fixpoint span_digits (l : list ascii) : list ascii * list ascii :=
  match l with
  | c :: l' =>
      match digit_of c with
      | Some _ => let '(ds, rest) := span_digits l' in (c :: ds, rest)
      | None => ([], l)
      end
  | [] => ([], [])
  end.

(** The whole of [path] against a route: the converted arguments.  An
    [<int:..>] converter takes [[0-9]+]; in every route of [urlpatterns]
    the text after a converter starts with a character that is not a
    digit, so the longest run is the only one that can match. *)
Fixpoint match_route (route : list Piece) (path : list ascii) : option (list Z) :=
  match route with
  | [] => match path with [] => Some [] | _ :: _ => None end
  | Text s :: route' =>
      rest ← strip_prefix (list_ascii_of_string s) path; match_route route' rest
  | IntConverter :: route' =>
      let '(ds, rest) := span_digits path in
      match ds with
      | [] => None
      | _ :: _ => n ← all_digits 0 ds; args ← match_route route' rest; Some (n :: args)
      end
  end.

(** [resolve(path)]: the name of the first route that matches, with its
    arguments. *)
Definition resolve (path : string) : option (string * list Z) :=
  let fix go (patterns : list (list Piece * string)) : option (string * list Z) :=
    match patterns with
    | [] => None
    | (route, name) :: patterns' =>
        match match_route route (list_ascii_of_string path) with
        | Some args => Some (name, args)
        | None => go patterns'
        end
    end in
  go urlpatterns.

(** The path a route gives for [args]; an [<int:..>] converter prints its
    argument with [str], which the route takes back only without a sign. *)
Fixpoint fill_route (route : list Piece) (args : list Z) : option string :=
  match route with
  | [] => match args with [] => Some "" | _ :: _ => None end
  | Text s :: route' => String.append s <$> fill_route route' args
  | IntConverter :: route' =>
      match args with
      | n :: args' =>
          if 0 <=? n then String.append (pretty n) <$> fill_route route' args' else None
      | [] => None
      end
  end.

(** [reverse('audit:<name>', args=args)], relative to the include;
    [None] stands for [NoReverseMatch]. *)
Definition reverse (name : string) (args : list Z) : option string :=
  match find (λ p, String.eqb p.2 name) urlpatterns with
  | Some (route, _) => fill_route route args
  | None => None
  end.

(** ** References between the tables *)

(** Every reference that stays inside the tables modelled here names a
    stored row: the client of a project, the project of an audit, the
    audit of a checklist row. *)
Definition referential_integrity (db : Database) : Prop :=
  (∀ pk p, Project_objects db !! pk = Some p →
     is_Some (Client_objects db !! Project_client p))
  ∧ (∀ pk a, Audit_objects db !! pk = Some a →
       is_Some (Project_objects db !! project a))
  ∧ (∀ c r, r ∈ Checklist_objects db c → is_Some (Audit_objects db !! audit r)).

(** [client.delete()] for the client [pk]: [on_delete=models.CASCADE] on
    [Project.client], [Audit.project] and the [audit] of every checklist
    model takes along the projects of the client, the audits of these
    projects and the checklist rows of these audits. *)
Definition Client_delete (pk : Z) (db : Database) : Database :=
  let projects := filter (λ kv, Project_client kv.2 ≠ pk) (Project_objects db) in
  let gone_projects := filter (λ kv, Project_client kv.2 = pk) (Project_objects db) in
  let audits := filter (λ kv, gone_projects !! project kv.2 = None) (Audit_objects db) in
  let gone_audits := filter (λ kv, is_Some (gone_projects !! project kv.2)) (Audit_objects db) in
  mkDatabase (delete pk (Client_objects db)) projects audits
    (λ c, filter (λ r, gone_audits !! audit r = None) (Checklist_objects db c))
    (User_objects db).

(** ** The sample loader ([audit/management/commands/load_sample_audit.py]) *)

(** [class ConsultingFirm] *)
Record ConsultingFirm := mkConsultingFirm {
  ConsultingFirm_name : string;
}.

(** [class PrincipalContractor] *)
Record PrincipalContractor := mkPrincipalContractor {
  PrincipalContractor_name : string;
  registration_number : option string;
}.

(** [class RiskRating] *)
Record RiskRating := mkRiskRating {
  level : string;
  time_frame : string;
}.

(** [class ActionItem]; [risk_rating] is a primary key or [None]. *)
Record ActionItem := mkActionItem {
  ActionItem_audit : Z;
  description : string;
  regulation_reference : option string;
  assigned_to : string;
  risk_rating : option Z;
  due_date : option date;
  completed : bool;
  completion_date : option date;
  ActionItem_comments : option string;
}.

(** The tables of [Database] together with those that only the loader
    writes. *)
Record Tables := mkTables {
  core : Database;
  ConsultingFirm_objects : gmap Z ConsultingFirm;
  PrincipalContractor_objects : gmap Z PrincipalContractor;
  RiskRating_objects : gmap Z RiskRating;
  ActionItem_objects : gmap Z ActionItem;
}.

(** What ends the loader before its last line. *)
Inductive LoaderError :=
| MultipleObjectsReturned (model : string)
| IntegrityErrorRaised (e : IntegrityError).

(** [Model.objects.filter] with lookup arguments: the rows that match, with
    their primary keys.  Strings are compared exactly, as SQLite and
    PostgreSQL compare them. *)
Definition matching {A} (lookup : A → bool) (table : gmap Z A) : list (Z * A) :=
  filter (λ kv, lookup kv.2 = true) (map_to_list table).

(** [Model.objects.get_or_create] with lookup arguments and [defaults] on a table keyed
    by primary key: the key of the one row that matches and [False]; or,
    when no row matches, the key of the row it inserts and [True]; with
    several matching rows [get] raises.  [new] is the row built from the
    lookup and the defaults. *)
Definition get_or_create {A} (model : string) (lookup : A → bool) (new : A)
    (table : gmap Z A) : LoaderError + (Z * bool * gmap Z A) :=
  match matching lookup table with
  | [] => inr (next_pk table, true, <[next_pk table := new]> table)
  | [(pk, _)] => inr (pk, false, table)
  | _ :: _ :: _ => inl (MultipleObjectsReturned model)
  end.

(** [get_or_create] for each item of a list, in order, on one table: the
    table when the loop ends, and the exception that ended it, if any. *)
Fixpoint get_or_create_each {I A} (model : string) (lookup : I → A → bool) (new : I → A)
    (items : list I) (table : gmap Z A) : gmap Z A * option LoaderError :=
  match items with
  | [] => (table, None)
  | i :: items' =>
      match get_or_create model (lookup i) (new i) table with
      | inl e => (table, Some e)
      | inr (_, _, table') => get_or_create_each model lookup new items' table'
      end
  end.

(** The lookup of each item finds the row made for it and none of the rows
    made for the items after it. *)
Fixpoint separate {I A} (lookup : I → A → bool) (new : I → A) (items : list I) : Prop :=
  match items with
  | [] => True
  | i :: items' =>
      lookup i (new i) = true
      ∧ Forall (λ j, lookup i (new j) = false) items'
      ∧ separate lookup new items'
  end.

(** [LegalAppointment.objects.get_or_create(audit=.., appointment_type=..,
    defaults=..)]: the lookup is by audit and code; the insert is
    [Checklist_create]. *)
Definition LegalAppointment_get_or_create (new : ChecklistItem) (db : Database)
  : LoaderError + Database :=
  match filter (λ r, audit r = audit new ∧ code r = code new)
          (Checklist_objects db LegalAppointment) with
  | [] =>
      match Checklist_create LegalAppointment new db with
      | inl e => inl (IntegrityErrorRaised e)
      | inr db' => inr db'
      end
  | [_] => inr db
  | _ :: _ :: _ => inl (MultipleObjectsReturned "LegalAppointment")
  end.

Fixpoint LegalAppointment_get_or_create_each (items : list ChecklistItem) (db : Database)
  : Database * option LoaderError :=
  match items with
  | [] => (db, None)
  | i :: items' =>
      match LegalAppointment_get_or_create i db with
      | inl e => (db, Some e)
      | inr db' => LegalAppointment_get_or_create_each items' db'
      end
  end.

(** The literals of [handle]. *)
Definition mbombela : Client := mkClient "MBOMBELA MUNICIPALITY" None None None None.
Definition mk_dube : ConsultingFirm := mkConsultingFirm "MK DUBE CONSULTING".
Definition gabby : PrincipalContractor :=
  mkPrincipalContractor "GABBY CONSTRUCTION" (Some "CONSTR12345").

Definition sample_project (client firm contractor : Z) : Project :=
  mkProject "PAVING OF GOROMANE TO KAMABUZA (VIA TFOLINHLANHLA) AT SHABALALA WARD 1"
    "MP-CWP/328/09/2024" "Shabalala Ward 1" client firm contractor.

(** The audit of 17 July 2025 (ordinal 739449); the scores [84.00] and
    [75.00] are stored with two decimal places. *)
Definition sample_audit (project : Z) : Audit :=
  mkAudit project 739449 "OHS" "001" "LETHU SAFETY CONSULTANTS (PTY) LTD" "CHS-LSC-2025/06"
    (mkDecimal false 8400 (-2)) (mkDecimal false 7500 (-2)) 1 0 0.

(** [legal_appointments], as the rows [get_or_create] builds from them:
    [required_score] 2, [comments] [''] where the item has none. *)
Definition legal_appointments (audit : Z) : list ChecklistItem :=
  [mkChecklistItem audit "CEO_16_1" 2 2 (Some "PRECIOUS MORGAN") (Some "");
   mkChecklistItem audit "CEO_16_2" 2 2 (Some "EUGENE NDLOVU") (Some "");
   mkChecklistItem audit "CONSTR_MGR_8_1" 2 2 (Some "THULANI KHUMALO") (Some "");
   mkChecklistItem audit "CHS_OFFICER_8_5" 2 2 (Some "CHOEU SERAME") (Some "");
   mkChecklistItem audit "ELECT_INSP" 2 0 (Some "") (Some "NONE COMPLIANCE.")].

(** [risk_ratings] *)
Definition risk_ratings : list RiskRating :=
  [mkRiskRating "CRITICAL" "Immediate";
   mkRiskRating "HIGH" "Within 24 hours";
   mkRiskRating "MEDIUM" "Within 3 days";
   mkRiskRating "LOW" "Within 7 days"].

(** [action_items], as the rows [get_or_create] builds from them. *)
Definition action_items (audit : Z) : list ActionItem :=
  [mkActionItem audit
     "To ensure that all management and supervision personnel are appointed in writing and their competency certificates are attached to those appointments and accepted by appointees"
     (Some "CR 8(5)") "Principal Contractor" None None false None None;
   mkActionItem audit
     "Ensure that a breathalyser is readily available on site. Random alcohol testing and records kept on site. Drug and Alcohol policy to be communicated regularly"
     (Some "GSR.2(a)") "Principal Contractor" None None false None None;
   mkActionItem audit
     "Ensure Traffic Accommodation Layout Plan is displayed clearly and updated regularly as project progress"
     (Some "") "Principal Contractor" None None false None None].

(** [Command.handle]: the tables and the text of the lines written to
    [stdout] when it ends, and the exception that ended it, if any.  The
    command runs outside a transaction: what it wrote before an exception
    stays. *)
Definition handle (db : Tables) : Tables * list string * option LoaderError :=
  let out := ["Loading sample audit data..."] in
  let d := core db in
  match get_or_create "Client" (λ c, String.eqb (Client_name c) "MBOMBELA MUNICIPALITY")
          mbombela (Client_objects d) with
  | inl e => (db, out, Some e)
  | inr (client, _, clients) =>
  let d := mkDatabase clients (Project_objects d) (Audit_objects d) (Checklist_objects d)
             (User_objects d) in
  let db := mkTables d (ConsultingFirm_objects db) (PrincipalContractor_objects db)
              (RiskRating_objects db) (ActionItem_objects db) in
  match get_or_create "ConsultingFirm"
          (λ f, String.eqb (ConsultingFirm_name f) "MK DUBE CONSULTING")
          mk_dube (ConsultingFirm_objects db) with
  | inl e => (db, out, Some e)
  | inr (firm, _, firms) =>
  let db := mkTables d firms (PrincipalContractor_objects db) (RiskRating_objects db)
              (ActionItem_objects db) in
  match get_or_create "PrincipalContractor"
          (λ c, String.eqb (PrincipalContractor_name c) "GABBY CONSTRUCTION")
          gabby (PrincipalContractor_objects db) with
  | inl e => (db, out, Some e)
  | inr (contractor, _, contractors) =>
  let db := mkTables d firms contractors (RiskRating_objects db) (ActionItem_objects db) in
  match get_or_create "Project" (λ p, String.eqb (permit_number p) "MP-CWP/328/09/2024")
          (sample_project client firm contractor) (Project_objects d) with
  | inl e => (db, out, Some e)
  | inr (project, created, projects) =>
  let out :=
    out ++ (if created then ["Created project: " +:+ title (sample_project client firm contractor)]
            else []) in
  let d := mkDatabase clients projects (Audit_objects d) (Checklist_objects d)
             (User_objects d) in
  let db := mkTables d firms contractors (RiskRating_objects db) (ActionItem_objects db) in
  match get_or_create "Audit" (λ a, String.eqb (report_number a) "CHS-LSC-2025/06")
          (sample_audit project) (Audit_objects d) with
  | inl e => (db, out, Some e)
  | inr (audit, created, audits) =>
  let out :=
    out ++ (if created then ["Created audit: " +:+ report_number (sample_audit project)]
            else []) in
  let d := mkDatabase clients projects audits (Checklist_objects d) (User_objects d) in
  let db := mkTables d firms contractors (RiskRating_objects db) (ActionItem_objects db) in
  match LegalAppointment_get_or_create_each (legal_appointments audit) d with
  | (d, Some e) =>
      (mkTables d firms contractors (RiskRating_objects db) (ActionItem_objects db),
       out, Some e)
  | (d, None) =>
  match get_or_create_each "RiskRating" (λ r x, String.eqb (level x) (level r)) id
          risk_ratings (RiskRating_objects db) with
  | (ratings, Some e) =>
      (mkTables d firms contractors ratings (ActionItem_objects db), out, Some e)
  | (ratings, None) =>
  match get_or_create_each "ActionItem"
          (λ i x, (ActionItem_audit x =? audit) && String.eqb (description x) (description i))
          id (action_items audit) (ActionItem_objects db) with
  | (items, Some e) => (mkTables d firms contractors ratings items, out, Some e)
  | (items, None) =>
  (mkTables d firms contractors ratings items,
   out ++ ["Successfully loaded sample audit data!"], None)
  end end end end end end end end.

(** An empty database. *)
Definition no_tables : Tables :=
  mkTables (mkDatabase ∅ ∅ ∅ (λ _, []) []) ∅ ∅ ∅ ∅.

(** An empty database but for two clients of the loader's name. *)
Definition two_clients : Tables :=
  mkTables (mkDatabase {[1 := mbombela; 2 := mbombela]} ∅ ∅ (λ _, []) []) ∅ ∅ ∅ ∅.

(** An empty database but for two audits of the loader's report number. *)
Definition two_audits : Tables :=
  mkTables (mkDatabase ∅ ∅ {[1 := sample_audit 1; 2 := sample_audit 1]} (λ _, []) []) ∅ ∅ ∅ ∅.

(** The fixture of [audit/tests.py], with the tables of the loader empty. *)
Definition fixture_tables : Tables := mkTables fixture ∅ ∅ ∅ ∅.

(** * Properties *)

(** ** Uniqueness of checklist rows *)

(** In every model the [unique_together] tuple of a row is its audit and
    its code. *)
Lemma unique_key_inj (c : Category) (r r' : ChecklistItem) :
  unique_key c r = unique_key c r' ↔ (audit r, code r) = (audit r', code r').
Proof.
  split.
  - destruct c; cbv [unique_key unique_together fmap list_fmap column code_column];
      simpl; intros Hk; inversion Hk; congruence.
  - intros Hk; inversion Hk as [[Ha Hc]].
    destruct c; cbv [unique_key unique_together fmap list_fmap column code_column];
      simpl; rewrite Ha, Hc; reflexivity.
Qed.

Lemma unique_key_elem_of (c : Category) (r : ChecklistItem) (rows : list ChecklistItem) :
  unique_key c r ∈ unique_key c <$> rows
  ↔ (audit r, code r) ∈ recorded rows.
Proof.
  unfold recorded. rewrite !list_elem_of_fmap.
  split; intros (x & Hx & Hin); exists x; split; auto; by apply (unique_key_inj c r x).
Qed.

Lemma Checklist_objects_set_table (db : Database) (c c' : Category) rows :
  Checklist_objects (set_table db c rows) c'
  = if decide (c' = c) then rows else Checklist_objects db c'.
Proof. reflexivity. Qed.

Lemma Checklist_create_inr (c : Category) (r : ChecklistItem) (db db' : Database) :
  Checklist_create c r db = inr db' →
  is_Some (Audit_objects db !! audit r)
  ∧ ((audit r, code r) ∉ recorded (Checklist_objects db c))
  ∧ db' = set_table db c (Checklist_objects db c ++ [r]).
Proof.
  unfold Checklist_create. repeat case_bool_decide; try discriminate.
  intros [= <-]. split_and!; [|by rewrite <- unique_key_elem_of|done].
  by destruct (Audit_objects db !! audit r); [eexists|].
Qed.

Lemma unique_per_audit_insert (c : Category) (r : ChecklistItem) (db : Database) :
  unique_per_audit db →
  (audit r, code r) ∉ recorded (Checklist_objects db c) →
  unique_per_audit (set_table db c (Checklist_objects db c ++ [r])).
Proof.
  intros Hinv Hfresh c'. rewrite Checklist_objects_set_table.
  destruct (decide (c' = c)) as [->|]; [|apply Hinv].
  unfold recorded in *. rewrite fmap_app. apply NoDup_app. split_and!.
  - apply Hinv.
  - intros k Hk Hk'. simpl in Hk'. apply list_elem_of_singleton in Hk'. by subst.
  - simpl. apply NoDup_singleton.
Qed.

(** C1: in every checklist category an insert keeps the rows unique per
    (audit, code); for an existing audit and a code not yet recorded for it,
    the first insert succeeds and a second insert with the same audit and
    code is refused with the uniqueness violation of that category's
    [unique_together]. *)
Theorem checklist_insert_twice (c : Category) (db : Database) :
  unique_per_audit db →
  (∀ r db', Checklist_create c r db = inr db' → unique_per_audit db')
  ∧ (∀ r r',
       is_Some (Audit_objects db !! audit r) →
       (audit r, code r) ∉ recorded (Checklist_objects db c) →
       audit r' = audit r → code r' = code r →
       ∃ db', Checklist_create c r db = inr db'
              ∧ Checklist_create c r' db' = inl (UniqueViolation (unique_together c))
              ∧ unique_per_audit db').
Proof.
  intros Hinv. split.
  - intros r db' Hc. apply Checklist_create_inr in Hc as (_ & Hfresh & ->).
    by apply unique_per_audit_insert.
  - intros r r' [a Ha] Hfresh Haud Hcode.
    exists (set_table db c (Checklist_objects db c ++ [r])). split_and!.
    + unfold Checklist_create. rewrite Ha.
      rewrite bool_decide_eq_false_2 by discriminate.
      rewrite bool_decide_eq_false_2; [done|]. by rewrite unique_key_elem_of.
    + unfold Checklist_create. simpl. rewrite Haud, Ha.
      rewrite bool_decide_eq_false_2 by discriminate.
      rewrite bool_decide_eq_true_2; [done|].
      destruct (decide (c = c)); [|done].
      apply unique_key_elem_of. unfold recorded. rewrite Haud, Hcode, fmap_app.
      apply elem_of_app. right. simpl. apply list_elem_of_singleton. done.
    + by apply unique_per_audit_insert.
Qed.

(** The fixture has no checklist rows: a first "SAFETY_TALKS" row for audit
    1 is stored, a second one is refused. *)
Lemma checklist_insert_twice_witness :
  let r := mkChecklistItem 1 "SAFETY_TALKS" 2 1 None None in
  let r' := mkChecklistItem 1 "SAFETY_TALKS" 2 2 None (Some "again") in
  unique_per_audit fixture
  ∧ ∃ db', Checklist_create TrainingCommunication r fixture = inr db'
           ∧ Checklist_create TrainingCommunication r' db'
             = inl (UniqueViolation ["audit"; "item_type"])
           ∧ unique_per_audit db'.
Proof.
  intros r r'.
  assert (Hinv : unique_per_audit fixture) by (intros c; apply NoDup_nil_2).
  split; [exact Hinv|].
  apply (proj2 (checklist_insert_twice TrainingCommunication fixture Hinv) r r').
  - by eexists.
  - simpl. apply not_elem_of_nil.
  - reflexivity.
  - reflexivity.
Defined.

(** ** How a form combines its fields *)

Lemma form_ap_Valid {A B} (f : form (A → B)) (x : form A) (b : B) :
  f <*> x = Valid b ↔ ∃ g a, f = Valid g ∧ x = Valid a ∧ b = g a.
Proof.
  split.
  - destruct f, x; simpl; try discriminate. intros [= <-]. eauto.
  - intros (g & a & -> & -> & ->). reflexivity.
Qed.

Lemma form_ap_errors {A B} (f : form (A → B)) (x : form A) :
  ¬ crashed (f <*> x) →
  ¬ crashed f ∧ ¬ crashed x
  ∧ form_errors (f <*> x) = form_errors f ++ form_errors x.
Proof.
  unfold crashed.
  destruct f, x; simpl; intros Hc; split_and!;
    try (intros [? [=]]); try (exfalso; apply Hc; eauto; fail);
    rewrite ?app_nil_r; reflexivity.
Qed.

Lemma field_Valid {A} (name : string) (c : cleaned A) (a : A) :
  field name c = Valid a ↔ c = Clean a.
Proof. destruct c; simpl; split; congruence. Qed.

Lemma field_errors {A} (name : string) (messages : list string) :
  form_errors (field (A := A) name (Invalid messages)) = [(name, messages)].
Proof. reflexivity. Qed.

Lemma has_errors_field {A} (name : string) (c : cleaned A) : has_errors (field name c).
Proof. by destruct c. Qed.

Lemma has_errors_ap {A B} (f : form (A → B)) (x : form A) :
  has_errors f → has_errors x → has_errors (f <*> x).
Proof. destruct f as [|[|]|], x as [|[|]|]; simpl; tauto. Qed.

Section FormProperties.
Context `{Deployment}.

(** The form is valid exactly when every field cleans to a value; the
    audit it builds holds these values. *)
Lemma AuditModelForm_Valid (db : Database) (data : gmap string pyval) (a : Audit) :
  AuditModelForm_full_clean db data = Valid a ↔ AuditModelForm_cleaned db data a.
Proof.
  unfold AuditModelForm_full_clean. split.
  - intros Hv.
    repeat match type of Hv with
    | _ <*> _ = Valid _ =>
        apply form_ap_Valid in Hv as (? & ? & Hv & ?%field_Valid & ?)
    end.
    injection Hv as <-. subst. by constructor.
  - intros [].
    repeat match goal with
    | Hc : _ = Clean _ |- _ => rewrite Hc; clear Hc
    end.
    by destruct a.
Qed.

(** The errors of a form that did not crash are those of its fields, in
    order. *)
Lemma AuditModelForm_errors (db : Database) (data : gmap string pyval) :
  ¬ crashed (AuditModelForm_full_clean db data) →
  form_errors (AuditModelForm_full_clean db data)
  = form_errors (field "project"
      (ModelChoiceField_clean (Project_objects db) (dict_get data "project")))
    ++ form_errors (field "audit_date" (DateField_clean (dict_get data "audit_date")))
    ++ form_errors (field "audit_type"
         (ChoiceField_clean AUDIT_TYPES (dict_get data "audit_type")))
    ++ form_errors (field "audit_number"
         (required_text Audit_audit_number (dict_get data "audit_number")))
    ++ form_errors (field "performed_by"
         (required_text Audit_performed_by (dict_get data "performed_by")))
    ++ form_errors (field "report_number"
         (required_text Audit_report_number (dict_get data "report_number")))
    ++ form_errors (field "overall_score_percentage"
         (DecimalField_clean Audit_overall_score_percentage
            (dict_get data "overall_score_percentage")))
    ++ form_errors (field "standard_required"
         (DecimalField_clean Audit_standard_required (dict_get data "standard_required")))
    ++ form_errors (field "improvement_notices"
         (IntegerField_clean Audit_improvement_notices (dict_get data "improvement_notices")))
    ++ form_errors (field "contravention_notices"
         (IntegerField_clean Audit_contravention_notices
            (dict_get data "contravention_notices")))
    ++ form_errors (field "prohibition_notices"
         (IntegerField_clean Audit_prohibition_notices (dict_get data "prohibition_notices"))).
Proof.
  unfold AuditModelForm_full_clean. intros Hc.
  repeat match type of Hc with
  | ¬ crashed (_ <*> _) =>
      apply form_ap_errors in Hc as (Hc & _ & ->)
  end.
  simpl. by rewrite <- !app_assoc.
Qed.

Lemma AuditModelForm_has_errors (db : Database) (data : gmap string pyval) :
  has_errors (AuditModelForm_full_clean db data).
Proof.
  unfold AuditModelForm_full_clean.
  repeat (apply has_errors_ap; [|apply has_errors_field]). exact I.
Qed.

End FormProperties.

(** ** The two percentages of an audit *)

(** Closes a goal that asks for the messages of an [Invalid] outcome. *)
Ltac some_messages := eexists; split; [|reflexivity]; discriminate.

Lemma DecimalField_clean_outside (f : DecimalField) (v : pyval) (d : Decimal) :
  DecimalField_validators f = [MinValueValidator 0; MaxValueValidator 100] →
  in_empty_values v = false →
  Decimal_of_string (py_str v) = Some d →
  Decimal_lt d 0 ∨ Decimal_gt d 100 →
  ∃ messages, messages ≠ [] ∧ DecimalField_clean f v = Invalid messages.
Proof.
  unfold DecimalField_clean, Decimal_lt, Decimal_gt. intros -> -> -> Hout.
  destruct (DecimalValidator _ _ d) as [|m ms]; [|some_messages].
  simpl. destruct Hout as [-> | Hgt].
  - simpl. some_messages.
  - rewrite Hgt. simpl. case_bool_decide; simpl; some_messages.
Qed.

Lemma pow10_ge_1000 (e : Z) : 3 ≤ e → 1000 ≤ 10 ^ e.
Proof. intros He. change 1000 with (10 ^ 3). apply Z.pow_le_mono_r; lia. Qed.

(** The representations of 0 and of 100 with at most two decimal places. *)
Lemma Decimal_boundary (d : Decimal) :
  -2 ≤ exponent d →
  Decimal_eq d 0 ∨ Decimal_eq d 100 →
  coefficient d = 0%N
  ∨ sign d = false
    ∧ (coefficient d, exponent d)
      ∈ [(100%N, 0); (10%N, 1); (1%N, 2); (1000%N, -1); (10000%N, -2)].
Proof.
  destruct d as [s c e]. unfold Decimal_eq, Decimal_compare, signed_coefficient. simpl.
  intros He Hv. destruct (Z.leb_spec 0 e) as [Hpos|Hneg].
  - destruct Hv as [H0|H100]; apply Z.compare_eq in H0 || apply Z.compare_eq in H100.
    + left. assert (0 < 10 ^ e) by (apply Z.pow_pos_nonneg; lia).
      apply Z.eq_mul_0 in H0 as [H0|H0]; [destruct s; lia|lia].
    + right. assert (0 < 10 ^ e) by (apply Z.pow_pos_nonneg; lia).
      assert (s = false) as ->.
      { destruct s; [exfalso|done]. pose proof (N2Z.is_nonneg c).
        revert H100 H. generalize (10 ^ e). intros; nia. }
      split; [done|].
      assert (e = 0 ∨ e = 1 ∨ e = 2) as [-> | [-> | ->]].
      { destruct (Z.le_gt_cases 3 e) as [H3|]; [exfalso|lia].
        apply pow10_ge_1000 in H3. revert H100 H3. generalize (10 ^ e). intros p Hp H3.
        assert (Z.of_N c = 0 ∨ 1 ≤ Z.of_N c) as [Hz|Hz] by lia; [rewrite Hz in Hp; lia|nia]. }
      all: change (10 ^ 0) with 1 in H100 || change (10 ^ 1) with 10 in H100
           || change (10 ^ 2) with 100 in H100.
      * assert (c = 100%N) as -> by lia. set_solver.
      * assert (c = 10%N) as -> by lia. set_solver.
      * assert (c = 1%N) as -> by lia. set_solver.
  - assert (e = -1 ∨ e = -2) as [-> | ->] by lia;
      destruct Hv as [H0|H100]; apply Z.compare_eq in H0 || apply Z.compare_eq in H100;
      simpl in *.
    + left. destruct s; lia.
    + right. destruct s; [lia|]. split; [done|].
      assert (c = 1000%N) as -> by lia. set_solver.
    + left. destruct s; lia.
    + right. destruct s; [lia|]. split; [done|].
      assert (c = 10000%N) as -> by lia. set_solver.
Qed.

Lemma DecimalField_clean_boundary (f : DecimalField) (v : pyval) (d : Decimal) :
  f = mkDecimalField 5 2 [MinValueValidator 0; MaxValueValidator 100] →
  in_empty_values v = false →
  Decimal_of_string (py_str v) = Some d →
  -2 ≤ exponent d →
  Decimal_eq d 0 ∨ Decimal_eq d 100 →
  DecimalField_clean f v = Clean d.
Proof.
  intros -> Hne Hd He Hv. unfold DecimalField_clean. rewrite Hne, Hd. simpl.
  destruct (Decimal_boundary d He Hv) as [Hz | [Hs Hin]].
  - destruct d as [s c e]. simpl in *. subst c.
    assert (Hval : DecimalValidator 5 2 {| sign := s; coefficient := 0; exponent := e |} = []).
    { unfold DecimalValidator. simpl.
      destruct (Z.leb_spec 0 e); [reflexivity|].
      assert (e = -1 ∨ e = -2) as [-> | ->] by lia; reflexivity. }
    rewrite Hval.
    assert (Hcmp : ∀ n, Decimal_compare {| sign := s; coefficient := 0; exponent := e |} n
                        = (0 ?= n)).
    { intros n. unfold Decimal_compare, signed_coefficient. simpl.
      destruct (Z.leb_spec 0 e).
      - by destruct s.
      - assert (e = -1 ∨ e = -2) as [-> | ->] by lia; destruct s, n; reflexivity. }
    rewrite !Hcmp. reflexivity.
  - destruct d as [s c e]. simpl in *. subst s.
    repeat (apply elem_of_cons in Hin as [[= -> ->] | Hin]; [reflexivity|]).
    by apply elem_of_nil in Hin.
Qed.

(** C2: for [overall_score_percentage] and [standard_required], a submitted
    value that reads as a decimal below 0 or above 100 is refused with
    validation messages (the value is not adjusted), the messages are filed
    under the field's name in the errors of the form and the form is not
    valid; the values 0 and 100, written with at most two decimal places,
    are accepted as they are. *)
Theorem score_percentage_bounds `{Deployment} (name : string) (f : DecimalField)
    (v : pyval) (d : Decimal) :
  (name, f) ∈ [("overall_score_percentage", Audit_overall_score_percentage);
               ("standard_required", Audit_standard_required)] →
  in_empty_values v = false →
  Decimal_of_string (py_str v) = Some d →
  (Decimal_lt d 0 ∨ Decimal_gt d 100 →
     (∃ messages, messages ≠ [] ∧ DecimalField_clean f v = Invalid messages)
     ∧ (∀ db data, dict_get data name = v →
          match AuditModelForm_full_clean db data with
          | Valid _ => False
          | NotValid errors => ∃ messages, messages ≠ [] ∧ (name, messages) ∈ errors
          | Crash _ => True
          end))
  ∧ (-2 ≤ exponent d → Decimal_eq d 0 ∨ Decimal_eq d 100 → DecimalField_clean f v = Clean d).
Proof.
  intros Hf Hne Hd. split.
  - intros Hout.
    assert (Hinv : ∃ messages, messages ≠ [] ∧ DecimalField_clean f v = Invalid messages).
    { apply (DecimalField_clean_outside f v d); auto.
      repeat (apply elem_of_cons in Hf as [[= -> ->] | Hf]; [reflexivity|]).
      by apply elem_of_nil in Hf. }
    split; [exact Hinv|]. intros db data Hv. destruct Hinv as (ms & Hms & Hinv).
    destruct (AuditModelForm_full_clean db data) as [exc|errors|a] eqn:Hform; [done| |].
    + exists ms. split; [done|].
      assert (Hnc : ¬ crashed (AuditModelForm_full_clean db data)).
      { rewrite Hform. intros [? [=]]. }
      apply AuditModelForm_errors in Hnc. rewrite Hform in Hnc. simpl in Hnc.
      rewrite Hnc. clear Hnc Hform.
      repeat (apply elem_of_cons in Hf as [[= -> ->] | Hf]);
        [| |by apply elem_of_nil in Hf]; rewrite Hv, Hinv, field_errors;
        rewrite !elem_of_app; rewrite list_elem_of_singleton; tauto.
    + apply AuditModelForm_Valid in Hform. destruct Hform.
      repeat (apply elem_of_cons in Hf as [[= -> ->] | Hf]);
        [| |by apply elem_of_nil in Hf]; rewrite Hv in *; congruence.
  - intros He Hv. apply (DecimalField_clean_boundary f v d); auto.
    repeat (apply elem_of_cons in Hf as [[= -> ->] | Hf]; [reflexivity|]).
    by apply elem_of_nil in Hf.
Qed.

Lemma score_percentage_bounds_witness :
  (∃ messages, messages ≠ []
     ∧ DecimalField_clean Audit_overall_score_percentage (PyStr "100.01") = Invalid messages)
  ∧ DecimalField_clean Audit_standard_required (PyStr "100.00")
    = Clean (mkDecimal false 10000 (-2)).
Proof.
  split.
  - apply (@score_percentage_bounds reference "overall_score_percentage"
             Audit_overall_score_percentage (PyStr "100.01") (mkDecimal false 10001 (-2))).
    + repeat constructor.
    + reflexivity.
    + reflexivity.
    + right. reflexivity.
  - apply (@score_percentage_bounds reference "standard_required"
             Audit_standard_required (PyStr "100.00") (mkDecimal false 10000 (-2))).
    + repeat constructor.
    + reflexivity.
    + reflexivity.
    + simpl. lia.
    + right. reflexivity.
Defined.

(** ** Creating an audit *)

Section CreateProperties.
Context `{Deployment}.

Lemma next_pk_fresh {A} (table : gmap Z A) : table !! next_pk table = None.
Proof.
  destruct (table !! next_pk table) as [x|] eqn:Hx; [exfalso|done].
  apply elem_of_map_to_list in Hx.
  assert (Hle : ∀ l : list (Z * A), ∀ k y, (k, y) ∈ l → k ≤ foldr Z.max 0 l.*1).
  { induction l as [|[k' y'] l IH]; intros k y Hin.
    - by apply elem_of_nil in Hin.
    - change (foldr Z.max 0 ((k', y') :: l).*1) with (Z.max k' (foldr Z.max 0 l.*1)).
      apply elem_of_cons in Hin as [[= -> ->] | Hin]; [lia|].
      specialize (IH k y Hin). lia. }
  apply Hle in Hx. unfold next_pk in Hx. lia.
Qed.

Lemma AuditCreateView_post_Valid (request : HttpRequest) (db : Database)
    (payload : gmap string pyval) (a : Audit) :
  content_type request = "application/json" →
  loaded_body request = JSONObject payload →
  AuditModelForm_full_clean db payload = Valid a →
  AuditCreateView_post request db
  = (JsonResponse (JObj [("success", JBool true); ("id", JNum (next_pk (Audit_objects db)))])
       200,
     mkDatabase (Client_objects db) (Project_objects db)
       (<[next_pk (Audit_objects db) := a]> (Audit_objects db))
       (Checklist_objects db) (User_objects db)).
Proof.
  intros Hct Hbody Hv. unfold AuditCreateView_post. by rewrite Hct, Hbody, Hv.
Qed.

Lemma AuditCreateView_post_NotValid (request : HttpRequest) (db : Database)
    (payload : gmap string pyval) (errors : ErrorDict) :
  content_type request = "application/json" →
  loaded_body request = JSONObject payload →
  AuditModelForm_full_clean db payload = NotValid errors →
  AuditCreateView_post request db = (JsonResponse (failure (simple errors)) 400, db).
Proof.
  intros Hct Hbody Hv. unfold AuditCreateView_post. by rewrite Hct, Hbody, Hv.
Qed.

(** A notice counter has no validator of its own: every reading within
    the range of the column is clean. *)
Lemma IntegerField_clean_in_range (f : IntegerField) (v : pyval) (n : Z) :
  IntegerField_validators f = [] →
  reads_as_integer v n →
  in_integer_field_range n →
  IntegerField_clean f v = Clean n.
Proof.
  intros Hf [Hne Hn] [Hlo Hhi].
  unfold IntegerField_clean, IntegerField_validators'. rewrite Hne, Hn, Hf.
  destruct integer_field_range as [[lo|] [hi|]]; simpl in *.
  - specialize (Hlo lo eq_refl). specialize (Hhi hi eq_refl).
    destruct (Z.ltb_spec n lo), (Z.ltb_spec hi n); try lia. reflexivity.
  - specialize (Hlo lo eq_refl). destruct (Z.ltb_spec n lo); try lia. reflexivity.
  - specialize (Hhi hi eq_refl). destruct (Z.ltb_spec hi n); try lia. reflexivity.
  - reflexivity.
Qed.

(** Replacing the three counters of a valid submission by other readings
    within range leaves it valid. *)
Lemma AuditModelForm_notices (db : Database) (data : gmap string pyval) (a : Audit)
    (vi vc vp : pyval) (ni nc np : Z) :
  AuditModelForm_full_clean db data = Valid a →
  reads_as_integer vi ni → in_integer_field_range ni →
  reads_as_integer vc nc → in_integer_field_range nc →
  reads_as_integer vp np → in_integer_field_range np →
  AuditModelForm_full_clean db
    (<["improvement_notices" := vi]>
       (<["contravention_notices" := vc]> (<["prohibition_notices" := vp]> data)))
  = Valid (with_notices a ni nc np).
Proof.
  intros Hv Hi Hir Hc Hcr Hp Hpr.
  apply AuditModelForm_Valid in Hv. destruct Hv.
  apply AuditModelForm_Valid.
  constructor; unfold dict_get in *; simpl;
    repeat (rewrite lookup_insert_ne by done); try assumption;
    rewrite ?lookup_insert_eq; simpl; by apply IntegerField_clean_in_range.
Qed.

End CreateProperties.

(** C3 (as the code has it): the three notice counters are plain integer
    columns.  Every submitted value that reads as an integer within the
    range of the database column is clean, whatever its sign, and a
    create-audit submission that is valid stays valid, and is persisted,
    when its three counters are replaced by any such readings, negative
    ones included. *)
Theorem notice_counters_any_sign `{Deployment} (request : HttpRequest) (db : Database)
    (data : gmap string pyval) (a : Audit) (vi vc vp : pyval) (ni nc np : Z) :
  content_type request = "application/json" →
  loaded_body request
  = JSONObject (<["improvement_notices" := vi]>
      (<["contravention_notices" := vc]> (<["prohibition_notices" := vp]> data))) →
  AuditModelForm_full_clean db data = Valid a →
  reads_as_integer vi ni → in_integer_field_range ni →
  reads_as_integer vc nc → in_integer_field_range nc →
  reads_as_integer vp np → in_integer_field_range np →
  IntegerField_clean Audit_improvement_notices vi = Clean ni
  ∧ IntegerField_clean Audit_contravention_notices vc = Clean nc
  ∧ IntegerField_clean Audit_prohibition_notices vp = Clean np
  ∧ ∃ pk db',
      AuditCreateView_post request db
      = (JsonResponse (JObj [("success", JBool true); ("id", JNum pk)]) 200, db')
      ∧ Audit_objects db !! pk = None
      ∧ Audit_objects db' !! pk = Some (with_notices a ni nc np).
Proof.
  intros Hct Hbody Hv Hi Hir Hc Hcr Hp Hpr. split_and!.
  - by apply IntegerField_clean_in_range.
  - by apply IntegerField_clean_in_range.
  - by apply IntegerField_clean_in_range.
  - eexists _, _. split_and!.
    + eapply AuditCreateView_post_Valid; [done..|]. by apply AuditModelForm_notices.
    + apply next_pk_fresh.
    + simpl. apply lookup_insert_eq.
Qed.

(** The payload of [audit/tests.py] with the counters -1, -2 and -3. *)
Lemma notice_counters_any_sign_witness :
  ∃ pk db',
    @AuditCreateView_post reference
      (json_request
         (<["improvement_notices" := PyInt (-1)]>
            (<["contravention_notices" := PyStr "-2"]>
               (<["prohibition_notices" := PyStr "-3.0"]> create_payload))))
      fixture
    = (JsonResponse (JObj [("success", JBool true); ("id", JNum pk)]) 200, db')
    ∧ Audit_objects fixture !! pk = None
    ∧ (improvement_notices <$> Audit_objects db' !! pk) = Some (-1).
Proof.
  destruct (@notice_counters_any_sign reference
    (json_request
       (<["improvement_notices" := PyInt (-1)]>
          (<["contravention_notices" := PyStr "-2"]>
             (<["prohibition_notices" := PyStr "-3.0"]> create_payload))))
    fixture create_payload
    (mkAudit 1 739618 "OHS" "002" "Creator" "R-002"
       (mkDecimal false 9000 (-2)) (mkDecimal false 7500 (-2)) 0 0 0)
    (PyInt (-1)) (PyStr "-2") (PyStr "-3.0") (-1) (-2) (-3))
    as (_ & _ & _ & pk & db' & Hpost & Hfresh & Hstored).
  - reflexivity.
  - reflexivity.
  - vm_compute. reflexivity.
  - split; reflexivity.
  - split; simpl; intros ? [= <-]; lia.
  - split; reflexivity.
  - split; simpl; intros ? [= <-]; lia.
  - split; vm_compute; reflexivity.
  - split; simpl; intros ? [= <-]; lia.
  - exists pk, db'. split_and!; [exact Hpost|exact Hfresh|]. by rewrite Hstored.
Defined.

(** C3 (as the specification has it) fails: with the counter -1 the payload
    of [audit/tests.py] passes validation and the audit is stored with -1. *)
Lemma negative_notice_counter_is_persisted :
  let payload := <["improvement_notices" := PyInt (-1)]> create_payload in
  let result := @AuditCreateView_post reference (json_request payload) fixture in
  dict_get payload "improvement_notices" = PyInt (-1)
  ∧ result.1 = JsonResponse (JObj [("success", JBool true); ("id", JNum 2)]) 200
  ∧ (improvement_notices <$> Audit_objects result.2 !! 2) = Some (-1)
  ∧ Audit_objects fixture !! 2 = None.
Proof. vm_compute. done. Qed.

Lemma ModelChoiceField_clean_missing {A} (queryset : gmap Z A) (v : pyval) (pk : Z) :
  py_int v = Some pk →
  queryset !! pk = None →
  ModelChoiceField_clean queryset v
  = Invalid ["Select a valid choice. That choice is not one of the available choices."].
Proof.
  intros Hpk Hnone. unfold ModelChoiceField_clean.
  assert (in_empty_values v = false) as ->.
  { destruct v as [| |n|s]; try done. simpl.
    destruct (String.eqb_spec s ""); [subst; discriminate|done]. }
  rewrite Hpk, Hnone. rewrite bool_decide_eq_false_2; [done|]. by intros [? [=]].
Qed.



(** ** The dashboard of reports *)

Global Instance later_or_same_total : Total later_or_same.
Proof. intros x y. unfold later_or_same. lia. Qed.

Global Instance later_or_same_trans : Transitive later_or_same.
Proof. intros x y z. unfold later_or_same. lia. Qed.

Lemma StronglySorted_slice {A} (R : relation A) (l : list A) (bottom top : Z) :
  StronglySorted R l → StronglySorted R (slice l bottom top).
Proof.
  intros Hl. unfold slice.
  rewrite <- (take_drop (Z.to_nat top) l) in Hl. apply StronglySorted_app_1_l in Hl.
  rewrite <- (take_drop (Z.to_nat bottom) (take (Z.to_nat top) l)) in Hl.
  by apply StronglySorted_app_1_r in Hl.
Qed.

Section Pagination.
Context {A : Type} (p : Paginator A).
Hypothesis ten_per_page : per_page p = 10.

(** [num_pages] is the least number of pages of ten that hold the rows,
    and at least one. *)
Lemma num_pages_bounds :
  1 ≤ num_pages p
  ∧ 10 * (num_pages p - 1) < Z.max 1 (count p) ≤ 10 * num_pages p.
Proof.
  unfold num_pages. rewrite ten_per_page. rewrite Z.sub_0_r.
  set (hits := Z.max 1 (count p)).
  assert (1 ≤ hits) by (unfold hits; lia).
  pose proof (Z.div_mod (- hits) 10 ltac:(lia)).
  pose proof (Z.mod_pos_bound (- hits) 10 ltac:(lia)).
  lia.
Qed.

(** The page numbered [n]. *)
Lemma page_spec (v : pyval) :
  page p v
  = match py_int v with
    | None => inl PageNotAnInteger
    | Some n =>
        if (n <? 1) || (num_pages p <? n) then inl EmptyPage
        else inr (mkPage
                    (slice (object_list p) ((n - 1) * 10)
                       (if count p <=? (n - 1) * 10 + 10 then count p else (n - 1) * 10 + 10))
                    n)
    end.
Proof.
  unfold page, validate_number. destruct (py_int v) as [n|]; [|done].
  rewrite ten_per_page.
  destruct (n <? 1), (num_pages p <? n); try done.
  cbv zeta. by rewrite Z.add_0_r.
Qed.

Lemma page_length (n : Z) :
  1 ≤ n →
  Z.of_nat (length (slice (object_list p) ((n - 1) * 10)
              (if count p <=? (n - 1) * 10 + 10 then count p else (n - 1) * 10 + 10)))
  ≤ 10.
Proof.
  intros Hn. unfold slice. rewrite length_drop, length_take.
  unfold count. destruct (Z.leb_spec (Z.of_nat (length (object_list p))) ((n - 1) * 10 + 10)); lia.
Qed.

End Pagination.

(** What [get_context_data] shows: the page whose number is the page
    parameter when that is a page number in range, page 1 when the
    parameter is not an integer, the last page otherwise. *)
Lemma ReportDashboard_page (request : HttpRequest) (db : Database) :
  let qs := order_by_audit_date_desc (Audit_objects db) in
  let pg := mkPaginator qs 10 in
  let v := QueryDict_get (GET request) "page" in
  ∃ k,
    1 ≤ k ≤ num_pages pg
    ∧ k = match py_int v with
          | None => 1
          | Some n => if (n <? 1) || (num_pages pg <? n) then num_pages pg else n
          end
    ∧ ReportDashboard_get_context_data request db
      = let rows := slice qs ((k - 1) * 10)
                      (if count pg <=? (k - 1) * 10 + 10 then count pg else (k - 1) * 10 + 10) in
        inr (mkContext rows (mkPage rows k) pg).
Proof.
  intros qs pg v.
  pose proof (num_pages_bounds pg eq_refl) as [Hn _].
  unfold ReportDashboard_get_context_data. fold qs. fold pg. fold v.
  rewrite !(page_spec pg eq_refl). simpl py_int.
  destruct (py_int v) as [n|].
  - destruct (Z.ltb_spec n 1), (Z.ltb_spec (num_pages pg) n); simpl.
    + exists (num_pages pg). split; [lia|]. split; [done|].
      destruct (Z.ltb_spec (num_pages pg) 1); [lia|].
      rewrite Z.ltb_irrefl. reflexivity.
    + exists (num_pages pg). split; [lia|]. split; [done|].
      destruct (Z.ltb_spec (num_pages pg) 1); [lia|].
      rewrite Z.ltb_irrefl. reflexivity.
    + exists (num_pages pg). split; [lia|]. split; [done|].
      destruct (Z.ltb_spec (num_pages pg) 1); [lia|].
      rewrite Z.ltb_irrefl. reflexivity.
    + exists n. split; [lia|]. split; [done|]. reflexivity.
  - exists 1. split; [lia|]. split; [done|].
    destruct (Z.ltb_spec (num_pages pg) 1); [lia|]. reflexivity.
Qed.



(** ** Logging in *)

Section LoginProperties.
Context `{Deployment}.

Lemma authenticate_unknown_user (users : list User) (name : string) (pw : pyval) :
  find (λ u, String.eqb (username u) name) users = None →
  authenticate users name pw = None.
Proof.
  intros Hfind. unfold authenticate.
  induction AUTHENTICATION_BACKENDS as [|b bs IH]; [done|].
  unfold backend_authenticate at 1. by rewrite Hfind.
Qed.

Lemma authenticate_wrong_password (users : list User) (name : string) (pw : pyval) (u : User) :
  find (λ u, String.eqb (username u) name) users = Some u →
  password u ≠ py_str pw →
  authenticate users name pw = None.
Proof.
  intros Hfind Hpw. unfold authenticate.
  induction AUTHENTICATION_BACKENDS as [|b bs IH]; [done|].
  unfold backend_authenticate at 1. rewrite Hfind.
  destruct (String.eqb_spec (password u) (py_str pw)); [done|]. exact IH.
Qed.

(** A JSON login that [authenticate] turns down gets the generic answer
    and no session. *)
Lemma LoginAjaxView_post_rejected (request : HttpRequest) (db : Database)
    (payload : gmap string pyval) (name pw : string) :
  content_type request = "application/json" →
  loaded_body request = JSONObject payload →
  payload !! "username" = Some (PyStr name) →
  payload !! "password" = Some (PyStr pw) →
  strip name ≠ "" → pw ≠ "" →
  authenticate (User_objects db) (strip name) (PyStr pw) = None →
  LoginAjaxView_post request db = (invalid_credentials, None).
Proof.
  intros Hct Hbody Hname Hpw Hn Hp Hauth.
  unfold LoginAjaxView_post. rewrite Hct, Hbody. simpl.
  unfold dict_get. rewrite Hname, Hpw. simpl.
  assert (name ≠ "") by (intros ->; by apply Hn).
  unfold or_empty_strip, or_empty. simpl.
  destruct (String.eqb_spec name ""); [done|].
  destruct (String.eqb_spec pw ""); [done|]. simpl.
  unfold LoginAjaxView_check.
  destruct (String.eqb_spec (strip name) ""); [done|]. simpl.
  destruct (String.eqb_spec pw ""); [done|]. simpl.
  by rewrite Hauth.
Qed.

(** An unknown user name and a wrong password for a known one get the
    same answer. *)
Lemma login_failures_alike (db : Database) (request1 request2 : HttpRequest)
    (payload1 payload2 : gmap string pyval) (name1 pw1 name2 pw2 : string) (u : User) :
  content_type request1 = "application/json" →
  loaded_body request1 = JSONObject payload1 →
  payload1 !! "username" = Some (PyStr name1) →
  payload1 !! "password" = Some (PyStr pw1) →
  strip name1 ≠ "" → pw1 ≠ "" →
  content_type request2 = "application/json" →
  loaded_body request2 = JSONObject payload2 →
  payload2 !! "username" = Some (PyStr name2) →
  payload2 !! "password" = Some (PyStr pw2) →
  strip name2 ≠ "" → pw2 ≠ "" →
  find (λ u, String.eqb (username u) (strip name1)) (User_objects db) = None →
  find (λ u, String.eqb (username u) (strip name2)) (User_objects db) = Some u →
  password u ≠ pw2 →
  LoginAjaxView_post request1 db = LoginAjaxView_post request2 db
  ∧ LoginAjaxView_post request1 db = (invalid_credentials, None).
Proof.
  intros. 
  rewrite (LoginAjaxView_post_rejected request1 db payload1 name1 pw1);
    [|by auto using authenticate_unknown_user..].
  rewrite (LoginAjaxView_post_rejected request2 db payload2 name2 pw2);
    [done|by eauto using authenticate_wrong_password..].
Qed.

End LoginProperties.

(** C5 (where the code departs from it): with Django's default
    authentication backend a login with the right password of a deactivated
    account gets the same answer as an unknown user name and as a wrong
    password, not the inactive-account message; [authenticate] has already
    turned the inactive user away, so the [is_active] test of [post] is
    never reached with an inactive user.  With
    [AllowAllUsersModelBackend] the same request gets the inactive-account
    message. *)
Theorem login_deactivated_account_default_backend :
  let attempt (d : Deployment) (name pw : string) :=
    (@LoginAjaxView_post d (json_request (credentials name pw)) with_deactivated_account).1 in
  attempt reference "nobody" "secret" = invalid_credentials
  ∧ attempt reference "former" "wrong" = invalid_credentials
  ∧ attempt reference "former" "secret" = invalid_credentials
  ∧ attempt reference "former" "secret" ≠ account_inactive
  ∧ attempt allow_all_users "former" "secret" = account_inactive.
Proof. vm_compute. split_and!; done. Qed.

(** ** Sharing a report by e-mail *)

Lemma string_app_nil_r (s : string) : s +:+ "" = s.
Proof.
  induction s as [|c s IH]; [done|].
  change (String c (s +:+ "") = String c s). by rewrite IH.
Qed.

Lemma string_app_assoc (s1 s2 s3 : string) : (s1 +:+ s2) +:+ s3 = s1 +:+ s2 +:+ s3.
Proof.
  induction s1 as [|c s1 IH]; [done|].
  change (String c ((s1 +:+ s2) +:+ s3) = String c (s1 +:+ s2 +:+ s3)). by rewrite IH.
Qed.

Lemma contains_suffix (pre needle : string) : contains (pre +:+ needle) needle.
Proof. exists pre, "". by rewrite string_app_nil_r. Qed.

Section ShareProperties.
Context `{Deployment}.

(** The message [post] hands to [send_mail] for the recipient [to_email]. *)
Lemma AuditShareAjaxView_post_mail (request : HttpRequest) (pk : Z) (db : Database)
    (audit : Audit) (payload : gmap string pyval) (s : string) :
  Audit_objects db !! pk = Some audit →
  0 ≤ pk →
  content_type request = "application/json" →
  loaded_body request = JSONObject payload →
  payload !! "to_email" = Some (PyStr s) →
  strip s ≠ "" →
  validate_email (strip s) = true →
  ∃ mail,
    subject mail = "Audit Report: " +:+ report_number audit
    ∧ body mail
      = py_str (dict_get_default payload "message" (PyStr "")) +:+ newline +:+ newline
        +:+ "View the report: "
        +:+ build_absolute_uri request ("/" +:+ url_prefix +:+ "reports/" +:+ pretty pk +:+ "/")
    ∧ recipient_list mail = [strip s]
    ∧ AuditShareAjaxView_post request pk db
      = match send_messages mail with
        | None => (JsonResponse (JObj [("success", JBool true)]) 200, [mail])
        | Some e =>
            (JsonResponse
               (failure (JObj [("__all__", JStr ("Failed to send email: " +:+ e))])) 500,
             [])
        end.
Proof.
  intros Haudit Hpk Hct Hbody Hto Hne Hvalid.
  unfold AuditShareAjaxView_post. rewrite Haudit, Hct, Hbody. simpl.
  unfold dict_get. rewrite Hto. simpl.
  unfold or_empty_strip. simpl.
  destruct (String.eqb_spec s "") as [-> | _]; [done|]. simpl.
  destruct (String.eqb_spec (strip s) ""); [done|]. rewrite Hvalid. simpl.
  unfold reverse_report_detail. destruct (Z.leb_spec 0 pk); [|lia].
  eexists. split_and!; [| | |reflexivity]; reflexivity.
Qed.

End ShareProperties.






(** ** Editing a client *)

Section ClientProperties.
Context `{Deployment}.

(** The form reads the four allowed keys and nothing else. *)
Lemma ClientForm_full_clean_ext (data1 data2 : gmap string pyval) :
  (∀ k, k ∈ ClientForm_fields → data1 !! k = data2 !! k) →
  ClientForm_full_clean data1 = ClientForm_full_clean data2.
Proof.
  intros Hsame. unfold ClientForm_full_clean, dict_get.
  rewrite !(Hsame "contact_name"), !(Hsame "contact_email"),
    !(Hsame "contact_phone"), !(Hsame "address"); [done|..];
    unfold ClientForm_fields; set_solver.
Qed.

Lemma allowed_lookup (payload : gmap string pyval) (k : string) :
  k ∈ ClientForm_fields → allowed payload !! k = Some (dict_get payload k).
Proof.
  unfold ClientForm_fields, allowed. intros Hk. simpl.
  repeat (apply elem_of_cons in Hk as [-> | Hk];
          [repeat (rewrite lookup_insert_ne by done); by rewrite lookup_insert_eq|]).
  by apply elem_of_nil in Hk.
Qed.

Lemma allowed_insert (payload : gmap string pyval) (k : string) (v : pyval) :
  k ∉ ClientForm_fields → allowed (<[k := v]> payload) = allowed payload.
Proof.
  unfold ClientForm_fields, allowed, dict_get. intros Hk. simpl.
  repeat (rewrite (lookup_insert_ne payload k) by set_solver). done.
Qed.

(** What [post] leaves of the client: the same name. *)
Lemma ClientUpdateAjaxView_post_name (request : HttpRequest) (pk : Z) (db : Database)
    (client : Client) :
  Client_objects db !! pk = Some client →
  ∃ client',
    Client_objects (ClientUpdateAjaxView_post request pk db).2 !! pk = Some client'
    ∧ Client_name client' = Client_name client.
Proof.
  intros Hclient. unfold ClientUpdateAjaxView_post. rewrite Hclient.
  assert (Hfinish : ∀ f,
    ∃ client',
      Client_objects (ClientUpdateAjaxView_finish pk client f db).2 !! pk = Some client'
      ∧ Client_name client' = Client_name client).
  { intros [exc|errors|cd]; simpl; eauto using lookup_insert_eq.
    eexists. split; [apply lookup_insert_eq|done]. }
  destruct (String.eqb _ _); [|apply Hfinish].
  destruct (loaded_body request); simpl; eauto.
Qed.

(** What [post] answers with the success object is the outcome of a
    valid form. *)
Lemma ClientUpdateAjaxView_post_success (request : HttpRequest) (pk : Z) (db : Database)
    (client : Client) (payload : gmap string pyval) :
  Client_objects db !! pk = Some client →
  content_type request = "application/json" →
  loaded_body request = JSONObject payload →
  (ClientUpdateAjaxView_post request pk db).1
  = JsonResponse (JObj [("success", JBool true)]) 200 →
  ∃ cd,
    ClientForm_full_clean (allowed payload) = Valid cd
    ∧ ClientUpdateAjaxView_post request pk db
      = (JsonResponse (JObj [("success", JBool true)]) 200, ClientForm_save pk client cd db).
Proof.
  intros Hclient Hct Hbody. unfold ClientUpdateAjaxView_post.
  rewrite Hclient, Hct, Hbody. simpl.
  destruct (ClientForm_full_clean (allowed payload)) as [exc|errors|cd]; simpl;
    [discriminate..|]. eauto.
Qed.

End ClientProperties.

(** C8: a submitted field outside [contact_name], [contact_email],
    [contact_phone] and [address] changes neither the answer nor what is
    stored, for a JSON body and for a form-encoded one; whatever is
    submitted, the client keeps its name and the other clients are as they
    were. *)
Theorem client_update_ignores_other_fields `{Deployment} (request request' : HttpRequest)
    (pk : Z) (db : Database) (k : string) :
  k ∉ ClientForm_fields →
  content_type request' = content_type request →
  (∀ payload v,
     content_type request = "application/json" →
     loaded_body request = JSONObject payload →
     loaded_body request' = JSONObject (<[k := v]> payload) →
     ClientUpdateAjaxView_post request' pk db = ClientUpdateAjaxView_post request pk db)
  ∧ (∀ v,
       content_type request ≠ "application/json" →
       POST request' = <[k := v]> (POST request) →
       ClientUpdateAjaxView_post request' pk db = ClientUpdateAjaxView_post request pk db)
  ∧ (∀ client,
       Client_objects db !! pk = Some client →
       ∃ client',
         Client_objects (ClientUpdateAjaxView_post request' pk db).2 !! pk = Some client'
         ∧ Client_name client' = Client_name client)
  ∧ (∀ pk', pk' ≠ pk →
       Client_objects (ClientUpdateAjaxView_post request' pk db).2 !! pk'
       = Client_objects db !! pk').
Proof.
  intros Hk Hct. split_and!.
  - intros payload v Hjson Hbody Hbody'. unfold ClientUpdateAjaxView_post.
    rewrite Hct, Hjson, Hbody, Hbody'. simpl. by rewrite allowed_insert.
  - intros v Hform HPOST. unfold ClientUpdateAjaxView_post. rewrite Hct.
    destruct (String.eqb_spec (content_type request) "application/json"); [done|].
    rewrite HPOST.
    rewrite (ClientForm_full_clean_ext (PyStr <$> <[k:=v]> (POST request))
               (PyStr <$> POST request)); [done|].
    intros k' Hk'. rewrite !lookup_fmap, lookup_insert_ne; [done|]. by intros ->.
  - intros client. apply ClientUpdateAjaxView_post_name.
  - intros pk' Hpk'. unfold ClientUpdateAjaxView_post.
    destruct (Client_objects db !! pk) as [client|]; [|done].
    assert (Hfinish : ∀ f,
      Client_objects (ClientUpdateAjaxView_finish pk client f db).2 !! pk'
      = Client_objects db !! pk').
    { intros [exc|errors|cd]; simpl; try done. by apply lookup_insert_ne. }
    destruct (String.eqb _ _); [|apply Hfinish].
    destruct (loaded_body request'); simpl; auto.
Qed.

(** The update of [audit/tests.py] with an extra [name]: same answer, and
    the client is still called "ACME". *)
Lemma client_update_ignores_other_fields_witness :
  let payload : gmap string pyval :=
    {[ "contact_name" := PyStr "New Contact"; "contact_email" := PyStr "new@example.com";
       "contact_phone" := PyStr "012345"; "address" := PyStr "New Address" ]} in
  @ClientUpdateAjaxView_post reference
    (json_request (<["name" := PyStr "EVIL"]> payload)) 1 fixture
  = @ClientUpdateAjaxView_post reference (json_request payload) 1 fixture
  ∧ ∃ client',
      Client_objects
        (@ClientUpdateAjaxView_post reference
           (json_request (<["name" := PyStr "EVIL"]> payload)) 1 fixture).2 !! 1
      = Some client'
      ∧ Client_name client' = "ACME".
Proof.
  intros payload.
  destruct (@client_update_ignores_other_fields reference
              (json_request payload) (json_request (<["name" := PyStr "EVIL"]> payload))
              1 fixture "name")
    as (Hjson & _ & Hname & _).
  - vm_compute. intros Hin. repeat (apply elem_of_cons in Hin as [[=] | Hin]).
    by apply elem_of_nil in Hin.
  - reflexivity.
  - split.
    + apply (Hjson payload (PyStr "EVIL")); reflexivity.
    + apply (Hname (mkClient "ACME" (Some "Client Contact") (Some "client@example.com")
                      None None)).
      vm_compute. reflexivity.
Defined.

(** C10: when a JSON client update succeeds, each of the four editable
    columns whose key is missing from the body is stored empty ([None] for
    [contact_name], [contact_email] and [contact_phone], the empty string
    for [address]), whatever it held before; a body with none of the four
    keys always succeeds and empties all four. *)
Theorem client_update_clears_missing_fields `{Deployment} (request : HttpRequest) (pk : Z)
    (db : Database) (client : Client) (payload : gmap string pyval) :
  Client_objects db !! pk = Some client →
  content_type request = "application/json" →
  loaded_body request = JSONObject payload →
  ((ClientUpdateAjaxView_post request pk db).1
   = JsonResponse (JObj [("success", JBool true)]) 200 →
   ∃ client',
     Client_objects (ClientUpdateAjaxView_post request pk db).2 !! pk = Some client'
     ∧ (payload !! "contact_name" = None → contact_name client' = None)
     ∧ (payload !! "contact_email" = None → contact_email client' = None)
     ∧ (payload !! "contact_phone" = None → contact_phone client' = None)
     ∧ (payload !! "address" = None → address client' = Some ""))
  ∧ ((∀ k, k ∈ ClientForm_fields → payload !! k = None) →
     ClientUpdateAjaxView_post request pk db
     = (JsonResponse (JObj [("success", JBool true)]) 200,
        mkDatabase (<[pk := mkClient (Client_name client) None None None (Some "")]>
                      (Client_objects db))
          (Project_objects db) (Audit_objects db) (Checklist_objects db) (User_objects db))).
Proof.
  intros Hclient Hct Hbody. split.
  - intros Hok.
    destruct (ClientUpdateAjaxView_post_success request pk db client payload)
      as (cd & Hvalid & ->); try done.
    eexists. split; [apply lookup_insert_eq|]. simpl.
    unfold ClientForm_full_clean in Hvalid.
    repeat match type of Hvalid with
    | _ <*> _ = Valid _ =>
        apply form_ap_Valid in Hvalid as (? & ? & Hvalid & ?%field_Valid & ?)
    end.
    injection Hvalid as <-. subst. simpl.
    unfold dict_get in *.
    rewrite !allowed_lookup in * by (unfold ClientForm_fields; set_solver).
    unfold dict_get in *. simpl in *.
    split_and!; intros Hnone; rewrite Hnone in *;
      match goal with
      | Hc : CharField_clean _ _ _ _ (default PyNone None) = Clean ?x |- ?x = _ =>
          compute in Hc; by injection Hc
      end.
  - intros Hnone. unfold ClientUpdateAjaxView_post. rewrite Hclient, Hct, Hbody. simpl.
    unfold ClientForm_full_clean, dict_get.
    rewrite !allowed_lookup by (unfold ClientForm_fields; set_solver).
    unfold dict_get.
    rewrite !Hnone by (unfold ClientForm_fields; set_solver). reflexivity.
Qed.

(** The client of the fixture has a contact name and an e-mail address; an
    update that only sends a telephone number empties both. *)
Lemma client_update_clears_missing_fields_witness :
  let request := json_request {[ "contact_phone" := PyStr "012345" ]} in
  ∃ client',
    Client_objects (@ClientUpdateAjaxView_post reference request 1 fixture).2 !! 1
    = Some client'
    ∧ contact_name client' = None
    ∧ contact_email client' = None
    ∧ address client' = Some "".
Proof.
  intros request.
  destruct (proj1 (@client_update_clears_missing_fields reference request 1 fixture
              (mkClient "ACME" (Some "Client Contact") (Some "client@example.com") None None)
              {[ "contact_phone" := PyStr "012345" ]}
              ltac:(vm_compute; reflexivity) eq_refl eq_refl))
    as (client' & Hstored & Hname & Hemail & _ & Haddress).
  - vm_compute. reflexivity.
  - exists client'. split_and!.
    + exact Hstored.
    + apply Hname. vm_compute. reflexivity.
    + apply Hemail. vm_compute. reflexivity.
    + apply Haddress. vm_compute. reflexivity.
Defined.

(** * Further properties *)

(** ** Printing and reading integers *)

Lemma digit_not_space (c : ascii) : is_digit c → is_space c = false.
Proof.
  intros [d Hd]. destruct c as [[] [] [] [] [] [] [] []]; try discriminate; reflexivity.
Qed.

Lemma digit_not_sign (c : ascii) :
  is_digit c → c ≠ "-"%char ∧ c ≠ "+"%char ∧ c ≠ "_"%char ∧ c ≠ "/"%char.
Proof.
  intros [d Hd]. destruct c as [[] [] [] [] [] [] [] []]; try discriminate; done.
Qed.

Lemma digit_of_pretty_N_char (d : N) :
  (d < 10)%N → digit_of (pretty.pretty_N_char d) = Some (Z.of_N d).
Proof.
  intros Hd.
  assert (d = 0 ∨ d = 1 ∨ d = 2 ∨ d = 3 ∨ d = 4 ∨ d = 5 ∨ d = 6 ∨ d = 7 ∨ d = 8 ∨ d = 9)%N
    as Hcases by lia.
  repeat (destruct Hcases as [-> | Hcases]; [reflexivity|]). by subst.
Qed.

Lemma all_digits_app (acc : Z) (l1 l2 : list ascii) :
  all_digits acc (l1 ++ l2) = all_digits acc l1 ≫= λ a, all_digits a l2.
Proof.
  revert acc. induction l1 as [|c l1 IH]; intros acc; simpl; [done|].
  destruct (digit_of c); simpl; [apply IH|done].
Qed.

Lemma list_ascii_of_string_String (c : ascii) (s : string) :
  list_ascii_of_string (String c s) = c :: list_ascii_of_string s.
Proof. reflexivity. Qed.

(** The characters [pretty_N_go] puts before its accumulator are the
    decimal digits of the number. *)
Lemma pretty_N_go_digits (x : N) (s : string) :
  ∃ ds,
    list_ascii_of_string (pretty.pretty_N_go x s) = ds ++ list_ascii_of_string s
    ∧ Forall is_digit ds
    ∧ ((0 < x)%N → ds ≠ [])
    ∧ ∀ acc, all_digits acc ds = Some (acc * 10 ^ Z.of_nat (length ds) + Z.of_N x).
Proof.
  revert s. induction (N.lt_wf_0 x) as [x _ IH]. intros s.
  assert (x = 0 ∨ 0 < x)%N as [-> | Hpos] by lia.
  - exists []. rewrite pretty.pretty_N_go_0. split_and!.
    + done.
    + constructor.
    + intros ?. lia.
    + intros acc. simpl. f_equal. lia.
  - rewrite pretty.pretty_N_go_step by done.
    destruct (IH (x `div` 10)%N ltac:(by apply N.div_lt)
                (String (pretty.pretty_N_char (x `mod` 10)) s))
      as (ds & Hds & Hall & _ & Hval).
    exists (ds ++ [pretty.pretty_N_char (x `mod` 10)%N]).
    assert (Hd : digit_of (pretty.pretty_N_char (x `mod` 10))
                 = Some (Z.of_N (x `mod` 10)))
      by (apply digit_of_pretty_N_char, N.mod_lt; lia).
    split_and!.
    + rewrite Hds, list_ascii_of_string_String, <- app_assoc. done.
    + apply Forall_app. split; [done|]. apply Forall_singleton. by eexists.
    + intros _. by destruct ds.
    + intros acc. rewrite all_digits_app, Hval. simpl. rewrite Hd. simpl. f_equal.
      rewrite length_app. simpl.
      replace (Z.of_nat (length ds + 1)) with (Z.of_nat (length ds) + 1) by lia.
      rewrite Z.pow_add_r by lia.
      pose proof (N.div_mod x 10 ltac:(lia)). lia.
Qed.

(** The decimal digits [pretty] prints for a positive number. *)
Lemma pretty_positive_digits (p : positive) :
  ∃ c ds,
    list_ascii_of_string (pretty (N.pos p)) = c :: ds
    ∧ Forall is_digit (c :: ds)
    ∧ all_digits 0 (c :: ds) = Some (Z.pos p).
Proof.
  unfold pretty, pretty.pretty_N. destruct (decide (N.pos p = 0%N)); [done|].
  destruct (pretty_N_go_digits (N.pos p) "") as (ds & Hds & Hall & Hne & Hval).
  simpl in Hds. rewrite app_nil_r in Hds.
  destruct ds as [|c ds]; [by destruct Hne|].
  exists c, ds. split_and!.
  - done.
  - done.
  - rewrite Hval. f_equal; lia.
Qed.

Lemma int_digits_all_digits (acc : Z) (ds : list ascii) :
  Forall is_digit ds → int_digits acc true ds = all_digits acc ds.
Proof.
  intros Hall. revert acc. induction Hall as [|c ds [d Hd] _ IH]; intros acc; simpl; [done|].
  rewrite Hd. simpl. apply IH.
Qed.

Lemma strip_chars_id (l : list ascii) :
  Forall (λ c, is_space c = false) l → strip_chars l = l.
Proof.
  intros Hall. unfold strip_chars.
  assert (Hl : ∀ k, Forall (λ c, is_space c = false) k → lstrip_chars k = k).
  { intros [|c k] Hk; [done|]. simpl. by rewrite (Forall_inv Hk). }
  rewrite (Hl l Hall), Hl, rev_involutive; [done|].
  by apply Forall_rev.
Qed.

(** [int(str(n)) == n] *)
Lemma python_int_pretty (n : Z) : python_int (pretty n) = Some n.
Proof.
  destruct n as [|p|p].
  - reflexivity.
  - change (pretty (Z.pos p)) with (pretty (N.pos p)).
    destruct (pretty_positive_digits p) as (c & ds & Hds & Hall & Hval).
    unfold python_int. rewrite Hds.
    rewrite strip_chars_id
      by (eapply Forall_impl; [exact Hall|]; apply digit_not_space).
    pose proof (digit_not_sign c (Forall_inv Hall)) as (Hm & Hp & _).
    assert (int_digits 0 false (c :: ds) = Some (Z.pos p)) as Hint.
    { simpl. destruct (Forall_inv Hall) as [d Hd]. rewrite Hd.
      rewrite int_digits_all_digits by (by apply Forall_inv_tail in Hall).
      simpl in Hval. by rewrite Hd in Hval. }
    destruct c as [[] [] [] [] [] [] [] []]; try done.
  - change (pretty (Z.neg p)) with ("-" +:+ pretty (N.pos p)).
    destruct (pretty_positive_digits p) as (c & ds & Hds & Hall & Hval).
    unfold python_int.
    change (list_ascii_of_string ("-" +:+ pretty (N.pos p)))
      with ("-"%char :: list_ascii_of_string (pretty (N.pos p))).
    rewrite Hds.
    rewrite strip_chars_id.
    + assert (int_digits 0 false (c :: ds) = Some (Z.pos p)) as ->.
      { simpl. destruct (Forall_inv Hall) as [d Hd]. rewrite Hd.
        rewrite int_digits_all_digits by (by apply Forall_inv_tail in Hall).
        simpl in Hval. by rewrite Hd in Hval. }
      reflexivity.
    + constructor; [reflexivity|].
      eapply Forall_impl; [exact Hall|]. apply digit_not_space.
Qed.

(** ** Sessions *)

Section SessionProperties.
Context `{Deployment}.

Lemma authenticate_Some (users : list User) (name : string) (pw : pyval) (u : User) :
  authenticate users name pw = Some u →
  find (λ u, String.eqb (username u) name) users = Some u
  ∧ password u = py_str pw
  ∧ ∃ b, b ∈ AUTHENTICATION_BACKENDS ∧ user_can_authenticate b u = true.
Proof.
  unfold authenticate. induction AUTHENTICATION_BACKENDS as [|b bs IH]; [done|].
  unfold backend_authenticate at 1.
  destruct (find _ users) as [u'|] eqn:Hfind.
  - destruct (String.eqb_spec (password u') (py_str pw)) as [Hpw|]; simpl.
    + destruct (user_can_authenticate b u') eqn:Hcan.
      * intros [= <-]. split_and!; [done..|]. exists b. split; [left|done].
      * intros Hrest. destruct (IH Hrest) as (Hf & Hp & b' & Hb' & Hcan').
        split_and!; [done..|]. exists b'. split; [by right|done].
    + intros Hrest. destruct (IH Hrest) as (Hf & Hp & b' & Hb' & Hcan').
      split_and!; [done..|]. exists b'. split; [by right|done].
  - intros Hrest. destruct (IH Hrest) as (Hf & _). discriminate.
Qed.

Lemma authenticate_first_backend (users : list User) (name : string) (pw : pyval) (u : User) :
  AUTHENTICATION_BACKENDS ≠ [] →
  find (λ u, String.eqb (username u) name) users = Some u →
  password u = py_str pw →
  is_active u = true →
  authenticate users name pw = Some u.
Proof.
  unfold authenticate. intros Hne Hfind Hpw Hact.
  destruct AUTHENTICATION_BACKENDS as [|b bs]; [done|].
  unfold backend_authenticate. rewrite Hfind, Hpw, String.eqb_refl. simpl.
  assert (user_can_authenticate b u = true) as -> by (by destruct b). done.
Qed.

Lemma LoginAjaxView_check_session (request : HttpRequest) (db : Database) (is_json : bool)
    (name : string) (pw : pyval) (resp : HttpResponse) (u : User) :
  LoginAjaxView_check request db is_json name pw = (resp, Some u) →
  authenticate (User_objects db) name pw = Some u
  ∧ is_active u = true
  ∧ name ≠ ""
  ∧ truthy pw = true
  ∧ (resp = JsonResponse
              (JObj [("success", JBool true);
                     ("redirect", JStr ("/" +:+ url_prefix +:+ "dashboard/"))]) 200
     ∨ resp = HttpResponseRedirect ("/" +:+ url_prefix +:+ "dashboard/") []).
Proof.
  unfold LoginAjaxView_check.
  destruct (String.eqb_spec name ""), (truthy pw) eqn:Hpw; simpl;
    try (destruct (negb is_json); discriminate).
  destruct (authenticate _ _ _) as [user|]; [|destruct (negb is_json); discriminate].
  destruct (is_active user) eqn:Hact; simpl; [|destruct (negb is_json); discriminate].
  destruct (is_json || _); intros [= <- <-]; split_and!; auto.
Qed.

End SessionProperties.

(** X1: [LoginAjaxView.post] binds a user to the session only when the
    submitted user name, stripped, is that of a stored user, the submitted
    password is that user's, and the user is active; the answer is then the
    success object, or the redirect, to the dashboard.  This holds for every
    choice of authentication backends. *)
Theorem login_only_with_valid_credentials `{Deployment} (request : HttpRequest)
    (db : Database) (resp : HttpResponse) (u : User) :
  LoginAjaxView_post request db = (resp, Some u) →
  u ∈ User_objects db
  ∧ is_active u = true
  ∧ username u = strip (py_str (submitted request "username"))
  ∧ password u = py_str (submitted request "password")
  ∧ (resp = JsonResponse
              (JObj [("success", JBool true);
                     ("redirect", JStr ("/" +:+ url_prefix +:+ "dashboard/"))]) 200
     ∨ resp = HttpResponseRedirect ("/" +:+ url_prefix +:+ "dashboard/") []).
Proof.
  intros Hpost.
  assert (Hcore : ∀ v w name,
    or_empty_strip v = inr name →
    LoginAjaxView_check request db (String.eqb (content_type request) "application/json")
      name (or_empty w) = (resp, Some u) →
    u ∈ User_objects db ∧ is_active u = true
    ∧ username u = strip (py_str v) ∧ password u = py_str w
    ∧ (resp = JsonResponse
                (JObj [("success", JBool true);
                       ("redirect", JStr ("/" +:+ url_prefix +:+ "dashboard/"))]) 200
       ∨ resp = HttpResponseRedirect ("/" +:+ url_prefix +:+ "dashboard/") [])).
  { intros v w name Hname Hcheck.
    apply LoginAjaxView_check_session in Hcheck as (Hauth & Hact & Hne & Hpw & Hresp).
    apply authenticate_Some in Hauth as (Hfind & Hpass & _).
    apply find_some in Hfind as [Hin Heq].
    apply String.eqb_eq in Heq.
    split_and!.
    - by apply list_elem_of_In.
    - exact Hact.
    - rewrite Heq. unfold or_empty_strip in Hname.
      destruct (truthy v) eqn:Hv.
      + destruct v; try discriminate. by injection Hname as <-.
      + by injection Hname as <-.
    - rewrite Hpass. unfold or_empty in *. by destruct (truthy w).
    - exact Hresp. }
  unfold LoginAjaxView_post, submitted in *.
  destruct (String.eqb (content_type request) "application/json") eqn:Hct.
  - destruct (loaded_body request) as [|payload|]; try discriminate.
    destruct (or_empty_strip (dict_get payload "username")) as [exc|name] eqn:Hname;
      [discriminate|].
    eapply Hcore; eauto.
  - destruct (or_empty_strip (QueryDict_get (POST request) "username")) as [exc|name] eqn:Hname;
      [discriminate|].
    eapply Hcore; eauto.
Qed.

(** The login of [audit/tests.py]. *)
Lemma login_only_with_valid_credentials_witness :
  mkUser "testuser" "password" true ∈ User_objects fixture
  ∧ username (mkUser "testuser" "password" true)
    = strip (py_str (submitted (json_request (credentials " testuser " "password")) "username")).
Proof.
  destruct (@login_only_with_valid_credentials reference
              (json_request (credentials " testuser " "password")) fixture
              (JsonResponse (JObj [("success", JBool true); ("redirect", JStr "/dashboard/")]) 200)
              (mkUser "testuser" "password" true))
    as (Hin & _ & Hname & _).
  - vm_compute. reflexivity.
  - split; [exact Hin|exact Hname].
Defined.

(** X2: with at least one authentication backend configured, a JSON login
    with the name (surrounding white space aside) and the password of an
    active user is answered with the success object pointing to the
    dashboard and binds that user to the session; a logout of that session
    asking for JSON is answered with the success object pointing to ["/"]
    and leaves the session anonymous, and a logout of an anonymous session
    is refused with status 400. *)
Theorem login_then_logout `{Deployment} (request request' : HttpRequest) (db : Database)
    (payload : gmap string pyval) (s pw : string) (u : User) :
  AUTHENTICATION_BACKENDS ≠ [] →
  content_type request = "application/json" →
  loaded_body request = JSONObject payload →
  payload !! "username" = Some (PyStr s) →
  payload !! "password" = Some (PyStr pw) →
  find (λ u, String.eqb (username u) (strip s)) (User_objects db) = Some u →
  strip s ≠ "" → pw ≠ "" →
  password u = pw →
  is_active u = true →
  wants_json request' = true →
  LoginAjaxView_post request db
  = (JsonResponse
       (JObj [("success", JBool true);
              ("redirect", JStr ("/" +:+ url_prefix +:+ "dashboard/"))]) 200,
     Some u)
  ∧ LogoutAjaxView_post request' (LoginAjaxView_post request db).2
    = (JsonResponse (JObj [("success", JBool true); ("redirect", JStr "/")]) 200, None)
  ∧ LogoutAjaxView_post request'
      (LogoutAjaxView_post request' (LoginAjaxView_post request db).2).2
    = (JsonResponse (failure (JObj [("__all__", JStr "Not authenticated.")])) 400, None).
Proof.
  intros Hbackends Hct Hbody Hname Hpw Hfind Hs Hp Hpass Hact Hjson.
  assert (Hlogin : LoginAjaxView_post request db
    = (JsonResponse
         (JObj [("success", JBool true);
                ("redirect", JStr ("/" +:+ url_prefix +:+ "dashboard/"))]) 200,
       Some u)).
  { unfold LoginAjaxView_post. rewrite Hct, Hbody. simpl.
    unfold dict_get. rewrite Hname, Hpw. simpl.
    unfold or_empty_strip, or_empty. simpl.
    assert (s ≠ "") by (intros ->; by apply Hs).
    destruct (String.eqb_spec s ""); [done|].
    destruct (String.eqb_spec pw ""); [done|]. simpl.
    unfold LoginAjaxView_check.
    destruct (String.eqb_spec (strip s) ""); [done|]. simpl.
    destruct (String.eqb_spec pw ""); [done|]. simpl.
    rewrite (authenticate_first_backend (User_objects db) (strip s) (PyStr pw) u) by done.
    by rewrite Hact. }
  rewrite Hlogin. simpl. unfold LogoutAjaxView_post. rewrite Hjson. done.
Qed.

Lemma login_then_logout_witness :
  (@LoginAjaxView_post reference (json_request (credentials "testuser" "password")) fixture).2
  = Some (mkUser "testuser" "password" true)
  ∧ (@LogoutAjaxView_post reference (json_request ∅)
       (@LoginAjaxView_post reference
          (json_request (credentials "testuser" "password")) fixture).2).2 = None.
Proof.
  destruct (@login_then_logout reference
              (json_request (credentials "testuser" "password")) (json_request ∅) fixture
              (credentials "testuser" "password") "testuser" "password"
              (mkUser "testuser" "password" true))
    as (Hlogin & Hlogout & _).
  - discriminate.
  - reflexivity.
  - reflexivity.
  - vm_compute. reflexivity.
  - vm_compute. reflexivity.
  - vm_compute. reflexivity.
  - vm_compute. discriminate.
  - discriminate.
  - reflexivity.
  - reflexivity.
  - reflexivity.
  - split; [by rewrite Hlogin|by rewrite Hlogout].
Defined.

(** ** Reading back what was written *)

Section RoundTrips.
Context `{Deployment}.

Lemma CharField_clean_shown (f : CharField) (empty_value : option string)
    (extra : string → list string) (v : pyval) (x : option string) :
  or_blank empty_value = "" →
  CharField_clean f false empty_value extra v = Clean x →
  or_blank x = shown v.
Proof.
  intros Hev. unfold CharField_clean, shown.
  destruct (in_empty_values v); simpl.
  - by intros [= <-].
  - destruct (String.eqb_spec (strip (py_str v)) "") as [->|_].
    + by intros [= <-].
    + destruct (_ ++ _); [|discriminate]. by intros [= <-].
Qed.

(** The errors of a [ClientForm] are those of its fields, in order. *)
Lemma ClientForm_errors (data : gmap string pyval) (errors : ErrorDict) :
  ClientForm_full_clean data = NotValid errors →
  errors
  = form_errors (field "contact_name"
      (CharField_clean Client_contact_name false None (λ _, []) (dict_get data "contact_name")))
    ++ form_errors (field "contact_email"
         (CharField_clean Client_contact_email false None EmailValidator
            (dict_get data "contact_email")))
    ++ form_errors (field "contact_phone"
         (CharField_clean Client_contact_phone false None (λ _, [])
            (dict_get data "contact_phone")))
    ++ form_errors (field "address"
         (CharField_clean Client_address false (Some "") (λ _, []) (dict_get data "address"))).
Proof.
  intros Hform.
  assert (Hc : ¬ crashed (ClientForm_full_clean data)) by (rewrite Hform; intros [? [=]]).
  change errors with (form_errors (NotValid (A := ClientForm_data) errors)).
  rewrite <- Hform. clear Hform. unfold ClientForm_full_clean in *.
  repeat match type of Hc with
  | ¬ crashed (_ <*> _) => apply form_ap_errors in Hc as (Hc & _ & ->)
  end.
  simpl. by rewrite <- !app_assoc.
Qed.

Lemma CharField_clean_not_Raised (f : CharField) (required : bool)
    (empty_value : option string) (extra : string → list string) (v : pyval) (exc : string) :
  CharField_clean f required empty_value extra v ≠ Raised exc.
Proof.
  unfold CharField_clean.
  destruct (String.eqb _ ""); [by destruct required|].
  by destruct (_ ++ _).
Qed.

(** No exception escapes a [ClientForm]. *)
Lemma ClientForm_never_crashes (data : gmap string pyval) (exc : string) :
  ClientForm_full_clean data ≠ Crash exc.
Proof.
  unfold ClientForm_full_clean.
  repeat match goal with
  | |- context [field ?n (CharField_clean ?a ?b ?c ?d ?e)] =>
      let Hc := fresh "Hc" in
      destruct (CharField_clean a b c d e) eqn:Hc;
        [| |by apply CharField_clean_not_Raised in Hc]
  end; simpl; discriminate.
Qed.

End RoundTrips.

(** X3: after a JSON client update that succeeds, the client detail
    endpoint returns, for each of the four editable fields, the submitted
    value stripped of surrounding white space (the empty string for a
    missing or null key), under the unchanged id and name. *)
Theorem client_update_then_detail `{Deployment} (request : HttpRequest) (pk : Z)
    (db : Database) (client : Client) (payload : gmap string pyval) :
  Client_objects db !! pk = Some client →
  content_type request = "application/json" →
  loaded_body request = JSONObject payload →
  (ClientUpdateAjaxView_post request pk db).1
  = JsonResponse (JObj [("success", JBool true)]) 200 →
  ClientDetailAjaxView_get pk (ClientUpdateAjaxView_post request pk db).2
  = JsonResponse
      (JObj [("id", JNum pk);
             ("name", JStr (Client_name client));
             ("contact_name", JStr (shown (dict_get payload "contact_name")));
             ("contact_email", JStr (shown (dict_get payload "contact_email")));
             ("contact_phone", JStr (shown (dict_get payload "contact_phone")));
             ("address", JStr (shown (dict_get payload "address")))])
      200.
Proof.
  intros Hclient Hct Hbody Hok.
  destruct (ClientUpdateAjaxView_post_success request pk db client payload)
    as (cd & Hvalid & ->); try done.
  unfold ClientDetailAjaxView_get. simpl. rewrite lookup_insert_eq. simpl.
  unfold ClientForm_full_clean in Hvalid.
  repeat match type of Hvalid with
  | _ <*> _ = Valid _ =>
      apply form_ap_Valid in Hvalid as (? & ? & Hvalid & ?%field_Valid & ?)
  end.
  injection Hvalid as <-. subst. simpl.
  unfold dict_get in *.
  rewrite !allowed_lookup in * by (unfold ClientForm_fields; set_solver).
  unfold dict_get in *.
  repeat match goal with
  | Hc : CharField_clean _ _ _ _ _ = Clean _ |- _ =>
      apply CharField_clean_shown in Hc; [rewrite Hc|reflexivity]
  end.
  reflexivity.
Qed.

Lemma client_update_then_detail_witness :
  let payload : gmap string pyval :=
    {[ "contact_name" := PyStr " New Contact "; "contact_email" := PyStr "new@example.com" ]} in
  ClientDetailAjaxView_get 1
    (@ClientUpdateAjaxView_post reference (json_request payload) 1 fixture).2
  = JsonResponse
      (JObj [("id", JNum 1); ("name", JStr "ACME");
             ("contact_name", JStr "New Contact");
             ("contact_email", JStr "new@example.com");
             ("contact_phone", JStr ""); ("address", JStr "")])
      200.
Proof.
  intros payload.
  rewrite (@client_update_then_detail reference (json_request payload) 1 fixture
             (mkClient "ACME" (Some "Client Contact") (Some "client@example.com") None None)
             payload).
  - vm_compute. reflexivity.
  - vm_compute. reflexivity.
  - reflexivity.
  - reflexivity.
  - vm_compute. reflexivity.
Defined.





(** X6: [AuditShareAjaxView.post] sends at most one message, and sends one
    only together with the success answer: then the request is JSON, the
    audit exists, the one recipient is the stripped [to_email], not empty
    and accepted by the e-mail validator.  With every other answer nothing
    is sent. *)
Theorem share_sends_only_with_success `{Deployment} (request : HttpRequest) (pk : Z)
    (db : Database) :
  let result := AuditShareAjaxView_post request pk db in
  (result.2 = [] ∧ result.1 ≠ JsonResponse (JObj [("success", JBool true)]) 200)
  ∨ (∃ mail to_email payload,
       result = (JsonResponse (JObj [("success", JBool true)]) 200, [mail])
       ∧ content_type request = "application/json"
       ∧ loaded_body request = JSONObject payload
       ∧ is_Some (Audit_objects db !! pk)
       ∧ or_empty_strip (dict_get payload "to_email") = inr to_email
       ∧ recipient_list mail = [to_email]
       ∧ to_email ≠ ""
       ∧ validate_email to_email = true
       ∧ send_messages mail = None).
Proof.
  unfold AuditShareAjaxView_post. simpl.
  destruct (Audit_objects db !! pk) as [audit|] eqn:Haudit; [|by left].
  destruct (String.eqb_spec (content_type request) "application/json") as [Hct|];
    simpl; [|by left].
  destruct (loaded_body request) as [|payload|] eqn:Hbody; [by left| |by left].
  destruct (or_empty_strip (dict_get payload "to_email")) as [exc|to_email] eqn:Hto;
    [by left|].
  destruct (String.eqb_spec to_email ""); [by left|].
  destruct (validate_email to_email) eqn:Hvalid; simpl; [|by left].
  match goal with
  | |- context [send_messages ?m] => destruct (send_messages m) eqn:Hsend
  end; [by left|].
  right. eexists _, to_email, payload. split_and!; try done.
Qed.

(** ** All the pages of the dashboard *)

Lemma seqZ_snoc (m : Z) (n : nat) :
  seqZ m (Z.of_nat (S n)) = seqZ m (Z.of_nat n) ++ [m + Z.of_nat n].
Proof.
  replace (Z.of_nat (S n)) with (Z.of_nat n + 1) by lia.
  rewrite seqZ_app by lia. done.
Qed.

(** The first [m] chunks of [s] rows are the first [m * s] rows. *)
Lemma chunks_take {A} (l : list A) (s : Z) (m : nat) :
  0 < s →
  concat ((λ k, slice l ((k - 1) * s)
                  (if Z.of_nat (length l) <=? (k - 1) * s + s
                   then Z.of_nat (length l) else (k - 1) * s + s))
          <$> seqZ 1 (Z.of_nat m))
  = take (Z.to_nat (Z.of_nat m * s)) l.
Proof.
  intros Hs. induction m as [|m IH].
  - done.
  - rewrite seqZ_snoc, fmap_app, concat_app, IH. simpl. rewrite app_nil_r.
    replace (1 + Z.of_nat m - 1) with (Z.of_nat m) by lia.
    unfold slice.
    destruct (Z.leb_spec (Z.of_nat (length l)) (Z.of_nat m * s + s)) as [Hlast|Hmore].
    + rewrite Nat2Z.id, firstn_all.
      rewrite (take_ge l (Z.to_nat (Z.of_nat (S m) * s))) by lia.
      apply take_drop.
    + replace (Z.to_nat (Z.of_nat (S m) * s))
        with (Z.to_nat (Z.of_nat m * s + s)) by lia.
      rewrite <- (take_drop (Z.to_nat (Z.of_nat m * s))
                    (take (Z.to_nat (Z.of_nat m * s + s)) l)) at 2.
      f_equal. rewrite take_take. f_equal. lia.
Qed.



(** ** The metadata of the creation form *)

Lemma pretty_Z_not_empty (n : Z) : pretty n ≠ "".
Proof. intros Hn. pose proof (python_int_pretty n) as Hp. by rewrite Hn in Hp. Qed.

(** X8: the metadata [AuditCreateView.get] returns names, in its three
    lists, exactly the fields [AuditModelForm] validates, in the same order;
    it offers one project choice per stored project, valued with the
    project's key in decimal and labelled with its title and permit number;
    every project value and every audit type it offers is accepted by the
    submission form for that field. *)
Theorem create_metadata_matches_form `{Deployment} (db : Database) :
  ∃ project_choices,
    AuditCreateView_get db
    = JsonResponse
        (JObj
           [("fields",
             JList
               [JObj [("name", JStr "project"); ("choices", JList project_choices);
                      ("type", JStr "text")];
                JObj [("name", JStr "audit_date"); ("type", JStr "date")];
                JObj [("name", JStr "audit_type");
                      ("choices",
                       JList [choice "OHS" "Occupational Health & Safety Audit";
                              choice "ENV" "Environmental Audit";
                              choice "QUAL" "Quality Audit"]);
                      ("type", JStr "text")];
                JObj [("name", JStr "audit_number"); ("type", JStr "text")];
                JObj [("name", JStr "performed_by"); ("type", JStr "text")];
                JObj [("name", JStr "report_number"); ("type", JStr "text")]]);
            ("score_fields",
             JList [number_meta "overall_score_percentage"; number_meta "standard_required"]);
            ("notice_fields",
             JList [number_meta "improvement_notices"; number_meta "contravention_notices";
                    number_meta "prohibition_notices"])])
        200
    ∧ ((AuditForm_fields db).*1 ++ AuditScoreForm_fields ++ AuditNoticesForm_fields
       = AuditModelForm_fields)
    ∧ length project_choices = size (Project_objects db)
    ∧ (∀ pk p, Project_objects db !! pk = Some p →
         choice (pretty pk) (Project_str p) ∈ project_choices)
    ∧ (∀ j, j ∈ project_choices →
         ∃ pk p,
           Project_objects db !! pk = Some p
           ∧ j = choice (pretty pk) (Project_str p)
           ∧ ModelChoiceField_clean (Project_objects db) (PyStr (pretty pk)) = Clean pk)
    ∧ (∀ code label, (code, label) ∈ AUDIT_TYPES →
         ChoiceField_clean AUDIT_TYPES (PyStr code) = Clean code).
Proof.
  eexists. split; [reflexivity|]. split; [reflexivity|]. split_and!.
  - by rewrite !length_fmap, length_map_to_list.
  - intros pk p Hp. apply list_elem_of_fmap. exists (pk, Project_str p). split; [done|].
    apply list_elem_of_fmap. exists (pk, p). split; [done|]. by apply elem_of_map_to_list.
  - intros j Hj. apply list_elem_of_fmap in Hj as ([pk label] & -> & Hj).
    apply list_elem_of_fmap in Hj as ([pk' p] & [= -> ->] & Hj).
    apply elem_of_map_to_list in Hj. exists pk', p. split_and!; [done..|].
    unfold ModelChoiceField_clean. simpl.
    destruct (String.eqb_spec (pretty pk') ""); [by apply pretty_Z_not_empty in e|].
    rewrite python_int_pretty, Hj. rewrite bool_decide_eq_true_2; [done|by eexists].
  - intros code label Hin.
    repeat (apply elem_of_cons in Hin as [[= -> ->] | Hin]; [reflexivity|]).
    by apply elem_of_nil in Hin.
Qed.

(** ** The URL configuration *)

Lemma list_ascii_of_string_app (a b : string) :
  list_ascii_of_string (a +:+ b) = list_ascii_of_string a ++ list_ascii_of_string b.
Proof.
  induction a as [|c a IH]; [done|].
  change (c :: list_ascii_of_string (a +:+ b) = c :: list_ascii_of_string a ++ list_ascii_of_string b).
  by rewrite IH.
Qed.

(** The digits [pretty] prints for a number that is not negative. *)
Lemma pretty_nonneg_digits (n : Z) :
  0 ≤ n →
  ∃ c ds,
    list_ascii_of_string (pretty n) = c :: ds
    ∧ Forall is_digit (c :: ds)
    ∧ all_digits 0 (c :: ds) = Some n.
Proof.
  intros Hn. destruct n as [|p|p]; [|apply pretty_positive_digits|lia].
  exists "0"%char, []. split_and!; [done| |done].
  apply Forall_singleton. by eexists.
Qed.

Lemma span_digits_app (ds : list ascii) (c : ascii) (rest : list ascii) :
  Forall is_digit ds → digit_of c = None →
  span_digits (ds ++ c :: rest) = (ds, c :: rest).
Proof.
  intros Hds Hc. induction Hds as [|d ds [x Hx] _ IH]; simpl.
  - by rewrite Hc.
  - by rewrite Hx, IH.
Qed.

(** A path made of a text, the digits of [n] and a text that starts with
    a slash. *)
Lemma int_path_chars (a b : string) (n : Z) :
  0 ≤ n →
  ∃ d ds,
    list_ascii_of_string (a +:+ pretty n +:+ "/" +:+ b)
    = list_ascii_of_string a ++ (d :: ds) ++ "/"%char :: list_ascii_of_string b
    ∧ Forall is_digit (d :: ds)
    ∧ all_digits 0 (d :: ds) = Some n.
Proof.
  intros Hn. destruct (pretty_nonneg_digits n Hn) as (d & ds & Hds & Hall & Hval).
  exists d, ds. split_and!; [|done..].
  by rewrite !list_ascii_of_string_app, Hds.
Qed.

(** [resolve] after [reverse]. *)
Lemma reverse_then_resolve (name : string) (args : list Z) (path : string) :
  reverse name args = Some path → resolve path = Some (name, args).
Proof.
  unfold reverse, urlpatterns. cbn [find snd].
  repeat match goal with
  | |- context [String.eqb ?s name] =>
      destruct (String.eqb_spec s name) as [<- | _]; cbn [find snd]
  end; try discriminate.
  all: try (destruct args as [|n [|? ?]]; simpl; try discriminate;
            try (intros [= <-]; vm_compute; reflexivity)).
  all: match goal with
       | |- context [0 <=? ?n] => destruct (Z.leb_spec 0 n) as [Hn|]
       end; simpl; try discriminate; intros [= <-].
  all: match goal with
       | Hn : 0 ≤ ?n |- resolve (?a +:+ pretty ?n +:+ ?t) = _ =>
           let b := eval vm_compute in (match t with String _ b => b | _ => "" end) in
           destruct (int_path_chars a b n Hn) as (d & ds & Hpath & Hall & Hval);
           unfold resolve;
           change (list_ascii_of_string (a +:+ pretty n +:+ t))
             with (list_ascii_of_string (a +:+ pretty n +:+ "/" +:+ b));
           rewrite Hpath; clear Hpath
       end.
  all: pose proof (span_digits_app ds "/"%char) as Hspan.
  all: pose proof (Forall_inv Hall) as [x Hd].
  all: destruct d as [[] [] [] [] [] [] [] []]; try discriminate Hd.
  all: injection Hd as <-; simpl in Hval.
  all: simpl; rewrite ?Hspan by (by apply Forall_inv_tail in Hall || reflexivity).
  all: simpl; rewrite ?Hval; reflexivity.
Qed.

(** X9: what [reverse] builds for a route name and its arguments,
    [resolve] takes back to that name and those arguments: the eleven
    routes do not shadow one another on the paths the application itself
    generates. *)
Theorem resolve_reverse (name : string) (args : list Z) (path : string) :
  reverse name args = Some path → resolve path = Some (name, args).
Proof. apply reverse_then_resolve. Qed.

Lemma resolve_reverse_witness :
  reverse "report-share-ajax" [12] = Some "reports/12/share/"
  ∧ resolve "reports/12/share/" = Some ("report-share-ajax", [12]).
Proof.
  assert (Hrev : reverse "report-share-ajax" [12] = Some "reports/12/share/")
    by (vm_compute; reflexivity).
  split; [exact Hrev|]. exact (resolve_reverse _ _ _ Hrev).
Defined.

(** X10: the message a successful share sends has the subject
    ["Audit Report: "] followed by the report number of the audit, and its
    body ends with the address of the request's host followed by the path
    that [reverse] gives for the route [report-detail] and the audit's key;
    [resolve] takes that path back to [report-detail] with that key, and
    the detail view shows the shared audit there. *)
Theorem shared_link_leads_to_the_audit `{Deployment} (request : HttpRequest) (pk : Z)
    (db : Database) (mail : EmailMessage) :
  0 ≤ pk →
  AuditShareAjaxView_post request pk db
  = (JsonResponse (JObj [("success", JBool true)]) 200, [mail]) →
  ∃ path audit text,
    reverse "report-detail" [pk] = Some path
    ∧ resolve path = Some ("report-detail", [pk])
    ∧ AuditDetailView_get_context_data pk db = inr audit
    ∧ subject mail = "Audit Report: " +:+ report_number audit
    ∧ body mail
      = text +:+ "View the report: " +:+ scheme request +:+ "://" +:+ host request
        +:+ "/" +:+ url_prefix +:+ path.
Proof.
  intros Hpk. unfold AuditShareAjaxView_post, AuditDetailView_get_context_data.
  destruct (Audit_objects db !! pk) as [audit|]; [|discriminate].
  destruct (String.eqb _ _); simpl; [|discriminate].
  destruct (loaded_body request) as [|payload|]; try discriminate.
  destruct (or_empty_strip _) as [exc|to_email]; [discriminate|].
  destruct (String.eqb to_email ""); [discriminate|].
  destruct (validate_email to_email); simpl; [|discriminate].
  unfold reverse_report_detail. destruct (Z.leb_spec 0 pk); [|lia].
  match goal with
  | |- context [send_messages ?m] => destruct (send_messages m)
  end; [discriminate|].
  intros [= <-]. simpl.
  assert (Hrev : reverse "report-detail" [pk] = Some ("reports/" +:+ pretty pk +:+ "/")).
  { unfold reverse. simpl. destruct (Z.leb_spec 0 pk); [|lia]. reflexivity. }
  exists ("reports/" +:+ pretty pk +:+ "/"), audit,
    (py_str (dict_get_default payload "message" (PyStr "")) +:+ newline +:+ newline).
  split_and!.
  - exact Hrev.
  - by apply reverse_then_resolve.
  - reflexivity.
  - reflexivity.
  - unfold build_absolute_uri. by rewrite !string_app_assoc.
Qed.

Lemma shared_link_leads_to_the_audit_witness :
  resolve "reports/1/" = Some ("report-detail", [1])
  ∧ AuditDetailView_get_context_data 1 fixture
    = inr (mkAudit 1 739617 "OHS" "001" "Tester" "R-001"
             (mkDecimal false 8000 (-2)) (mkDecimal false 7500 (-2)) 0 0 0).
Proof.
  destruct (@shared_link_leads_to_the_audit reference
              (json_request {[ "to_email" := PyStr "receiver@example.com";
                               "message" := PyStr "Please see report" ]}) 1 fixture
              (mkEmailMessage "Audit Report: R-001"
                 ("Please see report" +:+ newline +:+ newline
                  +:+ "View the report: http://testserver/reports/1/")
                 "webmaster@localhost" ["receiver@example.com"]))
    as (path & audit & text & Hrev & Hres & Hdetail & _).
  - lia.
  - vm_compute. reflexivity.
  - vm_compute in Hrev. injection Hrev as <-. split; [exact Hres|].
    rewrite Hdetail. vm_compute in Hdetail. by injection Hdetail as <-.
Defined.

(** ** References between the tables *)

Lemma ModelChoiceField_clean_Clean {A} (queryset : gmap Z A) (v : pyval) (pk : Z) :
  ModelChoiceField_clean queryset v = Clean pk → is_Some (queryset !! pk).
Proof.
  unfold ModelChoiceField_clean.
  destruct (in_empty_values v); [discriminate|].
  destruct (py_int v); [|discriminate].
  case_bool_decide; [|discriminate]. by intros [= <-].
Qed.

(** What [AuditCreateView.post] leaves in the database. *)
Lemma AuditCreateView_post_database `{Deployment} (request : HttpRequest) (db : Database) :
  (AuditCreateView_post request db).2 = db
  ∨ ∃ a,
      is_Some (Project_objects db !! project a)
      ∧ (AuditCreateView_post request db).2
        = mkDatabase (Client_objects db) (Project_objects db)
            (<[next_pk (Audit_objects db) := a]> (Audit_objects db))
            (Checklist_objects db) (User_objects db).
Proof.
  unfold AuditCreateView_post.
  destruct (String.eqb _ _); simpl; [|by left].
  destruct (loaded_body request) as [|payload|]; [by left| |by left].
  destruct (AuditModelForm_full_clean db payload) as [exc|errors|a] eqn:Hform; [by left..|].
  right. exists a. split; [|done].
  apply AuditModelForm_Valid in Hform as [Hp _ _ _ _ _ _ _ _ _ _].
  by apply ModelChoiceField_clean_Clean in Hp.
Qed.

(** What [ClientUpdateAjaxView.post] leaves in the database. *)
Lemma ClientUpdateAjaxView_post_database `{Deployment} (request : HttpRequest) (pk : Z)
    (db : Database) :
  (ClientUpdateAjaxView_post request pk db).2 = db
  ∨ ∃ client cd,
      Client_objects db !! pk = Some client
      ∧ (ClientUpdateAjaxView_post request pk db).2 = ClientForm_save pk client cd db.
Proof.
  unfold ClientUpdateAjaxView_post.
  destruct (Client_objects db !! pk) as [client|]; [|by left].
  assert (Hf : ∀ f,
    (ClientUpdateAjaxView_finish pk client f db).2 = db
    ∨ ∃ client' cd,
        Some client = Some client'
        ∧ (ClientUpdateAjaxView_finish pk client f db).2 = ClientForm_save pk client' cd db).
  { intros [exc|errors|cd]; simpl; eauto. }
  destruct (String.eqb _ _); [|apply Hf].
  destruct (loaded_body request); simpl; auto.
Qed.

(** X11: the writes of the application keep every stored reference
    pointing to a stored row: inserting a checklist row, creating an audit
    through [AuditCreateView.post] and editing a client through
    [ClientUpdateAjaxView.post] all preserve referential integrity. *)
Theorem writes_keep_references `{Deployment} (db : Database) :
  referential_integrity db →
  (∀ c r db', Checklist_create c r db = inr db' → referential_integrity db')
  ∧ (∀ request, referential_integrity (AuditCreateView_post request db).2)
  ∧ (∀ request pk, referential_integrity (ClientUpdateAjaxView_post request pk db).2).
Proof.
  intros (Hproj & Haud & Hrows). split_and!.
  - intros c r db' Hc. apply Checklist_create_inr in Hc as (Hexists & _ & ->).
    split_and!; [done..|]. intros c' r'. rewrite Checklist_objects_set_table.
    destruct (decide (c' = c)) as [->|]; [|apply Hrows].
    intros [Hin | ->%list_elem_of_singleton]%elem_of_app; [by eapply Hrows|done].
  - intros request.
    destruct (AuditCreateView_post_database request db) as [-> | (a & Hp & ->)]; [done|].
    pose proof (next_pk_fresh (Audit_objects db)) as Hfresh.
    split_and!; simpl; [done| |].
    + intros pk' a'. destruct (decide (pk' = next_pk (Audit_objects db))) as [->|Hne].
      * rewrite lookup_insert_eq. by intros [= <-].
      * rewrite lookup_insert_ne by done. apply Haud.
    + intros c r Hin. destruct (Hrows c r Hin) as [a' Ha'].
      rewrite lookup_insert_ne; [by eexists|]. congruence.
  - intros request pk.
    destruct (ClientUpdateAjaxView_post_database request pk db)
      as [-> | (client & cd & Hclient & ->)]; [done|].
    split_and!; simpl; [|done..].
    intros pk' p Hp. destruct (Hproj pk' p Hp) as [c Hc].
    destruct (decide (Project_client p = pk)) as [->|Hne].
    + rewrite lookup_insert_eq. by eexists.
    + rewrite lookup_insert_ne by done. by eexists.
Qed.

Lemma fixture_referential_integrity : referential_integrity fixture.
Proof.
  split_and!.
  - intros pk p Hp. destruct (decide (pk = 1)) as [->|Hne].
    + vm_compute in Hp. injection Hp as <-. vm_compute. by eexists.
    + unfold fixture in Hp. simpl in Hp. by rewrite lookup_singleton_ne in Hp.
  - intros pk a Ha. destruct (decide (pk = 1)) as [->|Hne].
    + vm_compute in Ha. injection Ha as <-. vm_compute. by eexists.
    + unfold fixture in Ha. simpl in Ha. by rewrite lookup_singleton_ne in Ha.
  - intros c r Hin. by apply elem_of_nil in Hin.
Defined.

(** The fixture keeps its references when the audit of [audit/tests.py]
    is created. *)
Lemma writes_keep_references_witness :
  referential_integrity
    (@AuditCreateView_post reference (json_request create_payload) fixture).2.
Proof.
  apply (@writes_keep_references reference fixture). exact fixture_referential_integrity.
Defined.

(** ** Deleting a client *)

(** X12: deleting a client removes it and keeps referential integrity:
    no project, audit or checklist row is left pointing to a removed row.
    The other clients stay, and so does every project of another client,
    every audit of such a project and every checklist row of such an
    audit. *)
Theorem client_delete_cascades (pk : Z) (db : Database) :
  referential_integrity db →
  let db' := Client_delete pk db in
  referential_integrity db'
  ∧ Client_objects db' !! pk = None
  ∧ (∀ pk' p, Project_objects db' !! pk' = Some p → Project_client p ≠ pk)
  ∧ (∀ pk', pk' ≠ pk → Client_objects db' !! pk' = Client_objects db !! pk')
  ∧ (∀ pk' p, Project_objects db !! pk' = Some p → Project_client p ≠ pk →
       Project_objects db' !! pk' = Some p)
  ∧ (∀ pk' a p, Audit_objects db !! pk' = Some a →
       Project_objects db !! project a = Some p → Project_client p ≠ pk →
       Audit_objects db' !! pk' = Some a)
  ∧ (∀ c r a p, r ∈ Checklist_objects db c →
       Audit_objects db !! audit r = Some a →
       Project_objects db !! project a = Some p → Project_client p ≠ pk →
       r ∈ Checklist_objects db' c).
Proof.
  intros (Hproj & Haud & Hrows) db'. unfold db', Client_delete. simpl.
  split_and!.
  - split_and!; simpl.
    + intros pk' p [Hp Hne]%map_lookup_filter_Some. simpl in Hne.
      rewrite lookup_delete_ne by done. by eapply Hproj.
    + intros pk' a [Ha Hgone]%map_lookup_filter_Some. simpl in Hgone.
      destruct (Haud pk' a Ha) as [p Hp]. exists p.
      apply map_lookup_filter_Some. split; [done|]. simpl.
      intros Heq. rewrite (proj2 (map_lookup_filter_Some _ _ _ _) (conj Hp Heq)) in Hgone.
      discriminate.
    + intros c r [Hgone Hin]%list_elem_of_filter.
      destruct (Hrows c r Hin) as [a Ha]. exists a.
      apply map_lookup_filter_Some. split; [done|]. simpl.
      destruct (filter _ (Project_objects db) !! project a) as [p|] eqn:Hp; [|done].
      rewrite (proj2 (map_lookup_filter_Some _ _ _ _) (conj Ha (mk_is_Some _ _ Hp))) in Hgone.
      discriminate.
  - apply lookup_delete_eq.
  - by intros pk' p [Hp Hne]%map_lookup_filter_Some.
  - intros pk' Hne. by apply lookup_delete_ne.
  - intros pk' p Hp Hne. by apply map_lookup_filter_Some.
  - intros pk' a p Ha Hp Hne. apply map_lookup_filter_Some. split; [done|]. simpl.
    apply map_lookup_filter_None. right. intros p' Hp'. simpl. congruence.
  - intros c r a p Hin Ha Hp Hne. apply list_elem_of_filter. split; [|done].
    apply map_lookup_filter_None. right. intros a' Ha'. simpl.
    assert (a' = a) as -> by congruence. intros [p' Hp'].
    apply map_lookup_filter_Some in Hp' as [Hp' Heq]. simpl in Heq. congruence.
Qed.

Lemma client_delete_cascades_witness :
  referential_integrity (Client_delete 1 fixture)
  ∧ Client_objects (Client_delete 1 fixture) !! 1 = None.
Proof.
  destruct (client_delete_cascades 1 fixture fixture_referential_integrity)
    as (Hint & Hgone & _).
  split; [exact Hint|exact Hgone].
Defined.

(** ** The sample loader *)

Lemma matching_insert {A} (lookup : A → bool) (table : gmap Z A) pk x :
  table !! pk = None →
  matching lookup (<[pk := x]> table)
  ≡ₚ (if lookup x then [(pk, x)] else []) ++ matching lookup table.
Proof.
  intros Hfresh. unfold matching. rewrite (map_to_list_insert _ _ _ Hfresh).
  rewrite filter_cons. simpl. by destruct (lookup x).
Qed.

Lemma matching_lookup {A} (lookup : A → bool) (table : gmap Z A) pk x :
  (pk, x) ∈ matching lookup table ↔ table !! pk = Some x ∧ lookup x = true.
Proof.
  unfold matching. rewrite list_elem_of_filter, elem_of_map_to_list. simpl. tauto.
Qed.

(** What [get_or_create] returns is the one row that matches afterwards. *)
Lemma get_or_create_settled {A} model (lookup : A → bool) new table pk created table' :
  get_or_create model lookup new table = inr (pk, created, table') →
  lookup new = true →
  ∃ x, matching lookup table' = [(pk, x)].
Proof.
  unfold get_or_create. intros H Hnew.
  destruct (matching lookup table) as [|[pk0 x0] [|]] eqn:Hm; [| |done].
  - injection H as <- <- <-. exists new.
    apply Permutation_singleton_r.
    rewrite (matching_insert _ _ _ _ (next_pk_fresh table)), Hnew, Hm. done.
  - injection H as <- <- <-. by exists x0.
Qed.

Lemma get_or_create_found {A} model (lookup : A → bool) new table pk x :
  matching lookup table = [(pk, x)] →
  get_or_create model lookup new table = inr (pk, false, table).
Proof. unfold get_or_create. by intros ->. Qed.

(** A row inserted for another lookup does not change what matches. *)
Lemma get_or_create_other {A} model (lookup lookup' : A → bool) new table pk created table' :
  get_or_create model lookup' new table = inr (pk, created, table') →
  lookup new = false →
  matching lookup table' ≡ₚ matching lookup table.
Proof.
  unfold get_or_create. intros H Hnew.
  destruct (matching lookup' table) as [|[pk0 x0] [|]] eqn:Hm; [| |done].
  - injection H as <- <- <-.
    by rewrite (matching_insert _ _ _ _ (next_pk_fresh table)), Hnew.
  - by injection H as <- <- <-.
Qed.

Lemma get_or_create_each_other {I A} model (lookup : A → bool) (lookups : I → A → bool)
    (new : I → A) items table table' :
  get_or_create_each model lookups new items table = (table', None) →
  Forall (λ j, lookup (new j) = false) items →
  matching lookup table' ≡ₚ matching lookup table.
Proof.
  revert table. induction items as [|i items IH]; intros table H Hsep; simpl in H.
  - by injection H as <-.
  - destruct (get_or_create model (lookups i) (new i) table) as [e|[[pk b] t1]] eqn:H1;
      [done|].
    apply Forall_cons in Hsep as [Hi Hsep].
    rewrite (IH _ H Hsep). by eapply get_or_create_other.
Qed.

(** After [get_or_create_each], every item has its one row. *)
Lemma get_or_create_each_settled {I A} model (lookups : I → A → bool) (new : I → A)
    items table table' :
  separate lookups new items →
  get_or_create_each model lookups new items table = (table', None) →
  Forall (λ i, ∃ pk x, matching (lookups i) table' = [(pk, x)]) items.
Proof.
  revert table. induction items as [|i items IH]; intros table Hsep H; simpl in H.
  - constructor.
  - destruct Hsep as (Hi & Hrest & Hsep).
    destruct (get_or_create model (lookups i) (new i) table) as [e|[[pk b] t1]] eqn:H1;
      [done|].
    constructor; [|by eapply IH].
    destruct (get_or_create_settled _ _ _ _ _ _ _ H1 Hi) as [x Hx].
    exists pk, x. apply Permutation_singleton_r.
    rewrite (get_or_create_each_other _ _ _ _ _ _ _ H Hrest). by rewrite Hx.
Qed.

Lemma get_or_create_each_found {I A} model (lookups : I → A → bool) (new : I → A)
    items table :
  Forall (λ i, ∃ pk x, matching (lookups i) table = [(pk, x)]) items →
  get_or_create_each model lookups new items table = (table, None).
Proof.
  induction 1 as [|i items (pk & x & Hx) _ IH]; simpl; [done|].
  by rewrite (get_or_create_found _ _ _ _ _ _ Hx).
Qed.

Lemma LegalAppointment_get_or_create_inr (new : ChecklistItem) (db db' : Database) :
  LegalAppointment_get_or_create new db = inr db' →
  (db' = db
   ∧ ∃ r, filter (λ r, audit r = audit new ∧ code r = code new)
            (Checklist_objects db LegalAppointment) = [r])
  ∨ (db' = set_table db LegalAppointment (Checklist_objects db LegalAppointment ++ [new])
     ∧ filter (λ r, audit r = audit new ∧ code r = code new)
         (Checklist_objects db LegalAppointment) = []
     ∧ is_Some (Audit_objects db !! audit new)
     ∧ (audit new, code new) ∉ recorded (Checklist_objects db LegalAppointment)).
Proof.
  unfold LegalAppointment_get_or_create.
  destruct (filter _ _) as [|r [|]] eqn:Hm; [| |done].
  - destruct (Checklist_create _ _ _) as [e|d] eqn:Hc; [done|].
    intros [= <-]. right. apply Checklist_create_inr in Hc as (? & ? & ->). done.
  - intros [= <-]. left. eauto.
Qed.

(** The insert of [LegalAppointment_get_or_create] cannot collide with a
    stored row: only a missing audit makes it fail. *)
Lemma LegalAppointment_get_or_create_inl (new : ChecklistItem) (db : Database) e :
  LegalAppointment_get_or_create new db = inl e →
  is_Some (Audit_objects db !! audit new) →
  e = MultipleObjectsReturned "LegalAppointment".
Proof.
  unfold LegalAppointment_get_or_create, Checklist_create.
  destruct (filter _ _) as [|r [|]] eqn:Hm; [| done |by intros [= <-]].
  intros H [a Ha]. rewrite Ha in H. rewrite bool_decide_eq_false_2 in H by done.
  case_bool_decide as Hin; [|done]. exfalso.
  apply unique_key_elem_of in Hin. unfold recorded in Hin.
  apply list_elem_of_fmap in Hin as (r & Hr & Hin). injection Hr as Hr1 Hr2.
  assert (Hf : r ∈ filter (λ r, audit r = audit new ∧ code r = code new)
                 (Checklist_objects db LegalAppointment)).
  { apply list_elem_of_filter. auto. }
  rewrite Hm in Hf. by apply elem_of_nil in Hf.
Qed.

(** What [LegalAppointment_get_or_create_each] leaves as it is. *)
Lemma LegalAppointment_get_or_create_each_frame items (db db' : Database) r :
  LegalAppointment_get_or_create_each items db = (db', r) →
  Client_objects db' = Client_objects db
  ∧ Project_objects db' = Project_objects db
  ∧ Audit_objects db' = Audit_objects db
  ∧ User_objects db' = User_objects db
  ∧ ∀ c, c ≠ LegalAppointment → Checklist_objects db' c = Checklist_objects db c.
Proof.
  revert db. induction items as [|i items IH]; intros db H; simpl in H.
  - by injection H as <- <-.
  - destruct (LegalAppointment_get_or_create i db) as [e|d] eqn:H1;
      [by injection H as <- <-|].
    destruct (IH _ H) as (-> & -> & -> & -> & Hc).
    apply LegalAppointment_get_or_create_inr in H1 as [[-> _]|(-> & _)]; [done|].
    split_and!; try done. intros c Hne. rewrite (Hc c Hne).
    rewrite Checklist_objects_set_table. by destruct (decide _).
Qed.

Lemma LegalAppointment_get_or_create_other (k new : ChecklistItem) (db db' : Database) :
  LegalAppointment_get_or_create new db = inr db' →
  ¬ (audit new = audit k ∧ code new = code k) →
  filter (λ r, audit r = audit k ∧ code r = code k) (Checklist_objects db' LegalAppointment)
  = filter (λ r, audit r = audit k ∧ code r = code k) (Checklist_objects db LegalAppointment).
Proof.
  intros H Hne. apply LegalAppointment_get_or_create_inr in H as [[-> _]|(-> & _)]; [done|].
  rewrite Checklist_objects_set_table. destruct (decide _); [|done].
  rewrite filter_app, filter_cons_False by done. by rewrite filter_nil, app_nil_r.
Qed.

Lemma LegalAppointment_get_or_create_each_other (k : ChecklistItem) items (db db' : Database) :
  LegalAppointment_get_or_create_each items db = (db', None) →
  Forall (λ j, ¬ (audit j = audit k ∧ code j = code k)) items →
  filter (λ r, audit r = audit k ∧ code r = code k) (Checklist_objects db' LegalAppointment)
  = filter (λ r, audit r = audit k ∧ code r = code k) (Checklist_objects db LegalAppointment).
Proof.
  revert db. induction items as [|i items IH]; intros db H Hsep; simpl in H.
  - by injection H as <-.
  - destruct (LegalAppointment_get_or_create i db) as [e|d] eqn:H1; [done|].
    apply Forall_cons in Hsep as [Hi Hsep].
    rewrite (IH _ H Hsep). by apply (LegalAppointment_get_or_create_other k i).
Qed.

Lemma LegalAppointment_get_or_create_settled (new : ChecklistItem) (db db' : Database) :
  LegalAppointment_get_or_create new db = inr db' →
  ∃ r, filter (λ r, audit r = audit new ∧ code r = code new)
         (Checklist_objects db' LegalAppointment) = [r].
Proof.
  intros H. apply LegalAppointment_get_or_create_inr in H as [[-> ?]|(-> & Hm & _)]; [done|].
  exists new. rewrite Checklist_objects_set_table. destruct (decide _); [|done].
  rewrite filter_app, Hm, filter_cons_True by done. by rewrite filter_nil.
Qed.

Lemma LegalAppointment_get_or_create_each_settled items (db db' : Database) :
  NoDup (recorded items) →
  LegalAppointment_get_or_create_each items db = (db', None) →
  Forall (λ i, ∃ r, filter (λ r, audit r = audit i ∧ code r = code i)
                      (Checklist_objects db' LegalAppointment) = [r]) items.
Proof.
  revert db. induction items as [|i items IH]; intros db Hsep H; simpl in H.
  - constructor.
  - apply NoDup_cons in Hsep as [Hi Hsep].
    destruct (LegalAppointment_get_or_create i db) as [e|d] eqn:H1; [done|].
    constructor; [|by eapply IH].
    destruct (LegalAppointment_get_or_create_settled _ _ _ H1) as [r Hr].
    exists r. rewrite <- Hr. apply (LegalAppointment_get_or_create_each_other i items); [done|].
    apply Forall_forall. intros j Hj [Ha Hc]. apply Hi.
    unfold recorded. apply list_elem_of_fmap. exists j. by rewrite Ha, Hc.
Qed.

Lemma LegalAppointment_get_or_create_each_found items (db : Database) :
  Forall (λ i, ∃ r, filter (λ r, audit r = audit i ∧ code r = code i)
                      (Checklist_objects db LegalAppointment) = [r]) items →
  LegalAppointment_get_or_create_each items db = (db, None).
Proof.
  induction 1 as [|i items [r Hr] _ IH]; simpl; [done|].
  unfold LegalAppointment_get_or_create. by rewrite Hr.
Qed.

Lemma legal_appointments_NoDup (audit : Z) : NoDup (recorded (legal_appointments audit)).
Proof.
  apply (NoDup_fmap_1 snd). by apply (bool_decide_unpack _).
Qed.

Lemma risk_ratings_separate :
  separate (λ r x : RiskRating, String.eqb (level x) (level r)) id risk_ratings.
Proof. vm_compute. repeat (split || constructor). Qed.

Lemma action_items_separate (audit : Z) :
  separate (λ i x, (ActionItem_audit x =? audit) && String.eqb (description x) (description i))
    id (action_items audit).
Proof.
  unfold action_items. cbn [separate]. unfold id. cbn [ActionItem_audit description].
  rewrite Z.eqb_refl. cbn [andb].
  split_and!; try done; repeat constructor;
    cbn [ActionItem_audit description]; by rewrite Z.eqb_refl.
Qed.

(** The steps of a run of [handle] that reached its last line. *)
Lemma handle_None (db db1 : Tables) out :
  handle db = (db1, out, None) →
  ∃ client firm contractor project audit b1 b2 b3 b4 b5 clients firms contractors
    projects audits d ratings items,
    get_or_create "Client" (λ c, String.eqb (Client_name c) "MBOMBELA MUNICIPALITY")
      mbombela (Client_objects (core db)) = inr (client, b1, clients)
    ∧ get_or_create "ConsultingFirm"
        (λ f, String.eqb (ConsultingFirm_name f) "MK DUBE CONSULTING")
        mk_dube (ConsultingFirm_objects db) = inr (firm, b2, firms)
    ∧ get_or_create "PrincipalContractor"
        (λ c, String.eqb (PrincipalContractor_name c) "GABBY CONSTRUCTION")
        gabby (PrincipalContractor_objects db) = inr (contractor, b3, contractors)
    ∧ get_or_create "Project" (λ p, String.eqb (permit_number p) "MP-CWP/328/09/2024")
        (sample_project client firm contractor) (Project_objects (core db))
      = inr (project, b4, projects)
    ∧ get_or_create "Audit" (λ a, String.eqb (report_number a) "CHS-LSC-2025/06")
        (sample_audit project) (Audit_objects (core db)) = inr (audit, b5, audits)
    ∧ LegalAppointment_get_or_create_each (legal_appointments audit)
        (mkDatabase clients projects audits (Checklist_objects (core db))
           (User_objects (core db))) = (d, None)
    ∧ get_or_create_each "RiskRating" (λ r x, String.eqb (level x) (level r)) id
        risk_ratings (RiskRating_objects db) = (ratings, None)
    ∧ get_or_create_each "ActionItem"
        (λ i x, (ActionItem_audit x =? audit) && String.eqb (description x) (description i))
        id (action_items audit) (ActionItem_objects db) = (items, None)
    ∧ db1 = mkTables d firms contractors ratings items
    ∧ out = ["Loading sample audit data..."]
            ++ (if b4 then ["Created project: " +:+ title (sample_project client firm contractor)]
                else [])
            ++ (if b5 then ["Created audit: " +:+ report_number (sample_audit project)]
                else [])
            ++ ["Successfully loaded sample audit data!"].
Proof.
  unfold handle. cbv zeta.
  cbn [core Client_objects Project_objects Audit_objects Checklist_objects User_objects
       ConsultingFirm_objects PrincipalContractor_objects RiskRating_objects
       ActionItem_objects].
  destruct (get_or_create "Client" _ _ _) as [?|[[client b1] clients]] eqn:Hclient; [done|].
  destruct (get_or_create "ConsultingFirm" _ _ _) as [?|[[firm b2] firms]] eqn:Hfirm; [done|].
  destruct (get_or_create "PrincipalContractor" _ _ _) as [?|[[contractor b3] contractors]]
    eqn:Hcontractor; [done|].
  destruct (get_or_create "Project" _ _ _) as [?|[[project b4] projects]] eqn:Hproject; [done|].
  destruct (get_or_create "Audit" _ _ _) as [?|[[audit b5] audits]] eqn:Haudit; [done|].
  destruct (LegalAppointment_get_or_create_each _ _) as [d [?|]] eqn:Hlegal; [done|].
  destruct (get_or_create_each "RiskRating" _ _ _ _) as [ratings [?|]] eqn:Hratings; [done|].
  destruct (get_or_create_each "ActionItem" _ _ _ _) as [items [?|]] eqn:Hitems; [done|].
  intros [= <- <-].
  exists client, firm, contractor, project, audit, b1, b2, b3, b4, b5, clients, firms,
    contractors, projects, audits, d, ratings, items.
  split_and!; try done. by destruct b4, b5.
Qed.

(** X13: a run of the loader that reached its last line has left the
    tables so that a second run changes nothing, creates nothing and
    writes only the first and the last line. *)
Theorem load_sample_audit_twice (db db1 : Tables) out :
  handle db = (db1, out, None) →
  handle db1
  = (db1, ["Loading sample audit data..."; "Successfully loaded sample audit data!"], None).
Proof.
  intros H. apply handle_None in H
    as (client & firm & contractor & project & audit & b1 & b2 & b3 & b4 & b5 & clients
        & firms & contractors & projects & audits & d & ratings & items
        & Hclient & Hfirm & Hcontractor & Hproject & Haudit & Hlegal & Hratings & Hitems
        & -> & _).
  pose proof (LegalAppointment_get_or_create_each_frame _ _ _ _ Hlegal) as Hframe.
  apply (LegalAppointment_get_or_create_each_settled _ _ _ (legal_appointments_NoDup audit))
    in Hlegal.
  destruct d as [clients' projects' audits' checklists users].
  cbn [Client_objects Project_objects Audit_objects User_objects] in Hframe.
  destruct Hframe as (-> & -> & -> & _ & _).
  apply get_or_create_settled in Hclient as [? Hclient]; [|done].
  apply get_or_create_settled in Hfirm as [? Hfirm]; [|done].
  apply get_or_create_settled in Hcontractor as [? Hcontractor]; [|done].
  apply get_or_create_settled in Hproject as [? Hproject]; [|done].
  apply get_or_create_settled in Haudit as [? Haudit]; [|done].
  apply (get_or_create_each_settled _ _ _ _ _ _ risk_ratings_separate) in Hratings.
  apply (get_or_create_each_settled _ _ _ _ _ _ (action_items_separate audit)) in Hitems.
  unfold handle. cbv zeta.
  cbn [core Client_objects Project_objects Audit_objects Checklist_objects User_objects
       ConsultingFirm_objects PrincipalContractor_objects RiskRating_objects
       ActionItem_objects].
  rewrite (get_or_create_found _ _ _ _ _ _ Hclient).
  rewrite (get_or_create_found _ _ _ _ _ _ Hfirm).
  rewrite (get_or_create_found _ _ _ _ _ _ Hcontractor).
  rewrite (get_or_create_found _ _ _ _ _ _ Hproject).
  rewrite (get_or_create_found _ _ _ _ _ _ Haudit).
  rewrite (LegalAppointment_get_or_create_each_found _ _ Hlegal).
  rewrite (get_or_create_each_found _ _ _ _ _ Hratings).
  rewrite (get_or_create_each_found _ _ _ _ _ Hitems).
  reflexivity.
Qed.

Lemma load_sample_audit_twice_witness :
  handle (handle no_tables).1.1
  = ((handle no_tables).1.1,
     ["Loading sample audit data..."; "Successfully loaded sample audit data!"], None).
Proof.
  apply (load_sample_audit_twice no_tables _ (handle no_tables).1.2).
  vm_compute. reflexivity.
Defined.

Lemma get_or_create_inl {A} model (lookup : A → bool) new table e :
  get_or_create model lookup new table = inl e →
  e = MultipleObjectsReturned model ∧ (2 ≤ length (matching lookup table))%nat.
Proof.
  unfold get_or_create.
  destruct (matching lookup table) as [|[pk0 x0] [|]]; [done|done|].
  intros [= <-]. split; [done|]. simpl. lia.
Qed.

Lemma get_or_create_many {A} model (lookup : A → bool) new table :
  (2 ≤ length (matching lookup table))%nat →
  get_or_create model lookup new table = inl (MultipleObjectsReturned model).
Proof.
  unfold get_or_create.
  destruct (matching lookup table) as [|[pk0 x0] [|]]; simpl; [lia|lia|done].
Qed.

(** [get_or_create] keeps every stored row; the row it returns is stored,
    and a row that was not stored before is the new one, under the
    returned key. *)
Lemma get_or_create_inr {A} model (lookup : A → bool) new table pk created table' :
  get_or_create model lookup new table = inr (pk, created, table') →
  table ⊆ table'
  ∧ (∃ x, table' !! pk = Some x ∧ lookup x = true ∨ table' !! pk = Some new)
  ∧ (∀ k x, table' !! k = Some x → table !! k = Some x ∨ (k = pk ∧ x = new)).
Proof.
  unfold get_or_create.
  destruct (matching lookup table) as [|[pk0 x0] [|]] eqn:Hm; [| |done].
  - intros [= <- <- <-]. split_and!.
    + apply insert_subseteq, next_pk_fresh.
    + exists new. right. apply lookup_insert_eq.
    + intros k x. rewrite lookup_insert_Some. intros [[<- <-]|[_ ?]]; auto.
  - intros [= <- <- <-]. split_and!; [done| |auto].
    exists x0. left. apply matching_lookup. rewrite Hm. apply list_elem_of_here.
Qed.

Lemma get_or_create_is_Some {A} model (lookup : A → bool) new table pk created table' :
  get_or_create model lookup new table = inr (pk, created, table') →
  is_Some (table' !! pk).
Proof.
  intros H. apply get_or_create_inr in H as (_ & (x & [[Hx _]|Hx]) & _); by eexists.
Qed.

Lemma get_or_create_each_result {I A} model (lookups : I → A → bool) (new : I → A)
    items table table' r :
  get_or_create_each model lookups new items table = (table', r) →
  table ⊆ table' ∧ ∀ e, r = Some e → e = MultipleObjectsReturned model.
Proof.
  revert table. induction items as [|i items IH]; intros table H; simpl in H.
  - by injection H as <- <-.
  - destruct (get_or_create model (lookups i) (new i) table) as [e|[[pk b] t1]] eqn:H1.
    + injection H as <- <-. split; [done|]. intros ? [= <-].
      by apply get_or_create_inl in H1 as [-> _].
    + destruct (IH _ H) as [Hsub He]. split; [|done].
      apply get_or_create_inr in H1 as (Hsub1 & _). by etrans.
Qed.

Lemma referential_integrity_insert (db : Database) (new : ChecklistItem) :
  referential_integrity db →
  is_Some (Audit_objects db !! audit new) →
  referential_integrity
    (set_table db LegalAppointment (Checklist_objects db LegalAppointment ++ [new])).
Proof.
  intros (Hp & Ha & Hc) Hnew. split_and!; [done|done|].
  intros c r. rewrite Checklist_objects_set_table. simpl.
  destruct (decide _); [|apply Hc].
  rewrite elem_of_app, list_elem_of_singleton. intros [Hin| ->]; [by eapply Hc|done].
Qed.

(** Whatever ends the loop over the appointments, the rows stay unique per
    audit and code, the references stay valid, the stored appointments stay
    where they are, and the loop is not ended by the database. *)
Lemma LegalAppointment_get_or_create_each_result items (db db' : Database) r :
  LegalAppointment_get_or_create_each items db = (db', r) →
  (unique_per_audit db → unique_per_audit db')
  ∧ (referential_integrity db → referential_integrity db')
  ∧ Checklist_objects db LegalAppointment `prefix_of` Checklist_objects db' LegalAppointment
  ∧ (Forall (λ i, is_Some (Audit_objects db !! audit i)) items →
     ∀ e, r = Some e → e = MultipleObjectsReturned "LegalAppointment").
Proof.
  revert db. induction items as [|i items IH]; intros db H; simpl in H.
  - by injection H as <- <-.
  - destruct (LegalAppointment_get_or_create i db) as [e|d] eqn:H1.
    + injection H as <- <-. split_and!; try done.
      intros Hall ? [= <-]. apply Forall_cons in Hall as [Hi _].
      by apply (LegalAppointment_get_or_create_inl i db).
    + destruct (IH _ H) as (Hu & Hr & Hpre & He).
      apply LegalAppointment_get_or_create_inr in H1
        as [[-> _]|(-> & _ & Hsome & Hfresh)].
      { split_and!; try done. intros Hall. apply He. by apply Forall_cons in Hall as [_ ?]. }
      split_and!.
      * intros ?. by apply Hu, unique_per_audit_insert.
      * intros ?. by apply Hr, referential_integrity_insert.
      * etrans; [|exact Hpre]. rewrite Checklist_objects_set_table.
        destruct (decide _); [|done]. by apply prefix_app_r.
      * intros Hall. apply He. by apply Forall_cons in Hall as [_ ?].
Qed.

(** X14: the loader can only be ended by a lookup that finds more than one
    row ([MultipleObjectsReturned] of one of its eight models), never by
    the database refusing an insert; and then the last line is not
    written. *)
Theorem load_sample_audit_fails_only_on_duplicates (db db' : Tables) out e :
  handle db = (db', out, Some e) →
  (∃ model, e = MultipleObjectsReturned model
            ∧ model ∈ ["Client"; "ConsultingFirm"; "PrincipalContractor"; "Project";
                       "Audit"; "LegalAppointment"; "RiskRating"; "ActionItem"])
  ∧ ("Successfully loaded sample audit data!" ∉ out).
Proof.
  unfold handle. cbv zeta.
  cbn [core Client_objects Project_objects Audit_objects Checklist_objects User_objects
       ConsultingFirm_objects PrincipalContractor_objects RiskRating_objects
       ActionItem_objects].
  destruct (get_or_create "Client" _ _ _) as [?|[[client b1] clients]] eqn:Hclient.
  { intros [= <- <- <-]. apply get_or_create_inl in Hclient as [-> _].
    split; [|by apply (bool_decide_unpack _)]. eexists. split; [done|]. set_solver. }
  destruct (get_or_create "ConsultingFirm" _ _ _) as [?|[[firm b2] firms]] eqn:Hfirm.
  { intros [= <- <- <-]. apply get_or_create_inl in Hfirm as [-> _].
    split; [|by apply (bool_decide_unpack _)]. eexists. split; [done|]. set_solver. }
  destruct (get_or_create "PrincipalContractor" _ _ _) as [?|[[contractor b3] contractors]]
    eqn:Hcontractor.
  { intros [= <- <- <-]. apply get_or_create_inl in Hcontractor as [-> _].
    split; [|by apply (bool_decide_unpack _)]. eexists. split; [done|]. set_solver. }
  destruct (get_or_create "Project" _ _ _) as [?|[[project b4] projects]] eqn:Hproject.
  { intros [= <- <- <-]. apply get_or_create_inl in Hproject as [-> _].
    split; [|by apply (bool_decide_unpack _)]. eexists. split; [done|]. set_solver. }
  destruct (get_or_create "Audit" _ _ _) as [?|[[audit b5] audits]] eqn:Haudit.
  { intros [= <- <- <-]. apply get_or_create_inl in Haudit as [-> _].
    split; [|by destruct b4; apply (bool_decide_unpack _)]. eexists. split; [done|]. set_solver. }
  destruct (LegalAppointment_get_or_create_each _ _) as [d [?|]] eqn:Hlegal.
  { intros [= <- <- <-].
    apply LegalAppointment_get_or_create_each_result in Hlegal as (_ & _ & _ & He).
    apply get_or_create_is_Some in Haudit.
    rewrite (He ltac:(by repeat constructor) _ eq_refl).
    split; [|by destruct b4, b5; apply (bool_decide_unpack _)].
    eexists. split; [done|]. set_solver. }
  destruct (get_or_create_each "RiskRating" _ _ _ _) as [ratings [?|]] eqn:Hratings.
  { intros [= <- <- <-]. apply get_or_create_each_result in Hratings as [_ He].
    rewrite (He _ eq_refl). split; [|by destruct b4, b5; apply (bool_decide_unpack _)]. eexists. split; [done|]. set_solver. }
  destruct (get_or_create_each "ActionItem" _ _ _ _) as [items [?|]] eqn:Hitems; [|done].
  intros [= <- <- <-]. apply get_or_create_each_result in Hitems as [_ He].
  rewrite (He _ eq_refl). split; [|by destruct b4, b5; apply (bool_decide_unpack _)]. eexists. split; [done|]. set_solver.
Qed.

(** The empty database with two clients of the loader's name. *)
Lemma load_sample_audit_fails_only_on_duplicates_witness :
  (∃ model, MultipleObjectsReturned "Client" = MultipleObjectsReturned model
            ∧ model ∈ ["Client"; "ConsultingFirm"; "PrincipalContractor"; "Project";
                       "Audit"; "LegalAppointment"; "RiskRating"; "ActionItem"])
  ∧ ("Successfully loaded sample audit data!" ∉ ["Loading sample audit data..."]).
Proof.
  apply (load_sample_audit_fails_only_on_duplicates two_clients two_clients).
  vm_compute. reflexivity.
Defined.

(** X15: the loader runs outside a transaction.  On a database without
    its client and with two audits of its report number it is ended by an
    exception, and the client it has inserted by then stays. *)
Theorem load_sample_audit_not_atomic (db : Tables) :
  matching (λ c, String.eqb (Client_name c) "MBOMBELA MUNICIPALITY")
    (Client_objects (core db)) = [] →
  (2 ≤ length (matching (λ a, String.eqb (report_number a) "CHS-LSC-2025/06")
                 (Audit_objects (core db))))%nat →
  ∃ db' out e,
    handle db = (db', out, Some e)
    ∧ Client_objects (core db) !! next_pk (Client_objects (core db)) = None
    ∧ Client_objects (core db') !! next_pk (Client_objects (core db)) = Some mbombela.
Proof.
  intros Hclient Haudit. unfold handle. cbv zeta.
  cbn [core Client_objects Project_objects Audit_objects Checklist_objects User_objects
       ConsultingFirm_objects PrincipalContractor_objects RiskRating_objects
       ActionItem_objects].
  unfold get_or_create at 1. rewrite Hclient.
  destruct (get_or_create "ConsultingFirm" _ _ _) as [?|[[firm b2] firms]].
  { do 3 eexists. split_and!; [done|apply next_pk_fresh|apply lookup_insert_eq]. }
  destruct (get_or_create "PrincipalContractor" _ _ _) as [?|[[contractor b3] contractors]].
  { do 3 eexists. split_and!; [done|apply next_pk_fresh|apply lookup_insert_eq]. }
  destruct (get_or_create "Project" _ _ _) as [?|[[project b4] projects]].
  { do 3 eexists. split_and!; [done|apply next_pk_fresh|apply lookup_insert_eq]. }
  rewrite (get_or_create_many _ _ _ _ Haudit).
  do 3 eexists. split_and!; [done|apply next_pk_fresh|apply lookup_insert_eq].
Qed.

Lemma load_sample_audit_not_atomic_witness :
  ∃ db' out e,
    handle two_audits = (db', out, Some e)
    ∧ Client_objects (core two_audits) !! next_pk (Client_objects (core two_audits)) = None
    ∧ Client_objects (core db') !! next_pk (Client_objects (core two_audits)) = Some mbombela.
Proof.
  apply (load_sample_audit_not_atomic two_audits).
  - vm_compute. reflexivity.
  - vm_compute. lia.
Defined.

(** X16: after a run that reached its last line, the appointments hold a
    row with the code ['ELECT_INSP'], which is none of the choices of
    [LegalAppointment.appointment_type] (these have ['ELEC_INSP']). *)
Theorem load_sample_audit_code_outside_choices (db db1 : Tables) out :
  handle db = (db1, out, None) →
  ∃ r, r ∈ Checklist_objects (core db1) LegalAppointment
       ∧ code r = "ELECT_INSP"
       ∧ (code r ∉ choices LegalAppointment).
Proof.
  intros H. apply handle_None in H
    as (client & firm & contractor & project & a & b1 & b2 & b3 & b4 & b5 & clients
        & firms & contractors & projects & audits & d & ratings & items
        & _ & _ & _ & _ & _ & Hlegal & _ & _ & -> & _).
  apply (LegalAppointment_get_or_create_each_settled _ _ _ (legal_appointments_NoDup a))
    in Hlegal.
  unfold legal_appointments in Hlegal.
  do 4 apply Forall_cons in Hlegal as [_ Hlegal].
  apply Forall_cons in Hlegal as [[r Hr] _].
  cbn [audit code] in Hr.
  assert (Hin : r ∈ filter (λ r, audit r = a ∧ code r = "ELECT_INSP")
                  (Checklist_objects d LegalAppointment)).
  { rewrite Hr. apply list_elem_of_here. }
  apply list_elem_of_filter in Hin as [[_ Hcode] Hin].
  exists r. split_and!; [done|done|].
  rewrite Hcode. by apply (bool_decide_unpack _).
Qed.

Lemma load_sample_audit_code_outside_choices_witness :
  ∃ r, r ∈ Checklist_objects (core (handle no_tables).1.1) LegalAppointment
       ∧ code r = "ELECT_INSP"
       ∧ (code r ∉ choices LegalAppointment).
Proof.
  apply (load_sample_audit_code_outside_choices no_tables _ (handle no_tables).1.2).
  vm_compute. reflexivity.
Defined.

Lemma referential_integrity_clients (db : Database) clients :
  referential_integrity db →
  Client_objects db ⊆ clients →
  referential_integrity
    (mkDatabase clients (Project_objects db) (Audit_objects db) (Checklist_objects db)
       (User_objects db)).
Proof.
  intros (Hp & Ha & Hc) Hsub. split_and!; [|done|done].
  intros pk p Hpk. cbn [Client_objects Project_objects] in *.
  destruct (Hp pk p Hpk) as [x Hx]. exists x. by eapply lookup_weaken.
Qed.

Lemma referential_integrity_projects (db : Database) projects :
  referential_integrity db →
  Project_objects db ⊆ projects →
  (∀ k p, projects !! k = Some p →
     Project_objects db !! k = Some p ∨ is_Some (Client_objects db !! Project_client p)) →
  referential_integrity
    (mkDatabase (Client_objects db) projects (Audit_objects db) (Checklist_objects db)
       (User_objects db)).
Proof.
  intros (Hp & Ha & Hc) Hsub Hnew. split_and!; [| |done].
  - intros pk p Hpk. cbn [Client_objects Project_objects] in *.
    destruct (Hnew pk p Hpk) as [Hold|?]; [by eapply Hp|done].
  - intros pk a Hpk. cbn [Audit_objects Project_objects] in *.
    destruct (Ha pk a Hpk) as [x Hx]. exists x. by eapply lookup_weaken.
Qed.

Lemma referential_integrity_audits (db : Database) audits :
  referential_integrity db →
  Audit_objects db ⊆ audits →
  (∀ k a, audits !! k = Some a →
     Audit_objects db !! k = Some a ∨ is_Some (Project_objects db !! project a)) →
  referential_integrity
    (mkDatabase (Client_objects db) (Project_objects db) audits (Checklist_objects db)
       (User_objects db)).
Proof.
  intros (Hp & Ha & Hc) Hsub Hnew. split_and!; [done| |].
  - intros pk a Hpk. cbn [Audit_objects Project_objects] in *.
    destruct (Hnew pk a Hpk) as [Hold|?]; [by eapply Ha|done].
  - intros c r Hin. cbn [Audit_objects Checklist_objects] in *.
    destruct (Hc c r Hin) as [x Hx]. exists x. by eapply lookup_weaken.
Qed.

(** The tables [Command.handle] leaves, whatever its outcome: tables that
    contain the stored ones, where a project or an audit that was not
    stored refers to a stored row, and appointments written by the loop
    over a part of the list. *)
Lemma handle_tables (db : Tables) :
  ∃ clients firms contractors projects audits d appointments r ratings items,
    (handle db).1.1 = mkTables d firms contractors ratings items
    ∧ Client_objects (core db) ⊆ clients
    ∧ ConsultingFirm_objects db ⊆ firms
    ∧ PrincipalContractor_objects db ⊆ contractors
    ∧ RiskRating_objects db ⊆ ratings
    ∧ ActionItem_objects db ⊆ items
    ∧ Project_objects (core db) ⊆ projects
    ∧ (∀ k p, projects !! k = Some p →
         Project_objects (core db) !! k = Some p ∨ is_Some (clients !! Project_client p))
    ∧ Audit_objects (core db) ⊆ audits
    ∧ (∀ k a, audits !! k = Some a →
         Audit_objects (core db) !! k = Some a ∨ is_Some (projects !! project a))
    ∧ LegalAppointment_get_or_create_each appointments
        (mkDatabase clients projects audits (Checklist_objects (core db))
           (User_objects (core db))) = (d, r).
Proof.
  destruct db as [[clients0 projects0 audits0 checklists users] firms0 contractors0
                    ratings0 items0].
  unfold handle. cbv zeta.
  cbn [core Client_objects Project_objects Audit_objects Checklist_objects User_objects
       ConsultingFirm_objects PrincipalContractor_objects RiskRating_objects
       ActionItem_objects].
  destruct (get_or_create "Client" _ _ _) as [?|[[client b1] clients]] eqn:Hclient.
  { eexists clients0, firms0, contractors0, projects0, audits0, _, [], None, ratings0, items0.
    split_and!; try done; auto. }
  apply get_or_create_inr in Hclient as (Hclients & Hclient & _).
  assert (is_Some (clients !! client)) as Hc.
  { destruct Hclient as (? & [[? _]|?]); by eexists. }
  clear Hclient.
  destruct (get_or_create "ConsultingFirm" _ _ _) as [?|[[firm b2] firms]] eqn:Hfirm.
  { eexists clients, firms0, contractors0, projects0, audits0, _, [], None, ratings0, items0.
    split_and!; try done; auto. }
  apply get_or_create_inr in Hfirm as (Hfirms & _).
  destruct (get_or_create "PrincipalContractor" _ _ _) as [?|[[contractor b3] contractors]]
    eqn:Hcontractor.
  { eexists clients, firms, contractors0, projects0, audits0, _, [], None, ratings0, items0.
    split_and!; try done; auto. }
  apply get_or_create_inr in Hcontractor as (Hcontractors & _).
  destruct (get_or_create "Project" _ _ _) as [?|[[pj b4] projects]] eqn:Hproject.
  { eexists clients, firms, contractors, projects0, audits0, _, [], None, ratings0, items0.
    split_and!; try done; auto. }
  apply get_or_create_inr in Hproject as (Hprojects & Hproject & Hp).
  assert (is_Some (projects !! pj)) as Hpr.
  { destruct Hproject as (? & [[? _]|?]); by eexists. }
  clear Hproject.
  assert (∀ k p, projects !! k = Some p →
            projects0 !! k = Some p ∨ is_Some (clients !! Project_client p)) as Hp'.
  { intros k p Hk. destruct (Hp k p Hk) as [?|[_ ->]]; auto. }
  destruct (get_or_create "Audit" _ _ _) as [?|[[a b5] audits]] eqn:Haudit.
  { eexists clients, firms, contractors, projects, audits0, _, [], None, ratings0, items0.
    split_and!; try done; auto. }
  apply get_or_create_inr in Haudit as (Haudits & _ & Ha).
  assert (∀ k x, audits !! k = Some x →
            audits0 !! k = Some x ∨ is_Some (projects !! project x)) as Ha'.
  { intros k x Hk. destruct (Ha k x Hk) as [?|[_ ->]]; auto. }
  destruct (LegalAppointment_get_or_create_each _ _) as [d [?|]] eqn:Hlegal.
  { eexists clients, firms, contractors, projects, audits, d, (legal_appointments a), _,
      ratings0, items0.
    split_and!; try done; auto. }
  destruct (get_or_create_each "RiskRating" _ _ _ _) as [ratings r] eqn:Hratings.
  apply get_or_create_each_result in Hratings as [Hratings _].
  destruct r.
  { eexists clients, firms, contractors, projects, audits, d, (legal_appointments a), _,
      ratings, items0.
    split_and!; try done; auto. }
  destruct (get_or_create_each "ActionItem" _ _ _ _) as [items r] eqn:Hitems.
  apply get_or_create_each_result in Hitems as [Hitems _].
  eexists clients, firms, contractors, projects, audits, d, (legal_appointments a), _,
    ratings, items.
  by destruct r.
Qed.

(** X17: whatever its outcome, the loader only adds rows: every stored row
    of every table is there afterwards under its key, the stored
    appointments stay a prefix of the appointments, and the other checklist
    tables and the users are as they were. *)
Theorem load_sample_audit_only_adds (db : Tables) :
  Client_objects (core db) ⊆ Client_objects (core (handle db).1.1)
  ∧ Project_objects (core db) ⊆ Project_objects (core (handle db).1.1)
  ∧ Audit_objects (core db) ⊆ Audit_objects (core (handle db).1.1)
  ∧ ConsultingFirm_objects db ⊆ ConsultingFirm_objects (handle db).1.1
  ∧ PrincipalContractor_objects db ⊆ PrincipalContractor_objects (handle db).1.1
  ∧ RiskRating_objects db ⊆ RiskRating_objects (handle db).1.1
  ∧ ActionItem_objects db ⊆ ActionItem_objects (handle db).1.1
  ∧ Checklist_objects (core db) LegalAppointment
      `prefix_of` Checklist_objects (core (handle db).1.1) LegalAppointment
  ∧ (∀ c, c ≠ LegalAppointment →
       Checklist_objects (core (handle db).1.1) c = Checklist_objects (core db) c)
  ∧ User_objects (core (handle db).1.1) = User_objects (core db).
Proof.
  destruct (handle_tables db)
    as (clients & firms & contractors & projects & audits & d & appointments & r & ratings
        & items & -> & ? & ? & ? & ? & ? & ? & _ & ? & _ & Hlegal).
  cbn [core ConsultingFirm_objects PrincipalContractor_objects RiskRating_objects
       ActionItem_objects].
  destruct (LegalAppointment_get_or_create_each_frame _ _ _ _ Hlegal)
    as (-> & -> & -> & -> & Hc).
  apply LegalAppointment_get_or_create_each_result in Hlegal as (_ & _ & Hpre & _).
  split_and!; done.
Qed.

(** X18: whatever its outcome, the loader keeps the checklist rows unique
    per audit and code and keeps the references of projects, audits and
    checklist rows valid. *)
Theorem load_sample_audit_keeps_invariants (db : Tables) :
  unique_per_audit (core db) →
  referential_integrity (core db) →
  unique_per_audit (core (handle db).1.1)
  ∧ referential_integrity (core (handle db).1.1).
Proof.
  intros Hu Hr.
  destruct (handle_tables db)
    as (clients & firms & contractors & projects & audits & d & appointments & r & ratings
        & items & -> & Hclients & _ & _ & _ & _ & Hprojects & Hp & Haudits & Ha & Hlegal).
  cbn [core].
  apply LegalAppointment_get_or_create_each_result in Hlegal as (Hu' & Hr' & _).
  split; [by apply Hu'|apply Hr'].
  apply (referential_integrity_clients _ clients) in Hr; [|done].
  apply (referential_integrity_projects _ projects) in Hr; [|done|done].
  by apply (referential_integrity_audits _ audits) in Hr.
Qed.

(** The fixture of [audit/tests.py], with the other tables empty. *)
Lemma load_sample_audit_keeps_invariants_witness :
  unique_per_audit (core (handle fixture_tables).1.1)
  ∧ referential_integrity (core (handle fixture_tables).1.1).
Proof.
  apply (load_sample_audit_keeps_invariants fixture_tables).
  - intros c. apply NoDup_nil_2.
  - exact fixture_referential_integrity.
Defined.
